(** * Cocos trading API: order execution, ledger reads and portfolio valuation

    A shallow embedding of

    - [src/repositories/order.repository.ts]   (the order ledger),
    - [src/services/order.service.ts]          (executeOrder, cancelOrder, ...),
    - [src/services/portfolio.service.ts]      (getUserPortfolio),
    - [src/repositories/marketdata.repository.ts], the user and
      instrument repositories                  (the lookups),
    - [src/validators/order.validator.ts], [src/controllers/*.ts] and
      [src/middlewares/errorHandler.ts]        (the HTTP boundary),

    together with the small part of decimal.js that those files call.

    PostgreSQL is modelled as a record of tables (lists of rows); a
    service call is a function from the database to a result and a new
    database.  The embedding is sequential: [FOR UPDATE] row locks have no
    effect on a single call and are not represented.

    Numbers.  A JavaScript number that counts (a size, a quantity, an id)
    is an integer of [Z]; an amount of money is a rational of [Q].  The
    rounding of IEEE doubles is not represented.  [Decimal] values follow
    decimal.js, including its rounding to twenty significant digits.
    Timestamps are integers.  Rows are stored as they are given: the
    scale and range of the columns are not represented, only the refusal
    of a text that is not a number.  Logging is left out. *)

From Stdlib Require Import ZArith QArith Qround Qabs Qpower List String Bool Lia.
From Stdlib Require Import Setoid Morphisms.
From Stdlib Require Import DecimalString.
From Stdlib Require Import Sorting.Sorted Sorting.Permutation.
Import ListNotations.

Local Open Scope Z_scope.

(* ================================================================== *)
(** ** decimal.js *)
(* ================================================================== *)

(** A finite [Decimal] is a rational number.  The repository never calls
    [Decimal.set], so the library runs with its defaults: [precision = 20]
    significant digits and [rounding = ROUND_HALF_UP] (nearest, ties away
    from zero).  [plus], [minus], [times] and [dividedBy] round their
    result to [precision] significant digits; the constructor, the
    comparisons, [floor] and [toDecimalPlaces] do not. *)
Module Dec.

Definition t : Type := Q.
Bind Scope Q_scope with t.

Definition precision : Z := 20.

(** Number of decimal digits of a positive integer. *)
Fixpoint ndigits_aux (fuel : nat) (n : Z) : Z :=
  match fuel with
  | O => 0
  | S fuel' => if n <? 10 then 1 else 1 + ndigits_aux fuel' (n / 10)
  end.

Definition ndigits (n : Z) : Z :=
  ndigits_aux (S (Z.to_nat (Z.log2 n))) n.

Definition pow10 (k : Z) : Q := (10 ^ k)%Q.

(** The decimal exponent [e] of a non-zero [x]: [10^e <= |x| < 10^(e+1)]. *)
Definition exponent (x : Q) : Z :=
  let k := ndigits (Z.abs (Qnum x)) - ndigits (Zpos (Qden x)) in
  if Qle_bool (pow10 k) (Qabs x) then k else k - 1.

(** Nearest integer, ties away from zero (ROUND_HALF_UP). *)
Definition round_half_up (x : Q) : Z :=
  if Qle_bool 0 x then Qfloor (x + (1 # 2)) else - Qfloor (- x + (1 # 2)).

(** [finalise x sd]: round [x] to [sd] significant digits. *)
Definition finalise (x : Q) (sd : Z) : Q :=
  if Qeq_bool x 0 then 0%Q
  else
    let unit := pow10 (exponent x - (sd - 1)) in
    Qred (inject_Z (round_half_up (x / unit)) * unit).

Definition plus (x y : t) : t := finalise (x + y) precision.
Definition minus (x y : t) : t := finalise (x - y) precision.
Definition times (x y : t) : t := finalise (x * y) precision.

(** [x.dividedBy(y)] for [y <> 0].  With [y = 0] decimal.js answers
    [Infinity] or [NaN]; callers that can meet a zero divisor test for
    it before they call this function. *)
Definition dividedBy (x y : t) : t := finalise (x / y) precision.

(** [x.floor()]: the greatest integer below [x]. *)
Definition floor (x : t) : Z := Qfloor x.

(** [x.toDecimalPlaces(dp)], default rounding mode. *)
Definition toDecimalPlaces (x : t) (dp : Z) : t :=
  Qred (inject_Z (round_half_up (x * pow10 dp)) * pow10 (- dp)).

Definition lessThan (x y : t) : bool := negb (Qle_bool y x).
Definition greaterThan (x y : t) : bool := negb (Qle_bool x y).

(** [x.toNumber()]: the double nearest to [x].  Doubles are not
    modelled; the value is kept as the decimal it was converted from. *)
Definition toNumber (x : t) : Q := x.

Definition ofZ (n : Z) : t := inject_Z n.

(** [x] is left unchanged by rounding to the working precision. *)
Definition exact (x : Q) : Prop := (finalise x precision == x)%Q.

End Dec.

(* ================================================================== *)
(** ** Constants and row types ([constants/instruments.ts], [models/]) *)
(* ================================================================== *)

Definition ARS_INSTRUMENT_ID : Z := 66.

Inductive OrderType := MARKET | LIMIT.
Inductive OrderSide := BUY | SELL | CASH_IN | CASH_OUT.
Inductive OrderStatus := NEW | FILLED | REJECTED | CANCELLED.
Inductive InstrumentType := ACCIONES | MONEDA.

Definition OrderType_eqb (a b : OrderType) : bool :=
  match a, b with MARKET, MARKET | LIMIT, LIMIT => true | _, _ => false end.

Definition OrderSide_eqb (a b : OrderSide) : bool :=
  match a, b with
  | BUY, BUY | SELL, SELL | CASH_IN, CASH_IN | CASH_OUT, CASH_OUT => true
  | _, _ => false
  end.

Definition OrderStatus_eqb (a b : OrderStatus) : bool :=
  match a, b with
  | NEW, NEW | FILLED, FILLED | REJECTED, REJECTED | CANCELLED, CANCELLED => true
  | _, _ => false
  end.

Definition OrderSide_toString (s : OrderSide) : string :=
  match s with
  | BUY => "BUY" | SELL => "SELL" | CASH_IN => "CASH_IN" | CASH_OUT => "CASH_OUT"
  end.

Definition OrderStatus_toString (s : OrderStatus) : string :=
  match s with
  | NEW => "NEW" | FILLED => "FILLED"
  | REJECTED => "REJECTED" | CANCELLED => "CANCELLED"
  end.

(** Template-literal interpolation of an integer. *)
Definition Z_toString (n : Z) : string := NilZero.string_of_int (Z.to_int n).

Module User.
Record t := mk { id : Z; email : string; accountNumber : string }.
End User.

Module Instrument.
Record t := mk { id : Z; ticker : string; name : string; type : InstrumentType }.
End Instrument.

Module LatestMarketData.
Record t := mk { instrumentId : Z; close : Q; previousClose : Q; date : Z }.
End LatestMarketData.

(** A row of the [orders] table.  [size] is an INTEGER column, [price] a
    NUMERIC column (an exact decimal), [datetime] a timestamp. *)
Module Order.
Record t := mk {
  id : Z;
  instrumentId : Z;
  userId : Z;
  size : Z;
  price : Q;
  type : OrderType;
  side : OrderSide;
  status : OrderStatus;
  datetime : Z
}.

Definition withStatus (s : OrderStatus) (o : t) : t :=
  mk (id o) (instrumentId o) (userId o) (size o) (price o) (type o) (side o)
     s (datetime o).
End Order.

(** [CreateOrderInput]: [size], [amount] and [price] are optional. *)
Module CreateOrderInput.
Record t := mk {
  userId : Z;
  instrumentId : Z;
  side : OrderSide;
  type : OrderType;
  size : option Z;
  amount : option Q;
  price : option Q
}.

Definition withPrice (p : option Q) (i : t) : t :=
  mk (userId i) (instrumentId i) (side i) (type i) (size i) (amount i) p.
End CreateOrderInput.

(** The execution price is a JavaScript string: the NUMERIC text of a
    market close, or [String(input.price)], which is the text
    [undefined] when the input carries no price. *)
Inductive PriceString :=
| PriceText (p : Q)
| PriceUndefinedText.

Definition String_of_price (p : option Q) : PriceString :=
  match p with
  | Some q => PriceText q
  | None => PriceUndefinedText
  end.

(* ================================================================== *)
(** ** The database and the transaction primitive ([config/database.ts]) *)
(* ================================================================== *)

Record Db := mkDb {
  users : list User.t;
  instruments : list Instrument.t;
  marketdata : list LatestMarketData.t;
  orders : list Order.t;
  nextOrderId : Z;   (* the serial behind orders.id *)
  now : Z            (* what NOW() answers *)
}.

Inductive Error :=
| NotFoundError (message : string)
| BusinessRuleError (message : string)
| DecimalError (message : string)    (* raised by decimal.js *)
| DatabaseError (message : string)   (* raised by PostgreSQL *)
| TypeError (message : string).      (* raised by the JavaScript runtime *)

Inductive Result (A : Type) :=
| Ok (a : A)
| Err (e : Error).
Arguments Ok {A} a.
Arguments Err {A} e.

(** A computation that reads and writes the database and may throw. *)
Definition M (A : Type) : Type := Db -> Result A * Db.

Definition ret {A} (a : A) : M A := fun db => (Ok a, db).
Definition throw {A} (e : Error) : M A := fun db => (Err e, db).
Definition bind {A B} (c : M A) (k : A -> M B) : M B :=
  fun db =>
    match c db with
    | (Ok a, db') => k a db'
    | (Err e, db') => (Err e, db')
    end.
Definition gets {A} (f : Db -> A) : M A := fun db => (Ok (f db), db).

Notation "x <- c ;; k" := (bind c (fun x => k))
  (at level 61, c at next level, right associativity).

(** [transaction(callback)]: COMMIT when the callback returns, ROLLBACK
    and rethrow when it throws. *)
Definition transaction {A} (callback : M A) : M A :=
  fun db =>
    match callback db with
    | (Ok a, db') => (Ok a, db')
    | (Err e, _) => (Err e, db)
    end.

(* ================================================================== *)
(** ** Sorting helpers (ORDER BY, Array.prototype.sort) *)
(* ================================================================== *)

Fixpoint insertBy {A} (le : A -> A -> bool) (x : A) (l : list A) : list A :=
  match l with
  | [] => [x]
  | y :: l' => if le x y then x :: l else y :: insertBy le x l'
  end.

(** A stable sort: of two rows that compare equal, the earlier stays first. *)
Definition sortBy {A} (le : A -> A -> bool) (l : list A) : list A :=
  fold_right (insertBy le) [] l.

(* ================================================================== *)
(** ** Repositories *)
(* ================================================================== *)

Module UserRepository.
Definition findUserById (db : Db) (userId : Z) : option User.t :=
  find (fun u => User.id u =? userId) (users db).
End UserRepository.

Module InstrumentRepository.
Definition findInstrumentById (db : Db) (instrumentId : Z)
  : option Instrument.t :=
  find (fun i => Instrument.id i =? instrumentId) (instruments db).

(** [findInstrumentsByIds] followed by
    [new Map(instruments.map((i) => [i.id, i]))], as the lookup it
    supports. *)
Definition findInstrumentsByIds (db : Db) (instrumentIds : list Z)
  : Z -> option Instrument.t :=
  fun i =>
    if existsb (Z.eqb i) instrumentIds then findInstrumentById db i else None.
End InstrumentRepository.

Module MarketDataRepository.
(** [WHERE instrumentid = $1 ORDER BY date DESC LIMIT 1]. *)
Definition getLatestMarketDataForInstrument (db : Db) (instrumentId : Z)
  : option LatestMarketData.t :=
  hd_error
    (sortBy (fun a b => LatestMarketData.date b <=? LatestMarketData.date a)
       (filter (fun m => LatestMarketData.instrumentId m =? instrumentId)
          (marketdata db))).

(** [SELECT DISTINCT ON (instrumentid) ... WHERE instrumentid = ANY($1)
    ORDER BY instrumentid, date DESC], as the lookup of the returned Map. *)
Definition getLatestMarketDataForInstruments (db : Db) (instrumentIds : list Z)
  : Z -> option LatestMarketData.t :=
  fun i =>
    if existsb (Z.eqb i) instrumentIds
    then getLatestMarketDataForInstrument db i
    else None.
End MarketDataRepository.

Module OrderRepository.

(** The argument of [createOrder]. *)
Record OrderData := mkOrderData {
  instrumentId : Z;
  userId : Z;
  size : Z;
  price : PriceString;
  type : OrderType;
  side : OrderSide;
  status : OrderStatus
}.

(** [INSERT INTO orders ... VALUES (..., NOW()) RETURNING ...].  The
    NUMERIC column refuses a price text that is not a number. *)
Definition createOrder (orderData : OrderData) : M Order.t :=
  fun db =>
    match price orderData with
    | PriceUndefinedText =>
        (Err (DatabaseError "invalid input syntax for type numeric"), db)
    | PriceText p =>
        let row :=
          Order.mk (nextOrderId db) (instrumentId orderData)
            (userId orderData) (size orderData) p (type orderData)
            (side orderData) (status orderData) (now db) in
        (Ok row,
         mkDb (users db) (instruments db) (marketdata db)
           (orders db ++ [row]) (nextOrderId db + 1) (now db))
    end.

(** [JOIN instruments i ON o.instrumentid = i.id WHERE o.id = $1]. *)
Definition findOrderById (db : Db) (orderId : Z)
  : option (Order.t * Instrument.t) :=
  match find (fun o => Order.id o =? orderId) (orders db) with
  | None => None
  | Some o =>
      match InstrumentRepository.findInstrumentById db (Order.instrumentId o) with
      | None => None
      | Some i => Some (o, i)
      end
  end.

(** [WHERE userid = $1 AND status = 'FILLED' ORDER BY datetime ASC]. *)
Definition getFilledOrdersByUserId (db : Db) (userId : Z) : list Order.t :=
  sortBy (fun a b => Order.datetime a <=? Order.datetime b)
    (filter (fun o => (Order.userId o =? userId)
                      && OrderStatus_eqb (Order.status o) FILLED)
       (orders db)).

(** The CASE expression summed by [getUserPositionForInstrument]. *)
Definition positionEffect (o : Order.t) : Z :=
  match Order.side o with
  | BUY => Order.size o
  | SELL => - Order.size o
  | _ => 0
  end.

(** Net FILLED BUY/SELL size of one instrument.  With a client the
    query adds [FOR UPDATE]; the value is the same. *)
Definition getUserPositionForInstrument (db : Db) (userId instrumentId : Z)
  : Z :=
  fold_right Z.add 0
    (map positionEffect
       (filter (fun o => (Order.userId o =? userId)
                         && (Order.instrumentId o =? instrumentId)
                         && OrderStatus_eqb (Order.status o) FILLED
                         && (OrderSide_eqb (Order.side o) BUY
                             || OrderSide_eqb (Order.side o) SELL))
          (orders db))).

(** The CASE expression summed by [getUserAvailableCash]; SQL NUMERIC
    arithmetic is exact. *)
Definition cashEffect (arsInstrumentId : Z) (o : Order.t) : Q :=
  let amount := (inject_Z (Order.size o) * Order.price o)%Q in
  if (Order.instrumentId o =? arsInstrumentId)
     && OrderSide_eqb (Order.side o) CASH_IN then amount
  else if (Order.instrumentId o =? arsInstrumentId)
          && OrderSide_eqb (Order.side o) CASH_OUT then (- amount)%Q
  else if OrderSide_eqb (Order.side o) BUY then (- amount)%Q
  else if OrderSide_eqb (Order.side o) SELL then amount
  else 0%Q.

(** Signed sum over the user's FILLED orders.  With a client the query
    adds [FOR UPDATE]; the value is the same. *)
Definition getUserAvailableCash (db : Db) (userId arsInstrumentId : Z) : Q :=
  Qred
    (fold_right Qplus 0%Q
       (map (cashEffect arsInstrumentId)
          (filter (fun o => (Order.userId o =? userId)
                            && OrderStatus_eqb (Order.status o) FILLED)
             (orders db)))).

Record Page := mkPage {
  page_orders : list Order.t;
  nextCursor : option Z;
  hasMore : bool
}.

(** The rows the pagination query selects before its LIMIT. *)
Definition pageCandidates (db : Db) (userId : Z) (cursor : option Z)
  : list Order.t :=
  sortBy (fun a b => Order.datetime b <=? Order.datetime a)
    (filter (fun o => (Order.userId o =? userId)
                      && match cursor with
                         | Some c => Order.datetime o <? c
                         | None => true
                         end)
       (orders db)).

(** [getOrdersByUserId(userId, limit = 50, cursor?)].  PostgreSQL
    refuses a negative LIMIT. *)
Definition getOrdersByUserId (db : Db) (userId : Z) (limit : option Z)
    (cursor : option Z) : Result Page :=
  let limit := match limit with Some l => l | None => 50 end in
  let safeLimit := Z.min limit 200 in
  if safeLimit + 1 <? 0 then Err (DatabaseError "LIMIT must not be negative")
  else
    let rows := firstn (Z.to_nat (safeLimit + 1))
                  (pageCandidates db userId cursor) in
    let hasMore := safeLimit <? Z.of_nat (List.length rows) in
    let page := if hasMore then removelast rows else rows in
    let nextCursor :=
      if hasMore && (0 <? Z.of_nat (List.length page))
      then option_map Order.datetime (last (map Some page) None)
      else None in
    Ok (mkPage page nextCursor hasMore).

(** [OrderWithInstrument], as [updateOrderStatus] returns it. *)
Record UpdatedOrder := mkUpdatedOrder {
  uos_order : Order.t;
  uos_ticker : string;
  uos_name : string
}.

(** [updateOrderStatus(orderId, status)].  Its two statements go through
    [query], each on its own: no transaction encloses them, so the
    UPDATE stays when the instrument lookup that follows it throws. *)
Definition updateOrderStatus (orderId : Z) (status : OrderStatus)
  : M UpdatedOrder :=
  fun db =>
    let updated :=
      mkDb (users db) (instruments db) (marketdata db)
        (map (fun o => if Order.id o =? orderId
                       then Order.withStatus status o else o)
           (orders db))
        (nextOrderId db) (now db) in
    match find (fun o => Order.id o =? orderId) (orders updated) with
    | None =>
        (Err (NotFoundError
                ("Order with ID " ++ Z_toString orderId ++ " not found")),
         updated)
    | Some order =>
        match InstrumentRepository.findInstrumentById updated
                (Order.instrumentId order) with
        | None =>
            (Err (NotFoundError
                    ("Instrument with ID "
                     ++ Z_toString (Order.instrumentId order)
                     ++ " not found (referential integrity violation)")),
             updated)
        | Some instrument =>
            (Ok (mkUpdatedOrder order (Instrument.ticker instrument)
                   (Instrument.name instrument)),
             updated)
        end
    end.

End OrderRepository.

(* ================================================================== *)
(** ** OrderService ([services/order.service.ts]) *)
(* ================================================================== *)

Module OrderService.
Import OrderRepository.

(** [{ success, order: { ...order, totalAmount } }]. *)
Record ExecuteOrderResponse := mkResponse {
  success : bool;
  order : Order.t;
  totalAmount : Q
}.

(** [new Decimal(order.size).times(order.price).toDecimalPlaces(2).toNumber()]. *)
Definition totalAmountOf (o : Order.t) : Q :=
  Dec.toNumber
    (Dec.toDecimalPlaces (Dec.times (Dec.ofZ (Order.size o)) (Order.price o)) 2).

Definition respond (o : Order.t) : ExecuteOrderResponse :=
  mkResponse true o (totalAmountOf o).

(** decimal.js refuses an argument that is not a number. *)
Definition invalidArgument : Error :=
  DecimalError "[DecimalError] Invalid argument: undefined".

(** The message [validateOrder] returns, kept as its data: it is only
    logged, and as a non-empty string it is truthy. *)
Inductive ValidationError :=
| InsufficientFunds (available required : Q)
| InsufficientShares (available requested : Z).

Definition validateOrder (userId instrumentId : Z) (side : OrderSide)
    (size : Z) (price : PriceString) : M (option ValidationError) :=
  match side with
  | BUY =>
      availableCash <-
        gets (fun db => getUserAvailableCash db userId ARS_INSTRUMENT_ID) ;;
      match price with
      | PriceUndefinedText => throw invalidArgument
      | PriceText p =>
          let orderCost := Dec.times (Dec.ofZ size) p in
          if Dec.lessThan availableCash orderCost
          then ret (Some (InsufficientFunds availableCash orderCost))
          else ret None
      end
  | SELL =>
      currentPosition <-
        gets (fun db => getUserPositionForInstrument db userId instrumentId) ;;
      if currentPosition <? size
      then ret (Some (InsufficientShares currentPosition size))
      else ret None
  | _ => ret None
  end.

Definition validateCashOutFunds (userId orderSize : Z)
  : M (option ExecuteOrderResponse) :=
  availableCash <-
    gets (fun db => getUserAvailableCash db userId ARS_INSTRUMENT_ID) ;;
  let cashOutAmount := Dec.times (Dec.ofZ orderSize) 1 in
  if Dec.lessThan availableCash cashOutAmount then
    rejectedOrder <-
      createOrder
        (mkOrderData ARS_INSTRUMENT_ID userId orderSize (PriceText 1)
           MARKET CASH_OUT REJECTED) ;;
    ret (Some (respond rejectedOrder))
  else ret None.

Definition executeCashOperation (input : CreateOrderInput.t)
  : M ExecuteOrderResponse :=
  if negb (CreateOrderInput.instrumentId input =? ARS_INSTRUMENT_ID) then
    throw (BusinessRuleError
             (OrderSide_toString (CreateOrderInput.side input)
              ++ " operations must use ARS instrument (ID "
              ++ Z_toString ARS_INSTRUMENT_ID ++ ")"))
  else
    orderSize <-
      match CreateOrderInput.size input with
      | Some s => ret s
      | None =>
          match CreateOrderInput.amount input with
          | None => throw invalidArgument
          | Some amount => ret (Dec.floor (Dec.dividedBy amount 1))
          end
      end ;;
    validationError <-
      (if OrderSide_eqb (CreateOrderInput.side input) CASH_OUT
       then validateCashOutFunds (CreateOrderInput.userId input) orderSize
       else ret None) ;;
    match validationError with
    | Some response => ret response
    | None =>
        order <-
          createOrder
            (mkOrderData (CreateOrderInput.instrumentId input)
               (CreateOrderInput.userId input) orderSize (PriceText 1)
               (CreateOrderInput.type input) (CreateOrderInput.side input)
               FILLED) ;;
        ret (respond order)
    end.

(** Step 5 of [executeOrder]: the execution price (market data is
    present when the order is a MARKET order). *)
Definition executionPriceOf (input : CreateOrderInput.t)
    (marketData : option LatestMarketData.t) : PriceString :=
  match CreateOrderInput.type input, marketData with
  | MARKET, Some md => PriceText (LatestMarketData.close md)
  | MARKET, None => PriceUndefinedText
  | LIMIT, _ => String_of_price (CreateOrderInput.price input)
  end.

(** Steps 7 to 9 of [executeOrder], once the size is known. *)
Definition validateAndCreate (input : CreateOrderInput.t)
    (executionPrice : PriceString) (orderSize : Z) : M ExecuteOrderResponse :=
  validationError <-
    validateOrder (CreateOrderInput.userId input)
      (CreateOrderInput.instrumentId input) (CreateOrderInput.side input)
      orderSize executionPrice ;;
  match validationError with
  | Some _ =>
      rejectedOrder <-
        createOrder
          (mkOrderData (CreateOrderInput.instrumentId input)
             (CreateOrderInput.userId input) orderSize executionPrice
             (CreateOrderInput.type input) (CreateOrderInput.side input)
             REJECTED) ;;
      ret (respond rejectedOrder)
  | None =>
      let orderStatus :=
        match CreateOrderInput.type input with
        | MARKET => FILLED
        | LIMIT => NEW
        end in
      order <-
        createOrder
          (mkOrderData (CreateOrderInput.instrumentId input)
             (CreateOrderInput.userId input) orderSize executionPrice
             (CreateOrderInput.type input) (CreateOrderInput.side input)
             orderStatus) ;;
      ret (respond order)
  end.

(** Steps 4 to 9 of [executeOrder], for a BUY or SELL input. *)
Definition executeStockOrder (input : CreateOrderInput.t)
    (instrument : Instrument.t) : M ExecuteOrderResponse :=
  marketData <-
    gets (fun db =>
            MarketDataRepository.getLatestMarketDataForInstrument db
              (CreateOrderInput.instrumentId input)) ;;
  match marketData, CreateOrderInput.type input with
  | None, MARKET =>
      throw (BusinessRuleError
               ("No market data available for instrument "
                ++ Instrument.ticker instrument))
  | _, _ =>
      let executionPrice := executionPriceOf input marketData in
      match CreateOrderInput.size input with
      | Some size => validateAndCreate input executionPrice size
      | None =>
          match CreateOrderInput.amount input, executionPrice with
          | None, _ => throw invalidArgument
          | Some _, PriceUndefinedText => throw invalidArgument
          | Some amount, PriceText p =>
              if Qeq_bool p 0 then
                (* amount / 0 is Infinity or NaN: it is not 0, no branch
                   of the validation stops on it, and the INTEGER size
                   column refuses it when the order is inserted *)
                throw (DatabaseError "invalid input syntax for type integer")
              else
                let orderSize := Dec.floor (Dec.dividedBy amount p) in
                if orderSize =? 0 then
                  rejectedOrder <-
                    createOrder
                      (mkOrderData (CreateOrderInput.instrumentId input)
                         (CreateOrderInput.userId input) 0 executionPrice
                         (CreateOrderInput.type input)
                         (CreateOrderInput.side input) REJECTED) ;;
                  ret (respond rejectedOrder)
                else validateAndCreate input executionPrice orderSize
          end
      end
  end.

Definition executeOrder (input : CreateOrderInput.t) : M ExecuteOrderResponse :=
  transaction (
    user <- gets (fun db =>
                    UserRepository.findUserById db (CreateOrderInput.userId input)) ;;
    match user with
    | None =>
        throw (NotFoundError
                 ("User with ID " ++ Z_toString (CreateOrderInput.userId input)
                  ++ " not found"))
    | Some _ =>
        instrument <-
          gets (fun db =>
                  InstrumentRepository.findInstrumentById db
                    (CreateOrderInput.instrumentId input)) ;;
        match instrument with
        | None =>
            throw (NotFoundError
                     ("Instrument with ID "
                      ++ Z_toString (CreateOrderInput.instrumentId input)
                      ++ " not found"))
        | Some instrument =>
            match CreateOrderInput.side input with
            | CASH_IN | CASH_OUT => executeCashOperation input
            | BUY | SELL => executeStockOrder input instrument
            end
        end
    end).

(** [getOrderById]. *)
Record OrderWithInstrumentResponse := mkOrderWithInstrument {
  owi_order : Order.t;
  owi_ticker : string;
  owi_name : string;
  owi_totalAmount : Q
}.

Definition getOrderById (db : Db) (orderId : Z)
  : Result OrderWithInstrumentResponse :=
  match findOrderById db orderId with
  | None =>
      Err (NotFoundError ("Order with ID " ++ Z_toString orderId ++ " not found"))
  | Some (o, i) =>
      Ok (mkOrderWithInstrument o (Instrument.ticker i) (Instrument.name i)
            (totalAmountOf o))
  end.

(** [getUserOrders]. *)
Record UserOrdersResponse := mkUserOrders {
  uo_success : bool;
  uo_orders : list (Order.t * Q);
  uo_nextCursor : option Z;
  uo_hasMore : bool
}.

Definition getUserOrders (db : Db) (userId : Z) (limit cursor : option Z)
  : Result UserOrdersResponse :=
  match UserRepository.findUserById db userId with
  | None =>
      Err (NotFoundError ("User with ID " ++ Z_toString userId ++ " not found"))
  | Some _ =>
      match getOrdersByUserId db userId limit cursor with
      | Err e => Err e
      | Ok result =>
          Ok (mkUserOrders true
                (map (fun o => (o, totalAmountOf o)) (page_orders result))
                (nextCursor result) (hasMore result))
      end
  end.

(** [cancelOrder]. *)
Record CancelOrderResponse := mkCancelResponse {
  c_success : bool;
  c_message : string;
  c_order : Order.t;
  c_ticker : string;
  c_name : string;
  c_totalAmount : Q
}.

(** [UPDATE orders SET status = $1 WHERE id = $2]. *)
Definition updateStatus (newStatus : OrderStatus) (orderId : Z) : M unit :=
  fun db =>
    (Ok tt,
     mkDb (users db) (instruments db) (marketdata db)
       (map (fun o => if Order.id o =? orderId
                      then Order.withStatus newStatus o else o)
          (orders db))
       (nextOrderId db) (now db)).

Definition cancelOrder (orderId userId : Z) : M CancelOrderResponse :=
  transaction (
    result <- gets (fun db => find (fun o => Order.id o =? orderId) (orders db)) ;;
    match result with
    | None =>
        throw (NotFoundError
                 ("Order with ID " ++ Z_toString orderId ++ " not found"))
    | Some existingOrder =>
        if negb (Order.userId existingOrder =? userId) then
          throw (BusinessRuleError "Order not found or not owned by user")
        else if negb (OrderStatus_eqb (Order.status existingOrder) NEW) then
          throw (BusinessRuleError
                   ("Only NEW orders can be cancelled. Current status: "
                    ++ OrderStatus_toString (Order.status existingOrder)))
        else
          _ <- updateStatus CANCELLED orderId ;;
          updateResult <-
            gets (fun db => find (fun o => Order.id o =? orderId) (orders db)) ;;
          match updateResult with
          | None => throw (TypeError "Cannot read properties of undefined")
          | Some cancelledOrder =>
              instrument <-
                gets (fun db =>
                        InstrumentRepository.findInstrumentById db
                          (Order.instrumentId cancelledOrder)) ;;
              match instrument with
              | None => throw (TypeError "Cannot read properties of undefined")
              | Some instrument =>
                  ret (mkCancelResponse true "Order cancelled successfully"
                         cancelledOrder (Instrument.ticker instrument)
                         (Instrument.name instrument)
                         (totalAmountOf cancelledOrder))
              end
          end
    end).

End OrderService.

(* ================================================================== *)
(** ** PortfolioService ([services/portfolio.service.ts]) *)
(* ================================================================== *)

Module PortfolioService.

(** A JavaScript [Map<number, V>]: keys in insertion order, [set] on a
    present key replaces the value in place. *)
Section JsMap.
Context {V : Type}.

Fixpoint Map_get (m : list (Z * V)) (k : Z) : option V :=
  match m with
  | [] => None
  | (k', v) :: m' => if k' =? k then Some v else Map_get m' k
  end.

Definition Map_has (m : list (Z * V)) (k : Z) : bool :=
  match Map_get m k with Some _ => true | None => false end.

Fixpoint Map_set (m : list (Z * V)) (k : Z) (v : V) : list (Z * V) :=
  match m with
  | [] => [(k, v)]
  | (k', v') :: m' =>
      if k' =? k then (k, v) :: m' else (k', v') :: Map_set m' k v
  end.
End JsMap.

(** An entry of [internalMap]. *)
Record InternalPosition := mkInternal {
  ip_instrumentId : Z;
  ip_quantity : Z;
  ip_totalCost : Dec.t
}.

(** [PositionCalculation]. *)
Record PositionCalculation := mkCalculation {
  pc_instrumentId : Z;
  pc_quantity : Z;
  pc_totalCost : Q
}.

(** [Position]. *)
Record Position := mkPosition {
  instrumentId : Z;
  ticker : string;
  name : string;
  quantity : Z;
  averageBuyPrice : Q;
  currentPrice : Q;
  marketValue : Q;
  totalReturn : Q;
  dailyReturn : Q
}.

Record Portfolio := mkPortfolio {
  userId : Z;
  totalBalance : Q;
  availableCash : Q;
  positions : list Position
}.

(** The effect of one order on the position it belongs to: the body of
    the [if (order.side === 'BUY') ... else if (order.side === 'SELL')]
    statement.  [None]: the position is left as it is (the [continue] of
    the zero-quantity guard, or a side that is neither BUY nor SELL). *)
Definition applyOrder (position : InternalPosition) (order : Order.t)
  : option InternalPosition :=
  match Order.side order with
  | BUY =>
      Some (mkInternal (ip_instrumentId position)
              (ip_quantity position + Order.size order)
              (Dec.plus (ip_totalCost position)
                 (Dec.times (Dec.ofZ (Order.size order)) (Order.price order))))
  | SELL =>
      if ip_quantity position =? 0 then None
      else
        let avgCost :=
          Dec.dividedBy (ip_totalCost position) (Dec.ofZ (ip_quantity position)) in
        Some (mkInternal (ip_instrumentId position)
                (ip_quantity position - Order.size order)
                (Dec.minus (ip_totalCost position)
                   (Dec.times (Dec.ofZ (Order.size order)) avgCost)))
  | _ => None
  end.

Definition freshPosition (instrumentId : Z) : InternalPosition :=
  mkInternal instrumentId 0 0%Q.

(** The entry under a key, or the fresh one [replayOrder] would add. *)
Definition orFresh (i : Z) (start : option InternalPosition) : InternalPosition :=
  match start with
  | Some p => p
  | None => freshPosition i
  end.

(** One iteration of the loop over the orders. *)
Definition replayOrder (internalMap : list (Z * InternalPosition))
    (order : Order.t) : list (Z * InternalPosition) :=
  let instrumentId := Order.instrumentId order in
  let internalMap :=
    if Map_has internalMap instrumentId then internalMap
    else Map_set internalMap instrumentId (freshPosition instrumentId) in
  let position :=
    match Map_get internalMap instrumentId with
    | Some p => p
    | None => freshPosition instrumentId
    end in
  match applyOrder position order with
  | Some position' => Map_set internalMap instrumentId position'
  | None => internalMap
  end.

Definition replayOrders (orders : list Order.t) : list (Z * InternalPosition) :=
  fold_left replayOrder orders [].

(** The orders of one instrument, and the position they replay to. *)
Definition stepPosition (position : InternalPosition) (order : Order.t)
  : InternalPosition :=
  match applyOrder position order with
  | Some position' => position'
  | None => position
  end.

Definition ordersOf (instrumentId : Z) (orders : list Order.t) : list Order.t :=
  filter (fun o => Order.instrumentId o =? instrumentId) orders.

Definition replayedPosition (instrumentId : Z) (orders : list Order.t)
  : InternalPosition :=
  fold_left stepPosition (ordersOf instrumentId orders)
    (freshPosition instrumentId).

(** Average cost per share of a position: totalCost / quantity. *)
Definition averageCost (position : InternalPosition) : Q :=
  Dec.dividedBy (ip_totalCost position) (Dec.ofZ (ip_quantity position)).

(** [calculatePositions]: replay, then keep the entries with a
    positive quantity. *)
Definition calculatePositions (orders : list Order.t)
  : list (Z * PositionCalculation) :=
  map (fun e => (fst e,
                 mkCalculation (ip_instrumentId (snd e)) (ip_quantity (snd e))
                   (Dec.toNumber (ip_totalCost (snd e)))))
    (filter (fun e => 0 <? ip_quantity (snd e)) (replayOrders orders)).

(** The body of the loop of [enrichPositions] for one entry that has
    market data and instrument details. *)
Definition enrichPosition (instrumentId : Z) (calculation : PositionCalculation)
    (marketData : LatestMarketData.t) (instrument : Instrument.t) : Position :=
  let currentPrice := LatestMarketData.close marketData in
  let previousPrice := LatestMarketData.previousClose marketData in
  let marketValue :=
    Dec.toNumber (Dec.times (Dec.ofZ (pc_quantity calculation)) currentPrice) in
  let averageBuyPrice :=
    Dec.toNumber
      (Dec.dividedBy (pc_totalCost calculation) (Dec.ofZ (pc_quantity calculation))) in
  let totalReturn :=
    if Dec.greaterThan averageBuyPrice 0
    then Dec.toNumber
           (Dec.toDecimalPlaces
              (Dec.times
                 (Dec.dividedBy (Dec.minus currentPrice averageBuyPrice)
                    averageBuyPrice) 100) 2)
    else 0%Q in
  let dailyReturn :=
    if Dec.greaterThan previousPrice 0
    then Dec.toNumber
           (Dec.toDecimalPlaces
              (Dec.times
                 (Dec.dividedBy (Dec.minus currentPrice previousPrice)
                    previousPrice) 100) 2)
    else 0%Q in
  mkPosition instrumentId (Instrument.ticker instrument)
    (Instrument.name instrument) (pc_quantity calculation)
    (Dec.toNumber (Dec.toDecimalPlaces averageBuyPrice 2))
    (Dec.toNumber (Dec.toDecimalPlaces currentPrice 2))
    (Dec.toNumber (Dec.toDecimalPlaces marketValue 2))
    totalReturn dailyReturn.

(** The loop of [enrichPositions]: entries without market data or
    instrument details are skipped. *)
Fixpoint enrichLoop (entries : list (Z * PositionCalculation))
    (marketDataMap : Z -> option LatestMarketData.t)
    (instrumentMap : Z -> option Instrument.t) : list Position :=
  match entries with
  | [] => []
  | (instrumentId, calculation) :: rest =>
      match marketDataMap instrumentId, instrumentMap instrumentId with
      | Some marketData, Some instrument =>
          enrichPosition instrumentId calculation marketData instrument
          :: enrichLoop rest marketDataMap instrumentMap
      | _, _ => enrichLoop rest marketDataMap instrumentMap
      end
  end.

(** [enrichPositions]: the loop, then
    [positions.sort((a, b) => b.marketValue - a.marketValue)]. *)
Definition enrichPositions (positionCalculations : list (Z * PositionCalculation))
    (marketDataMap : Z -> option LatestMarketData.t)
    (instrumentMap : Z -> option Instrument.t) : list Position :=
  sortBy (fun a b => Qle_bool (marketValue b) (marketValue a))
    (enrichLoop positionCalculations marketDataMap instrumentMap).

Definition getUserPortfolio (db : Db) (userId : Z) : Result Portfolio :=
  match UserRepository.findUserById db userId with
  | None =>
      Err (NotFoundError ("User with ID " ++ Z_toString userId ++ " not found"))
  | Some _ =>
      let orders := OrderRepository.getFilledOrdersByUserId db userId in
      let availableCash :=
        OrderRepository.getUserAvailableCash db userId ARS_INSTRUMENT_ID in
      let stockOrders :=
        filter (fun o => negb (Order.instrumentId o =? ARS_INSTRUMENT_ID)) orders in
      let positionCalculations := calculatePositions stockOrders in
      match positionCalculations with
      | [] =>
          Ok (mkPortfolio userId (Dec.toNumber availableCash)
                (Dec.toNumber availableCash) [])
      | _ =>
          let instrumentIds := map fst positionCalculations in
          let marketDataMap :=
            MarketDataRepository.getLatestMarketDataForInstruments db instrumentIds in
          let instrumentMap :=
            InstrumentRepository.findInstrumentsByIds db instrumentIds in
          let enrichedPositions :=
            enrichPositions positionCalculations marketDataMap instrumentMap in
          let portfolioValue :=
            fold_left (fun sum p => Dec.toNumber (Dec.plus sum (marketValue p)))
              enrichedPositions 0%Q in
          let totalBalance := Dec.toNumber (Dec.plus availableCash portfolioValue) in
          Ok (mkPortfolio userId totalBalance (Dec.toNumber availableCash)
                enrichedPositions)
      end
  end.

End PortfolioService.

(* ================================================================== *)
(** ** Request validation and the HTTP boundary *)
(* ================================================================== *)

(** [config/businessRules.ts]. *)
Module ORDER_LIMITS.
Definition MAX_ORDER_SIZE : Z := 1000000.
Definition MAX_ORDER_AMOUNT : Q := 100000000.
Definition MIN_ORDER_SIZE : Z := 1.
End ORDER_LIMITS.

(** [validators/order.validator.ts].  The body is taken with fields of
    the right JSON types (integers, numbers, the two enumerations); what
    the schema still checks is the ranges and its three refinements. *)
Module OrderValidator.

Definition optionHolds {A : Type} (check : A -> bool) (x : option A) : bool :=
  match x with
  | Some a => check a
  | None => true
  end.

Definition isDefined {A : Type} (x : option A) : bool :=
  match x with
  | Some _ => true
  | None => false
  end.

(** The [z.object({...})] part. *)
Definition fieldsValid (data : CreateOrderInput.t) : bool :=
  (0 <? CreateOrderInput.userId data)
  && (0 <? CreateOrderInput.instrumentId data)
  && optionHolds (fun size => (ORDER_LIMITS.MIN_ORDER_SIZE <=? size)
                              && (size <=? ORDER_LIMITS.MAX_ORDER_SIZE))
       (CreateOrderInput.size data)
  && optionHolds (fun amount => Dec.greaterThan amount 0
                                && Qle_bool amount ORDER_LIMITS.MAX_ORDER_AMOUNT)
       (CreateOrderInput.amount data)
  && optionHolds (fun price => Dec.greaterThan price 0)
       (CreateOrderInput.price data).

(** "Must specify either size OR amount, not both or neither". *)
Definition sizeXorAmount (data : CreateOrderInput.t) : bool :=
  xorb (isDefined (CreateOrderInput.size data))
       (isDefined (CreateOrderInput.amount data)).

(** "LIMIT orders must have price": [!data.price] holds of an absent
    price and of the number 0. *)
Definition limitHasPrice (data : CreateOrderInput.t) : bool :=
  match CreateOrderInput.type data, CreateOrderInput.price data with
  | LIMIT, None => false
  | LIMIT, Some price => negb (Qeq_bool price 0)
  | MARKET, _ => true
  end.

(** "MARKET orders should not have price". *)
Definition marketHasNoPrice (data : CreateOrderInput.t) : bool :=
  match CreateOrderInput.type data, CreateOrderInput.price data with
  | MARKET, Some _ => false
  | _, _ => true
  end.

(** [createOrderSchema.safeParse(body).success]. *)
Definition createOrderSchema (data : CreateOrderInput.t) : bool :=
  fieldsValid data && sizeXorAmount data && limitHasPrice data
  && marketHasNoPrice data.

End OrderValidator.

(** [middlewares/errorHandler.ts]: the status of the response. *)
Module ErrorHandler.

(** What reaches the handler: a [ValidationError] of a controller, or
    whatever the service threw. *)
Inductive Thrown :=
| ValidationError (message : string)
| ServiceError (e : Error).

(** [err instanceof AppError ? err.statusCode : 500]; the status codes
    are those the error classes pass to [super]. *)
Definition statusCode (err : Thrown) : Z :=
  match err with
  | ValidationError _ => 400
  | ServiceError (NotFoundError _) => 404
  | ServiceError (BusinessRuleError _) => 422
  | ServiceError _ => 500
  end.

End ErrorHandler.

(** [controllers/orders.controller.ts]. *)
Module OrdersController.

(** Status and JSON body of the response to [POST /api/orders]. *)
Record Response := mkHttp {
  status : Z;
  body : option OrderService.ExecuteOrderResponse
}.

Definition createOrder (requestBody : CreateOrderInput.t) : Db -> Response * Db :=
  fun db =>
    if negb (OrderValidator.createOrderSchema requestBody) then
      (mkHttp (ErrorHandler.statusCode
                 (ErrorHandler.ValidationError "Invalid order data")) None, db)
    else
      match OrderService.executeOrder requestBody db with
      | (Ok response, db') => (mkHttp 201 (Some response), db')
      | (Err e, db') =>
          (mkHttp (ErrorHandler.statusCode (ErrorHandler.ServiceError e)) None, db')
      end.

End OrdersController.

(** [controllers/users.controller.ts].  A path or query parameter is
    taken as what [parseInt] makes of it: [None] stands for NaN. *)
Module UsersController.

Record Response (A : Type) := mkHttp {
  status : Z;
  body : option A
}.
Arguments mkHttp {A} status body.
Arguments status {A} r.
Arguments body {A} r.

(** [throw new ValidationError(message)], as the error handler answers it. *)
Definition invalid {A : Type} (message : string) : Response A :=
  mkHttp (ErrorHandler.statusCode (ErrorHandler.ValidationError message)) None.

(** [res.json(value)], or [next(error)]. *)
Definition answer {A : Type} (outcome : Result A) : Response A :=
  match outcome with
  | Ok value => mkHttp 200 (Some value)
  | Err e => mkHttp (ErrorHandler.statusCode (ErrorHandler.ServiceError e)) None
  end.


(** [GET /api/users/:userId/orders?limit=..&cursor=..].  [limitQuery] is
    [None] when the query has no limit, and what [parseInt] makes of it
    otherwise. *)
Definition getUserOrders (userIdParam : option Z) (limitQuery : option (option Z))
    (cursor : option Z) (db : Db) : Response OrderService.UserOrdersResponse :=
  match userIdParam with
  | None => invalid "Invalid user ID"
  | Some userId =>
      if userId <=? 0 then invalid "Invalid user ID"
      else
        match limitQuery with
        | Some None => invalid "Invalid limit. Must be between 1 and 200"
        | Some (Some limit) =>
            if (limit <=? 0) || (200 <? limit)
            then invalid "Invalid limit. Must be between 1 and 200"
            else answer (OrderService.getUserOrders db userId (Some limit) cursor)
        | None => answer (OrderService.getUserOrders db userId None cursor)
        end
  end.

End UsersController.

(* ================================================================== *)
(** ** The specification's vocabulary *)
(* ================================================================== *)

(** These definitions follow the wording of the specification; the
    theorems below compare them with the code above. *)
Module Spec.

(** "MARKET order: execution price = latest close.  LIMIT order:
    execution price = caller-supplied price." *)
Definition executionPrice (db : Db) (input : CreateOrderInput.t) : option Q :=
  match CreateOrderInput.type input with
  | MARKET =>
      option_map LatestMarketData.close
        (MarketDataRepository.getLatestMarketDataForInstrument db
           (CreateOrderInput.instrumentId input))
  | LIMIT => CreateOrderInput.price input
  end.

(** "If caller supplied size directly, use it.  If caller supplied
    amount instead, size = floor(amount / executionPrice)." *)
Definition resolvedSize (input : CreateOrderInput.t) (p : Q) : option Z :=
  match CreateOrderInput.size input, CreateOrderInput.amount input with
  | Some s, _ => Some s
  | None, Some a =>
      if Qeq_bool p 0 then None else Some (Dec.floor (Dec.dividedBy a p))
  | None, None => None
  end.

(** Size of a cash operation: "taken directly (or derived from
    amount / 1, floored)". *)
Definition cashSize (input : CreateOrderInput.t) : option Z :=
  resolvedSize input 1.

Definition lockedAvailableCash (db : Db) (userId : Z) : Q :=
  OrderRepository.getUserAvailableCash db userId ARS_INSTRUMENT_ID.

Definition lockedPosition (db : Db) (userId instrumentId : Z) : Z :=
  OrderRepository.getUserPositionForInstrument db userId instrumentId.

(** The database after one row has been appended to the ledger. *)
Definition persisted (db : Db) (row : Order.t) : Db :=
  mkDb (users db) (instruments db) (marketdata db) (orders db ++ [row])
    (nextOrderId db + 1) (now db).

(** The row the ledger assigns to an accepted insert. *)
Definition newRow (db : Db) (input : CreateOrderInput.t) (size : Z) (p : Q)
    (type : OrderType) (status : OrderStatus) : Order.t :=
  Order.mk (nextOrderId db) (CreateOrderInput.instrumentId input)
    (CreateOrderInput.userId input) size p type
    (CreateOrderInput.side input) status (now db).


(** "price is required iff kind = LIMIT, forbidden iff kind = MARKET". *)
Definition priceConstraint (input : CreateOrderInput.t) : Prop :=
  CreateOrderInput.price input <> None <-> CreateOrderInput.type input = LIMIT.

(** The engine itself turns the call down: it raises one of the two
    errors it defines, and the ledger is as it was. *)
Definition refused {A : Type} (db : Db) (outcome : Result A * Db) : Prop :=
  exists message : string,
    outcome = (Err (BusinessRuleError message), db)
    \/ outcome = (Err (NotFoundError message), db).

(** "The engine must still defensively honor these constraints if asked
    to operate on a structurally valid-but-semantically-contradictory
    input." *)
Definition honoursPriceConstraint : Prop :=
  forall (db : Db) (input : CreateOrderInput.t),
    ~ priceConstraint input ->
    refused db (OrderService.executeOrder input db).

(** "Realized average cost basis per remaining share is preserved
    across partial sells." *)
Definition partialSellKeepsAverage : Prop :=
  forall (position : PortfolioService.InternalPosition) (order : Order.t),
    Order.side order = SELL ->
    0 < Order.size order < PortfolioService.ip_quantity position ->
    (PortfolioService.averageCost (PortfolioService.stepPosition position order)
     == PortfolioService.averageCost position)%Q.

(** The stock orders [getUserPortfolio] replays for a user. *)
Definition stockOrders (db : Db) (userId : Z) : list Order.t :=
  filter (fun o => negb (Order.instrumentId o =? ARS_INSTRUMENT_ID))
    (OrderRepository.getFilledOrdersByUserId db userId).

Definition oldestFirst (rows : list Order.t) : Prop :=
  StronglySorted (fun a b => Order.datetime a <= Order.datetime b) rows.

Definition userExists (db : Db) (userId : Z) : Prop :=
  UserRepository.findUserById db userId <> None.

Definition instrumentExists (db : Db) (instrumentId : Z) : Prop :=
  InstrumentRepository.findInstrumentById db instrumentId <> None.

End Spec.

(** The ledger after [UPDATE orders SET status = 'CANCELLED' WHERE id = $2]. *)
Definition cancelled (db : Db) (orderId : Z) : Db :=
  mkDb (users db) (instruments db) (marketdata db)
    (map (fun o => if (Order.id o =? orderId)%Z
                   then Order.withStatus CANCELLED o else o)
       (orders db))
    (nextOrderId db) (now db).

(** The rows the pagination query may return: the user's rows, strictly
    older than the cursor when there is one. *)
Definition pageMatch (userId : Z) (cursor : option Z) (o : Order.t) : Prop :=
  Order.userId o = userId /\
  match cursor with
  | Some c => (Order.datetime o < c)%Z
  | None => True
  end.

Definition newestFirst (rows : list Order.t) : Prop :=
  StronglySorted (fun a b => (Order.datetime b <= Order.datetime a)%Z) rows.

(** Integrity of the ledger: [orders.id] is a primary key fed by a
    serial, so ids are distinct and below the next value of the serial. *)
Module Ledger.

Definition idsUnique (db : Db) : Prop := NoDup (map Order.id (orders db)).

(** The ledger after [UPDATE orders SET status = $2 WHERE id = $1]. *)
Definition restated (db : Db) (orderId : Z) (status : OrderStatus) : Db :=
  mkDb (users db) (instruments db) (marketdata db)
    (map (fun o => if Order.id o =? orderId then Order.withStatus status o else o)
       (orders db))
    (nextOrderId db) (now db).

Definition wellFormed (db : Db) : Prop :=
  idsUnique db /\ Forall (fun o => Order.id o < nextOrderId db) (orders db).

(** The cash and the positions of every user. *)
Definition sameBalances (db db' : Db) : Prop :=
  forall userId : Z,
    OrderRepository.getFilledOrdersByUserId db' userId
    = OrderRepository.getFilledOrdersByUserId db userId
    /\ (forall ars : Z,
          OrderRepository.getUserAvailableCash db' userId ars
          = OrderRepository.getUserAvailableCash db userId ars)
    /\ (forall instrumentId : Z,
          OrderRepository.getUserPositionForInstrument db' userId instrumentId
          = OrderRepository.getUserPositionForInstrument db userId instrumentId).

(** The cash effect of a row on a user: that of the CASE expression when
    the row is the user's and FILLED, nothing otherwise. *)
Definition cashEffectOn (userId ars : Z) (row : Order.t) : Q :=
  if (Order.userId row =? userId) && OrderStatus_eqb (Order.status row) FILLED
  then OrderRepository.cashEffect ars row else 0%Q.

Definition positionEffectOn (userId instrumentId : Z) (row : Order.t) : Z :=
  if (Order.userId row =? userId) && (Order.instrumentId row =? instrumentId)
     && OrderStatus_eqb (Order.status row) FILLED
  then OrderRepository.positionEffect row else 0.

(** No SELL of the sequence meets a quantity of 0. *)
Fixpoint holdsAtEverySell (quantity : Z) (orders : list Order.t) : bool :=
  match orders with
  | [] => true
  | o :: rest =>
      match Order.side o with
      | BUY => holdsAtEverySell (quantity + Order.size o) rest
      | SELL => negb (quantity =? 0)
                && holdsAtEverySell (quantity - Order.size o) rest
      | _ => holdsAtEverySell quantity rest
      end
  end.

End Ledger.

(** The status [validateAndCreate] gives a BUY or SELL order. *)
Definition stockStatus (db : Db) (input : CreateOrderInput.t) (size : Z) (p : Q)
  : OrderStatus :=
  let rejected :=
    match CreateOrderInput.side input with
    | BUY =>
        Dec.lessThan (Spec.lockedAvailableCash db (CreateOrderInput.userId input))
          (Dec.times (Dec.ofZ size) p)
    | SELL =>
        Spec.lockedPosition db (CreateOrderInput.userId input)
          (CreateOrderInput.instrumentId input) <? size
    | _ => false
    end in
  if rejected then REJECTED
  else match CreateOrderInput.type input with MARKET => FILLED | LIMIT => NEW end.

(** The status [executeCashOperation] gives a cash operation. *)
Definition cashStatus (db : Db) (input : CreateOrderInput.t) (size : Z)
  : OrderStatus :=
  if OrderSide_eqb (CreateOrderInput.side input) CASH_OUT
     && Dec.lessThan (Spec.lockedAvailableCash db (CreateOrderInput.userId input))
          (Dec.times (Dec.ofZ size) 1)
  then REJECTED else FILLED.

(* ================================================================== *)
(** ** Sample data *)
(* ================================================================== *)

Module Sample.

Definition alice : User.t := User.mk 1 "alice@example.com" "10001".
Definition bob : User.t := User.mk 2 "bob@example.com" "10002".

Definition pamp : Instrument.t := Instrument.mk 47 "PAMP" "Pampa Holding" ACCIONES.
Definition ars : Instrument.t := Instrument.mk 66 "ARS" "PESOS" MONEDA.

Definition pampClose : LatestMarketData.t :=
  LatestMarketData.mk 47 150 (140)%Q 20.

(** Alice has deposited 1000 and holds nothing else. *)
Definition deposit : Order.t := Order.mk 1 66 1 1000 1 MARKET CASH_IN FILLED 10.

Definition db : Db :=
  mkDb [alice; bob] [pamp; ars] [pampClose] [deposit] 2 100.

(** Alice after a FILLED purchase of 5 PAMP at 100. *)
Definition purchase : Order.t := Order.mk 2 47 1 5 100 MARKET BUY FILLED 20.

Definition holding : Db :=
  mkDb [alice; bob] [pamp; ars] [pampClose] [deposit; purchase] 3 100.

(** Alice buys 10 PAMP at 100, then sells 4 at 120. *)
Definition buy10 : Order.t := Order.mk 2 47 1 10 100 MARKET BUY FILLED 20.
Definition sell4 : Order.t := Order.mk 3 47 1 4 120 MARKET SELL FILLED 30.

Definition traded : Db :=
  mkDb [alice; bob] [pamp; ars] [pampClose] [deposit; buy10; sell4] 4 100.

(** Alice buys 1 PAMP at 1.00 and 2 at 1.50, then sells 1. *)
Definition buy1 : Order.t := Order.mk 2 47 1 1 1 MARKET BUY FILLED 20.
Definition buy2 : Order.t := Order.mk 3 47 1 2 (3 # 2) MARKET BUY FILLED 30.
Definition sell1 : Order.t := Order.mk 4 47 1 1 2 MARKET SELL FILLED 40.

(** Alice has a resting LIMIT BUY. *)
Definition restingBuy : Order.t := Order.mk 2 47 1 3 90 LIMIT BUY NEW 20.

Definition resting : Db :=
  mkDb [alice; bob] [pamp; ars] [pampClose] [deposit; restingBuy] 3 100.

(** A ledger in which 8 PAMP were sold against 5 bought. *)
Definition sell8 : Order.t := Order.mk 3 47 1 8 100 MARKET SELL FILLED 30.

Definition oversold : Db :=
  mkDb [alice; bob] [pamp; ars] [pampClose] [deposit; purchase; sell8] 4 100.

Definition buy (type : OrderType) (size : option Z) (amount price : option Q)
  : CreateOrderInput.t :=
  CreateOrderInput.mk 1 47 BUY type size amount price.

Definition sell (type : OrderType) (size : option Z) (amount price : option Q)
  : CreateOrderInput.t :=
  CreateOrderInput.mk 1 47 SELL type size amount price.

Definition cash (side : OrderSide) (type : OrderType) (instrumentId : Z)
    (size : option Z) : CreateOrderInput.t :=
  CreateOrderInput.mk 1 instrumentId side type size None None.

End Sample.

(* ================================================================== *)
(** ** Basic facts *)
(* ================================================================== *)

Example dec_div_third :
  Dec.dividedBy 4%Q 3%Q = (13333333333333333333 # 10000000000000000000)%Q.
Proof. vm_compute. reflexivity. Qed.

Example dec_amount_rounding :
  Dec.floor (Dec.dividedBy 1000%Q 150%Q) = 6 /\
  Dec.toDecimalPlaces (Dec.times 6%Q 150%Q) 2 = 900%Q.
Proof. vm_compute. split; reflexivity. Qed.

Example dec_half_up :
  Dec.toDecimalPlaces (1005 # 1000) 2 = (101 # 100)%Q /\
  Dec.toDecimalPlaces (- (1005 # 1000))%Q 2 = (- (101 # 100))%Q.
Proof. vm_compute. split; reflexivity. Qed.

(** *** Rounding to the working precision *)

Lemma ndigits_aux_spec (fuel : nat) : forall n,
  0 < n -> n < 2 ^ Z.of_nat fuel ->
  1 <= Dec.ndigits_aux fuel n /\
  10 ^ (Dec.ndigits_aux fuel n - 1) <= n < 10 ^ Dec.ndigits_aux fuel n.
Proof.
  induction fuel as [|fuel IH]; intros n Hpos Hlt.
  - cbn in Hlt. lia.
  - cbn [Dec.ndigits_aux]. destruct (n <? 10) eqn:E.
    + apply Z.ltb_lt in E. cbn. lia.
    + apply Z.ltb_ge in E.
      assert (H0 : 0 < n / 10) by (apply Z.div_str_pos; lia).
      assert (H1 : n / 10 < 2 ^ Z.of_nat fuel).
      { rewrite Nat2Z.inj_succ, Z.pow_succ_r in Hlt by lia.
        apply Z.div_lt_upper_bound; lia. }
      destruct (IH _ H0 H1) as [Hd [Hlo Hhi]].
      set (d := Dec.ndigits_aux fuel (n / 10)) in *.
      replace (1 + d - 1) with (Z.succ (d - 1)) by lia.
      replace (1 + d) with (Z.succ d) by lia.
      rewrite !Z.pow_succ_r by lia.
      pose proof (Z.div_mod n 10 ltac:(lia)) as Hdm.
      pose proof (Z.mod_pos_bound n 10 ltac:(lia)) as Hm.
      split; [lia|]. split; lia.
Qed.

Lemma ndigits_spec (n : Z) :
  0 < n ->
  1 <= Dec.ndigits n /\ 10 ^ (Dec.ndigits n - 1) <= n < 10 ^ Dec.ndigits n.
Proof.
  intro Hpos. unfold Dec.ndigits. apply ndigits_aux_spec; [assumption|].
  rewrite Nat2Z.inj_succ, Z2Nat.id by apply Z.log2_nonneg.
  apply Z.log2_spec. assumption.
Qed.

Section DecimalRounding.
Local Open Scope Q_scope.

Lemma round_half_up_inject_Z (y : Q) (m : Z) :
  y == inject_Z m -> Dec.round_half_up y = m.
Proof.
  intro Hy. unfold Dec.round_half_up.
  assert (Hfl : forall k : Z, Qfloor (inject_Z k + (1 # 2)) = k).
  { intro k.
    assert (H1 : (k <= Qfloor (inject_Z k + (1 # 2)))%Z).
    { rewrite <- (Qfloor_Z k) at 1. apply Qfloor_resp_le.
      rewrite <- (Qplus_0_r (inject_Z k)) at 1.
      apply Qplus_le_r. discriminate. }
    assert (H2 : (Qfloor (inject_Z k + (1 # 2)) < k + 1)%Z).
    { rewrite Zlt_Qlt. apply Qle_lt_trans with (inject_Z k + (1 # 2)).
      - apply Qfloor_le.
      - rewrite inject_Z_plus. apply Qplus_lt_r. reflexivity. }
    lia. }
  destruct (Qle_bool 0 y) eqn:E.
  - rewrite Hy. apply Hfl.
  - rewrite Hy. rewrite <- inject_Z_opp. rewrite Hfl. lia.
Qed.

Lemma pow10_pos (k : Z) : 0 < Dec.pow10 k.
Proof. apply Qpower_0_lt. reflexivity. Qed.

Lemma pow10_plus (a b : Z) : Dec.pow10 (a + b) == Dec.pow10 a * Dec.pow10 b.
Proof. apply Qpower_plus. discriminate. Qed.

Lemma pow10_Z (k : Z) : (0 <= k)%Z -> Dec.pow10 k == inject_Z (10 ^ k).
Proof. intro H. unfold Dec.pow10. now rewrite Zpower_Qpower. Qed.

Lemma pow10_lt_inv (a b : Z) : Dec.pow10 a < Dec.pow10 b -> (a < b)%Z.
Proof. intro H. apply (Qpower_lt_compat_l_inv 10); [exact H | reflexivity]. Qed.

Lemma Qabs_num_den (x : Q) :
  Qabs x * inject_Z (Zpos (Qden x)) == inject_Z (Z.abs (Qnum x)).
Proof.
  destruct x as [a b]. unfold Qabs, Qeq, Qmult, inject_Z. cbn. lia.
Qed.

Lemma exponent_spec (x : Q) :
  ~ x == 0 ->
  Dec.pow10 (Dec.exponent x) <= Qabs x /\ Qabs x < Dec.pow10 (Dec.exponent x + 1).
Proof.
  intro Hx.
  set (a := Z.abs (Qnum x)). set (b := Zpos (Qden x)).
  assert (Ha : (0 < a)%Z).
  { subst a. destruct x as [n d]. unfold Qeq in Hx. cbn in *. lia. }
  assert (Hb : (0 < b)%Z) by (subst b; lia).
  destruct (ndigits_spec a Ha) as [Hda [Halo Hahi]].
  destruct (ndigits_spec b Hb) as [Hdb [Hblo Hbhi]].
  pose proof (Qabs_num_den x) as Hab. fold a b in Hab.
  assert (HbQ : 0 < inject_Z b) by (unfold Qlt; cbn; lia).
  unfold Dec.exponent. fold a b.
  set (da := Dec.ndigits a) in *. set (db := Dec.ndigits b) in *.
  (* bounds on a and b as rationals *)
  assert (HaloQ : Dec.pow10 (da - 1) <= inject_Z a).
  { rewrite pow10_Z by lia. now rewrite <- Zle_Qle. }
  assert (HahiQ : inject_Z a < Dec.pow10 da).
  { rewrite pow10_Z by lia. now rewrite <- Zlt_Qlt. }
  assert (HbloQ : Dec.pow10 (db - 1) <= inject_Z b).
  { rewrite pow10_Z by lia. now rewrite <- Zle_Qle. }
  assert (HbhiQ : inject_Z b < Dec.pow10 db).
  { rewrite pow10_Z by lia. now rewrite <- Zlt_Qlt. }
  (* |x| < 10^(da-db+1) *)
  assert (Hup : Qabs x < Dec.pow10 (da - db + 1)).
  { apply Qmult_lt_r with (z := inject_Z b); [exact HbQ|].
    rewrite Hab. apply Qlt_le_trans with (Dec.pow10 da); [exact HahiQ|].
    replace da with ((da - db + 1) + (db - 1))%Z at 1 by lia.
    rewrite pow10_plus. apply Qmult_le_l; [apply pow10_pos | exact HbloQ]. }
  (* 10^(da-db-1) < |x| *)
  assert (Hlow : Dec.pow10 (da - db - 1) < Qabs x).
  { apply Qmult_lt_r with (z := inject_Z b); [exact HbQ|].
    rewrite Hab. apply Qlt_le_trans with (Dec.pow10 (da - 1)); [|exact HaloQ].
    replace (da - 1)%Z with ((da - db - 1) + db)%Z by lia.
    rewrite pow10_plus. apply Qmult_lt_l; [apply pow10_pos | exact HbhiQ]. }
  destruct (Qle_bool (Dec.pow10 (da - db)) (Qabs x)) eqn:E.
  - apply Qle_bool_iff in E. split; assumption.
  - split.
    + apply Qlt_le_weak. exact Hlow.
    + replace (da - db - 1 + 1)%Z with (da - db)%Z by lia.
      apply Qnot_le_lt. intro H. apply Qle_bool_iff in H. congruence.
Qed.

Lemma finalise_exact (x : Q) (m j : Z) :
  x == inject_Z m * Dec.pow10 j ->
  (Z.abs m < 10 ^ 20)%Z ->
  Dec.finalise x Dec.precision == x.
Proof.
  intros Hx Hm. unfold Dec.finalise, Dec.precision.
  destruct (Qeq_bool x 0) eqn:E.
  - apply Qeq_bool_iff in E. now rewrite E.
  - apply Qeq_bool_neq in E.
    destruct (exponent_spec x E) as [Hlo _].
    set (e := Dec.exponent x) in *.
    assert (Habs : Qabs x == inject_Z (Z.abs m) * Dec.pow10 j).
    { rewrite Hx, Qabs_Qmult.
      rewrite (Qabs_pos (Dec.pow10 j)) by (apply Qlt_le_weak, pow10_pos).
      reflexivity. }
    assert (He : (e < 20 + j)%Z).
    { apply pow10_lt_inv. apply Qle_lt_trans with (Qabs x); [exact Hlo|].
      rewrite Habs, pow10_plus.
      apply Qmult_lt_r; [apply pow10_pos|].
      rewrite pow10_Z by lia. now rewrite <- Zlt_Qlt. }
    set (t := (j + 19 - e)%Z).
    assert (Hj : Dec.pow10 j == inject_Z (10 ^ t) * Dec.pow10 (e - (20 - 1))).
    { rewrite <- pow10_Z by (subst t; lia). rewrite <- pow10_plus.
      replace (t + (e - (20 - 1)))%Z with j by (subst t; lia). reflexivity. }
    assert (Hq : x / Dec.pow10 (e - (20 - 1)) == inject_Z (m * 10 ^ t)).
    { rewrite Hx, Hj, inject_Z_mult. field.
      intro H0. pose proof (pow10_pos (e - (20 - 1))) as Hp.
      rewrite H0 in Hp. discriminate. }
    rewrite (round_half_up_inject_Z _ _ Hq).
    rewrite Qred_correct, Hx, Hj, inject_Z_mult. ring.
Qed.

Lemma pow10_le_compat (a b : Z) : (a <= b)%Z -> Dec.pow10 a <= Dec.pow10 b.
Proof. intro H. apply Qpower_le_compat_l; [exact H | discriminate]. Qed.

Lemma exponent_unique (x : Q) (e : Z) :
  ~ x == 0 ->
  Dec.pow10 e <= Qabs x -> Qabs x < Dec.pow10 (e + 1) ->
  Dec.exponent x = e.
Proof.
  intros Hx Hlo Hhi.
  destruct (exponent_spec x Hx) as [Hlo' Hhi'].
  assert (H1 : (Dec.exponent x < e + 1)%Z).
  { apply pow10_lt_inv. eapply Qle_lt_trans; eassumption. }
  assert (H2 : (e < Dec.exponent x + 1)%Z).
  { apply pow10_lt_inv. eapply Qle_lt_trans; eassumption. }
  lia.
Qed.

Lemma exponent_proper (x y : Q) :
  x == y -> ~ x == 0 -> Dec.exponent x = Dec.exponent y.
Proof.
  intros Hxy Hx.
  assert (Hy : ~ y == 0) by (intro H0; apply Hx; rewrite Hxy; exact H0).
  destruct (exponent_spec y Hy) as [Hlo Hhi].
  pose proof (Qabs_wd _ _ Hxy) as Habs.
  apply exponent_unique; [exact Hx | |]; rewrite Habs; assumption.
Qed.

Lemma round_half_up_proper (x y : Q) :
  x == y -> Dec.round_half_up x = Dec.round_half_up y.
Proof.
  intro H. unfold Dec.round_half_up.
  assert (H1 : Qle_bool 0 x = Qle_bool 0 y) by (apply Qleb_comp; [reflexivity | exact H]).
  assert (H2 : Qfloor (x + (1 # 2)) = Qfloor (y + (1 # 2)))
    by (apply Qfloor_comp; now rewrite H).
  assert (H3 : Qfloor (- x + (1 # 2)) = Qfloor (- y + (1 # 2)))
    by (apply Qfloor_comp; now rewrite H).
  now rewrite H1, H2, H3.
Qed.

Lemma finalise_proper (x y : Q) (sd : Z) :
  x == y -> Dec.finalise x sd == Dec.finalise y sd.
Proof.
  intro H. unfold Dec.finalise.
  destruct (Qeq_bool x 0) eqn:Ex.
  - apply Qeq_bool_iff in Ex.
    assert (Ey : Qeq_bool y 0 = true) by (apply Qeq_bool_iff; now rewrite <- H).
    now rewrite Ey.
  - apply Qeq_bool_neq in Ex.
    assert (Ey : Qeq_bool y 0 = false).
    { destruct (Qeq_bool y 0) eqn:E; [|reflexivity].
      apply Qeq_bool_iff in E. exfalso. apply Ex. now rewrite H. }
    rewrite Ey. rewrite !Qred_correct.
    rewrite <- (exponent_proper x y H Ex).
    assert (Hq : x / Dec.pow10 (Dec.exponent x - (sd - 1))
                 == y / Dec.pow10 (Dec.exponent x - (sd - 1)))
      by (apply Qdiv_comp; [exact H | reflexivity]).
    now rewrite (round_half_up_proper _ _ Hq).
Qed.

Lemma exact_step (x y : Q) : x == y -> Dec.exact y -> Dec.finalise x Dec.precision == y.
Proof.
  intros Hxy Hy. rewrite (finalise_proper x y _ Hxy). exact Hy.
Qed.

(** An integer of at most twenty digits is a [Decimal] that no
    operation rounds. *)
Lemma exact_integer (n : Z) :
  (Z.abs n < 10 ^ 20)%Z -> Dec.exact (inject_Z n).
Proof.
  intro H. apply (finalise_exact _ n 0); [|exact H].
  unfold Dec.pow10. cbn. ring.
Qed.

Lemma times_one (n : Z) :
  (Z.abs n < 10 ^ 20)%Z -> Dec.times (Dec.ofZ n) 1 == inject_Z n.
Proof.
  intro H. unfold Dec.times, Dec.ofZ.
  assert (E : inject_Z n * 1 == inject_Z n * Dec.pow10 0)
    by (unfold Dec.pow10; cbn; ring).
  rewrite (finalise_exact _ n 0 E H). ring.
Qed.

(** So is the product of a size and a price with two decimal places,
    when it has at most twenty digits: a NUMERIC(12, 2) price times an
    INTEGER size always qualifies. *)
Lemma times_cents (n c : Z) :
  (Z.abs (n * c) < 10 ^ 20)%Z ->
  Dec.times (Dec.ofZ n) (inject_Z c / 100) == inject_Z n * (inject_Z c / 100).
Proof.
  intro H. unfold Dec.times, Dec.ofZ.
  apply (finalise_exact _ (n * c) (-2)); [|exact H].
  rewrite inject_Z_mult. unfold Dec.pow10. cbn. field.
Qed.

End DecimalRounding.

Lemma lessThan_iff (x y : Q) : Dec.lessThan x y = true <-> (x < y)%Q.
Proof.
  unfold Dec.lessThan. rewrite negb_true_iff. split; intro H.
  - apply Qnot_le_lt. intro Hle. apply Qle_bool_iff in Hle. congruence.
  - destruct (Qle_bool y x) eqn:E; [|reflexivity].
    apply Qle_bool_iff in E. exfalso. exact (Qlt_not_le _ _ H E).
Qed.

Lemma lessThan_false_iff (x y : Q) : Dec.lessThan x y = false <-> ~ (x < y)%Q.
Proof.
  rewrite <- lessThan_iff. destruct (Dec.lessThan x y); split; congruence.
Qed.

(** Unfolding of the monad of database computations. *)
Ltac run :=
  unfold transaction, bind, gets, ret, throw in *; cbn beta iota in *.

Lemma createOrder_numeric (db : Db) (i u n : Z) (p : Q) (ty : OrderType)
    (sd : OrderSide) (st : OrderStatus) :
  OrderRepository.createOrder
    (OrderRepository.mkOrderData i u n (PriceText p) ty sd st) db
  = (Ok (Order.mk (nextOrderId db) i u n p ty sd st (now db)),
     Spec.persisted db (Order.mk (nextOrderId db) i u n p ty sd st (now db))).
Proof. reflexivity. Qed.

Lemma validateAndCreate_numeric (db : Db) (input : CreateOrderInput.t) (p : Q)
    (n : Z) :
  let row :=
    Spec.newRow db input n p (CreateOrderInput.type input)
      (stockStatus db input n p) in
  OrderService.validateAndCreate input (PriceText p) n db
  = (Ok (OrderService.respond row), Spec.persisted db row).
Proof.
  unfold OrderService.validateAndCreate, OrderService.validateOrder, stockStatus,
    Spec.newRow, Spec.lockedAvailableCash, Spec.lockedPosition.
  destruct (CreateOrderInput.side input) eqn:Hside; run.
  - destruct (Dec.lessThan _ _); cbn;
      destruct (CreateOrderInput.type input); reflexivity.
  - destruct (_ <? n); cbn;
      destruct (CreateOrderInput.type input); reflexivity.
  - cbn. destruct (CreateOrderInput.type input); reflexivity.
  - cbn. destruct (CreateOrderInput.type input); reflexivity.
Qed.



(** What [executeOrder] does with a BUY or SELL input whose user,
    instrument, execution price and size all resolve. *)
Lemma executeOrder_stock (db : Db) (input : CreateOrderInput.t) (p : Q) (n : Z) :
  CreateOrderInput.side input = BUY \/ CreateOrderInput.side input = SELL ->
  Spec.userExists db (CreateOrderInput.userId input) ->
  Spec.instrumentExists db (CreateOrderInput.instrumentId input) ->
  Spec.executionPrice db input = Some p ->
  Spec.resolvedSize input p = Some n ->
  let row :=
    if (n =? 0) && match CreateOrderInput.size input with
                   | None => true | Some _ => false end
    then Spec.newRow db input 0 p (CreateOrderInput.type input) REJECTED
    else Spec.newRow db input n p (CreateOrderInput.type input)
           (stockStatus db input n p) in
  OrderService.executeOrder input db
  = (Ok (OrderService.respond row), Spec.persisted db row).
Proof.
  intros Hside Hu Hi Hp Hn.
  unfold Spec.userExists, Spec.instrumentExists in *.
  unfold OrderService.executeOrder. run.
  destruct (UserRepository.findUserById db _) as [u|]; [|congruence].
  destruct (InstrumentRepository.findInstrumentById db _) as [ins|]; [|congruence].
  assert (Hstock :
    OrderService.executeStockOrder input ins db =
    (Ok (OrderService.respond
           (if (n =? 0) && match CreateOrderInput.size input with
                           | None => true | Some _ => false end
            then Spec.newRow db input 0 p (CreateOrderInput.type input) REJECTED
            else Spec.newRow db input n p (CreateOrderInput.type input)
                   (stockStatus db input n p))),
     Spec.persisted db
       (if (n =? 0) && match CreateOrderInput.size input with
                       | None => true | Some _ => false end
        then Spec.newRow db input 0 p (CreateOrderInput.type input) REJECTED
        else Spec.newRow db input n p (CreateOrderInput.type input)
               (stockStatus db input n p)))).
  { unfold OrderService.executeStockOrder, OrderService.executionPriceOf.
    unfold Spec.executionPrice, Spec.resolvedSize in *. run.
    destruct (MarketDataRepository.getLatestMarketDataForInstrument db _) as [md|];
      destruct (CreateOrderInput.type input) eqn:Hty; cbn in Hp;
      try discriminate.
    - injection Hp as ->.
      destruct (CreateOrderInput.size input) as [s|].
      + injection Hn as ->. rewrite andb_false_r.
        rewrite validateAndCreate_numeric, Hty. reflexivity.
      + destruct (CreateOrderInput.amount input) as [a|]; [|discriminate].
        destruct (Qeq_bool _ 0); [discriminate|]. injection Hn as <-.
        rewrite andb_true_r.
        destruct (Dec.floor _ =? 0) eqn:E.
        * reflexivity.
        * rewrite validateAndCreate_numeric, Hty. reflexivity.
    - rewrite Hp. cbn.
      destruct (CreateOrderInput.size input) as [s|].
      + injection Hn as ->. rewrite andb_false_r.
        rewrite validateAndCreate_numeric, Hty. reflexivity.
      + destruct (CreateOrderInput.amount input) as [a|]; [|discriminate].
        destruct (Qeq_bool p 0); [discriminate|]. injection Hn as <-.
        rewrite andb_true_r.
        destruct (Dec.floor _ =? 0) eqn:E.
        * reflexivity.
        * rewrite validateAndCreate_numeric, Hty. reflexivity.
    - rewrite Hp. cbn.
      destruct (CreateOrderInput.size input) as [s|].
      + injection Hn as ->. rewrite andb_false_r.
        rewrite validateAndCreate_numeric, Hty. reflexivity.
      + destruct (CreateOrderInput.amount input) as [a|]; [|discriminate].
        destruct (Qeq_bool p 0); [discriminate|]. injection Hn as <-.
        rewrite andb_true_r.
        destruct (Dec.floor _ =? 0) eqn:E.
        * reflexivity.
        * rewrite validateAndCreate_numeric, Hty. reflexivity. }
  destruct Hside as [Hs | Hs]; rewrite Hs; rewrite Hstock; reflexivity.
Qed.

(** Every response of [executeOrder] carries
    [totalAmount = size x price] rounded to two decimal places. *)
Lemma respond_totalAmount (row : Order.t) :
  OrderService.totalAmount (OrderService.respond row)
  = Dec.toDecimalPlaces
      (Dec.times (Dec.ofZ (Order.size row)) (Order.price row)) 2.
Proof. reflexivity. Qed.

(** Case analysis on every [match] of a run that is known to succeed. *)
Ltac split_run H :=
  repeat (match type of H with
          | context [match ?x with _ => _ end] =>
              match x with
              | context [match _ with _ => _ end] => fail 1
              | _ => destruct x eqn:?; cbn beta iota zeta in H
              end
          end);
  try discriminate.

(** Whatever the input, a successful [executeOrder] answers
    [success = true] and the [totalAmount] of the order it returns. *)
Lemma executeOrder_response (db db' : Db) (input : CreateOrderInput.t)
    (r : OrderService.ExecuteOrderResponse) :
  OrderService.executeOrder input db = (Ok r, db') ->
  r = OrderService.respond (OrderService.order r).
Proof.
  unfold OrderService.executeOrder, OrderService.executeCashOperation,
    OrderService.executeStockOrder, OrderService.validateAndCreate,
    OrderService.validateCashOutFunds, OrderService.validateOrder,
    OrderRepository.createOrder, OrderService.executionPriceOf, String_of_price.
  unfold transaction, bind, gets, ret, throw. cbn beta iota zeta.
  intro H. split_run H.
  all: try (injection H as <- <-; reflexivity).
Qed.

(** What [executeOrder] does with a cash operation on the cash
    instrument whose user and size resolve. *)
Lemma executeOrder_cash (db : Db) (input : CreateOrderInput.t) (n : Z) :
  CreateOrderInput.side input = CASH_IN \/ CreateOrderInput.side input = CASH_OUT ->
  Spec.userExists db (CreateOrderInput.userId input) ->
  Spec.instrumentExists db (CreateOrderInput.instrumentId input) ->
  CreateOrderInput.instrumentId input = ARS_INSTRUMENT_ID ->
  Spec.cashSize input = Some n ->
  let row :=
    Spec.newRow db input n 1
      (match cashStatus db input n with
       | REJECTED => MARKET
       | _ => CreateOrderInput.type input
       end)
      (cashStatus db input n) in
  OrderService.executeOrder input db
  = (Ok (OrderService.respond row), Spec.persisted db row).
Proof.
  intros Hside Hu Hi Hars Hn.
  unfold Spec.userExists, Spec.instrumentExists in *.
  unfold OrderService.executeOrder. run.
  destruct (UserRepository.findUserById db _) as [u|]; [|congruence].
  destruct (InstrumentRepository.findInstrumentById db _) as [ins|]; [|congruence].
  assert (Hcash :
    OrderService.executeCashOperation input db =
    (Ok (OrderService.respond
           (Spec.newRow db input n 1
              (match cashStatus db input n with
               | REJECTED => MARKET
               | _ => CreateOrderInput.type input
               end)
              (cashStatus db input n))),
     Spec.persisted db
       (Spec.newRow db input n 1
          (match cashStatus db input n with
           | REJECTED => MARKET
           | _ => CreateOrderInput.type input
           end)
          (cashStatus db input n)))).
  { unfold OrderService.executeCashOperation, OrderService.validateCashOutFunds,
      cashStatus, Spec.cashSize, Spec.resolvedSize, Spec.newRow,
      Spec.lockedAvailableCash in *.
    rewrite Hars, Z.eqb_refl. run.
    destruct (CreateOrderInput.size input) as [s|];
      [ injection Hn as ->
      | destruct (CreateOrderInput.amount input) as [a|];
        [ cbn in Hn; injection Hn as <- | discriminate ] ].
    all: destruct Hside as [Hs | Hs]; rewrite Hs; cbn.
    all: try reflexivity.
    all: destruct (Dec.lessThan _ _); reflexivity. }
  destruct Hside as [Hs | Hs]; rewrite Hs in *; rewrite Hcash; reflexivity.
Qed.

(** A cash operation on another instrument than ARS. *)
Lemma executeOrder_cash_wrong_instrument (db : Db) (input : CreateOrderInput.t) :
  CreateOrderInput.side input = CASH_IN \/ CreateOrderInput.side input = CASH_OUT ->
  Spec.userExists db (CreateOrderInput.userId input) ->
  Spec.instrumentExists db (CreateOrderInput.instrumentId input) ->
  CreateOrderInput.instrumentId input <> ARS_INSTRUMENT_ID ->
  OrderService.executeOrder input db
  = (Err (BusinessRuleError
            (OrderSide_toString (CreateOrderInput.side input)
             ++ " operations must use ARS instrument (ID 66)")), db).
Proof.
  intros Hside Hu Hi Hars.
  unfold Spec.userExists, Spec.instrumentExists in *.
  unfold OrderService.executeOrder. run.
  destruct (UserRepository.findUserById db _) as [u|]; [|congruence].
  destruct (InstrumentRepository.findInstrumentById db _) as [ins|]; [|congruence].
  apply Z.eqb_neq in Hars.
  destruct Hside as [Hs | Hs]; rewrite Hs;
    unfold OrderService.executeCashOperation; rewrite Hars, Hs; reflexivity.
Qed.

Lemma cashStatus_rejected_iff (db : Db) (input : CreateOrderInput.t) (n : Z) :
  (Z.abs n < 10 ^ 20)%Z ->
  cashStatus db input n = REJECTED <->
  CreateOrderInput.side input = CASH_OUT /\
  (Spec.lockedAvailableCash db (CreateOrderInput.userId input) < inject_Z n)%Q.
Proof.
  intro Hn. unfold cashStatus.
  assert (Hlt : Dec.lessThan
                  (Spec.lockedAvailableCash db (CreateOrderInput.userId input))
                  (Dec.times (Dec.ofZ n) 1) = true <->
                (Spec.lockedAvailableCash db (CreateOrderInput.userId input)
                 < inject_Z n)%Q).
  { rewrite lessThan_iff. now rewrite (times_one n Hn). }
  destruct (CreateOrderInput.side input); cbn.
  1-3: split; [discriminate | intros [H _]; discriminate].
  destruct (Dec.lessThan _ _).
  - split; [intros _|reflexivity]. split; [reflexivity | now apply Hlt].
  - split; [discriminate|]. intros [_ H]. apply Hlt in H. discriminate.
Qed.

Lemma cashStatus_cases (db : Db) (input : CreateOrderInput.t) (n : Z) :
  cashStatus db input n = REJECTED \/ cashStatus db input n = FILLED.
Proof. unfold cashStatus. destruct (_ && _); [left | right]; reflexivity. Qed.

(* ================================================================== *)
(** ** Order execution *)
(* ================================================================== *)





(** amount = 50 at a close of 150.00: size 0, REJECTED, success. *)
Example executeOrder_dust_rejection :
  fst (OrderService.executeOrder (Sample.buy MARKET None (Some 50%Q) None) Sample.db)
  = Ok (OrderService.mkResponse true
          (Order.mk 2 47 1 0 150 MARKET BUY REJECTED 100) 0).
Proof. vm_compute. reflexivity. Qed.





(** The same amount withdrawn as a LIMIT CASH_OUT that passes keeps
    the kind LIMIT. *)
Example accepted_cash_out_keeps_kind :
  fst (OrderService.executeOrder (Sample.cash CASH_OUT LIMIT 66 (Some 200%Z))
         Sample.db)
  = Ok (OrderService.respond (Order.mk 2 66 1 200 1 LIMIT CASH_OUT FILLED 100)).
Proof. vm_compute. reflexivity. Qed.

(** C8 (as stated) fails.  A LIMIT SELL of one share with no price: the
    execution price is the text [undefined], the shares check passes
    without looking at it, and the call ends in the error of the ledger
    insert, not in a refusal by the engine.  A MARKET BUY that carries a
    price is executed at the market close. *)
Lemma price_constraint_not_honoured :
  OrderService.executionPriceOf (Sample.sell LIMIT (Some 1%Z) None None)
    (MarketDataRepository.getLatestMarketDataForInstrument Sample.holding 47)
  = PriceUndefinedText
  /\ OrderService.executeOrder (Sample.sell LIMIT (Some 1%Z) None None)
       Sample.holding
     = (Err (DatabaseError "invalid input syntax for type numeric"),
        Sample.holding)
  /\ fst (OrderService.executeOrder
            (Sample.buy MARKET (Some 1%Z) None (Some 1%Q)) Sample.db)
     = Ok (OrderService.respond (Order.mk 2 47 1 1 150 MARKET BUY FILLED 100))
  /\ ~ Spec.honoursPriceConstraint.
Proof.
  split; [reflexivity|]. split; [vm_compute; reflexivity|].
  split; [vm_compute; reflexivity|].
  intro H.
  destruct (H Sample.holding (Sample.sell LIMIT (Some 1%Z) None None))
    as [message [Hm | Hm]].
  - unfold Spec.priceConstraint. cbn. intros [_ Hc].
    apply (Hc eq_refl). reflexivity.
  - vm_compute in Hm. discriminate.
  - vm_compute in Hm. discriminate.
Qed.

(** C8 (amended).  [executeOrder] has no check of its own on the presence
    of a price.  For a LIMIT BUY or SELL without a price (user and
    instrument existing) the execution price is the text [undefined] and
    the call cannot succeed: a size-based SELL gets as far as the ledger
    insert, which refuses the price; every other input stops at the first
    decimal operation on the price or amount; in both cases the
    transaction is rolled back and nothing is persisted.  For a MARKET
    input a supplied price is ignored. *)
Theorem limit_without_price_fails_downstream
    (db : Db) (input : CreateOrderInput.t) :
  (CreateOrderInput.side input = BUY \/ CreateOrderInput.side input = SELL ->
   Spec.userExists db (CreateOrderInput.userId input) ->
   Spec.instrumentExists db (CreateOrderInput.instrumentId input) ->
   CreateOrderInput.type input = LIMIT ->
   CreateOrderInput.price input = None ->
   OrderService.executionPriceOf input
     (MarketDataRepository.getLatestMarketDataForInstrument db
        (CreateOrderInput.instrumentId input))
   = PriceUndefinedText
   /\ OrderService.executeOrder input db
      = (Err (match CreateOrderInput.side input, CreateOrderInput.size input with
              | SELL, Some _ =>
                  DatabaseError "invalid input syntax for type numeric"
              | _, _ => OrderService.invalidArgument
              end), db))
  /\
  (CreateOrderInput.type input = MARKET ->
   forall q : option Q,
     OrderService.executeOrder (CreateOrderInput.withPrice q input) db
     = OrderService.executeOrder input db).
Proof.
  split.
  - intros Hside Hu Hi Hty Hpr.
    unfold Spec.userExists, Spec.instrumentExists in *.
    split.
    + unfold OrderService.executionPriceOf. rewrite Hty, Hpr. reflexivity.
    + unfold OrderService.executeOrder. run.
      destruct (UserRepository.findUserById db _) as [u|]; [|congruence].
      destruct (InstrumentRepository.findInstrumentById db _) as [ins|];
        [|congruence].
      assert (Hstock :
        fst (OrderService.executeStockOrder input ins db)
        = Err (match CreateOrderInput.side input, CreateOrderInput.size input with
               | SELL, Some _ =>
                   DatabaseError "invalid input syntax for type numeric"
               | _, _ => OrderService.invalidArgument
               end)).
      { unfold OrderService.executeStockOrder, OrderService.executionPriceOf,
          OrderService.validateAndCreate, OrderService.validateOrder.
        run. rewrite Hty, Hpr. cbn.
        destruct (MarketDataRepository.getLatestMarketDataForInstrument db _);
          destruct (CreateOrderInput.size input) as [s|];
          destruct (CreateOrderInput.amount input) as [a|];
          destruct Hside as [Hs | Hs]; rewrite Hs; cbn; try reflexivity;
          destruct (_ <? s)%Z; reflexivity. }
      destruct Hside as [Hs | Hs]; rewrite Hs in *;
        destruct (OrderService.executeStockOrder input ins db) as [[r|e] db'];
        cbn in Hstock; try discriminate; congruence.
  - intros Hty q.
    destruct input as [u i sd ty sz am pr]. cbn in Hty. subst ty.
    unfold OrderService.executeOrder, CreateOrderInput.withPrice. run. cbn.
    destruct (UserRepository.findUserById db u); [|reflexivity].
    destruct (InstrumentRepository.findInstrumentById db i) as [ins|];
      [|reflexivity].
    destruct sd; reflexivity.
Qed.

(** A LIMIT BUY of one share without a price stops in decimal.js. *)
Lemma limit_without_price_fails_downstream_witness :
  OrderService.executeOrder (Sample.buy LIMIT (Some 1%Z) None None) Sample.db
  = (Err OrderService.invalidArgument, Sample.db).
Proof.
  destruct (limit_without_price_fails_downstream Sample.db
              (Sample.buy LIMIT (Some 1%Z) None None)) as [Hlimit _].
  destruct Hlimit as [_ Hrun].
  - left. reflexivity.
  - vm_compute. discriminate.
  - vm_compute. discriminate.
  - reflexivity.
  - reflexivity.
  - exact Hrun.
Defined.

(* ================================================================== *)
(** ** Cancellation *)
(* ================================================================== *)


Lemma find_after_update (orderId : Z) (s : OrderStatus) (l : list Order.t) :
  find (fun o => (Order.id o =? orderId)%Z)
    (map (fun o => if (Order.id o =? orderId)%Z then Order.withStatus s o else o) l)
  = option_map (Order.withStatus s) (find (fun o => (Order.id o =? orderId)%Z) l).
Proof.
  induction l as [|o l IH]; [reflexivity|].
  cbn. destruct (Order.id o =? orderId)%Z eqn:E.
  - cbn. rewrite E. reflexivity.
  - rewrite E. exact IH.
Qed.

(** The four ways [cancelOrder] can go, by the row it finds. *)
Lemma cancelOrder_run (db : Db) (orderId userId : Z) :
  OrderService.cancelOrder orderId userId db =
  match find (fun o => (Order.id o =? orderId)%Z) (orders db) with
  | None =>
      (Err (NotFoundError ("Order with ID " ++ Z_toString orderId ++ " not found")),
       db)
  | Some o =>
      if negb (Order.userId o =? userId)%Z then
        (Err (BusinessRuleError "Order not found or not owned by user"), db)
      else if negb (OrderStatus_eqb (Order.status o) NEW) then
        (Err (BusinessRuleError
                ("Only NEW orders can be cancelled. Current status: "
                 ++ OrderStatus_toString (Order.status o))), db)
      else
        match InstrumentRepository.findInstrumentById db (Order.instrumentId o) with
        | None => (Err (TypeError "Cannot read properties of undefined"), db)
        | Some i =>
            (Ok (OrderService.mkCancelResponse true "Order cancelled successfully"
                   (Order.withStatus CANCELLED o) (Instrument.ticker i)
                   (Instrument.name i)
                   (OrderService.totalAmountOf (Order.withStatus CANCELLED o))),
             cancelled db orderId)
        end
  end.
Proof.
  unfold OrderService.cancelOrder, OrderService.updateStatus. run.
  destruct (find _ (orders db)) as [o|] eqn:Hfind; [|reflexivity].
  destruct (negb (Order.userId o =? userId)%Z); [reflexivity|].
  destruct (negb (OrderStatus_eqb (Order.status o) NEW)); [reflexivity|].
  cbn [orders]. rewrite find_after_update, Hfind. cbn [option_map].
  unfold InstrumentRepository.findInstrumentById. cbn [instruments Order.withStatus
    Order.instrumentId].
  destruct (find _ (instruments db)); reflexivity.
Qed.

Lemma OrderStatus_eqb_eq (a b : OrderStatus) : OrderStatus_eqb a b = true <-> a = b.
Proof. destruct a, b; cbn; split; congruence. Qed.

(** C6.  [cancelOrder(orderId, userId)] fails with NotFound when no
    order has that id; with a BusinessRule error whose message is the
    fixed text "Order not found or not owned by user" when the owner
    differs; with a BusinessRule error whose message ends in the current
    status when the order is owned but not NEW; in all three cases the
    ledger is unchanged.  Whenever it succeeds, the order existed, was
    owned by [userId] and was NEW, its status in the ledger is now
    CANCELLED, and the response carries the updated order with the ticker
    and name of its instrument; it does succeed in that case when the
    instrument row exists; and every failure leaves the ledger as it
    was. *)
Theorem cancelOrder_outcomes (db : Db) (orderId userId : Z) :
  let found := find (fun o => (Order.id o =? orderId)%Z) (orders db) in
  (found = None ->
   OrderService.cancelOrder orderId userId db
   = (Err (NotFoundError ("Order with ID " ++ Z_toString orderId ++ " not found")),
      db))
  /\
  (forall o, found = Some o -> Order.userId o <> userId ->
   OrderService.cancelOrder orderId userId db
   = (Err (BusinessRuleError "Order not found or not owned by user"), db))
  /\
  (forall o, found = Some o -> Order.userId o = userId -> Order.status o <> NEW ->
   OrderService.cancelOrder orderId userId db
   = (Err (BusinessRuleError
             ("Only NEW orders can be cancelled. Current status: "
              ++ OrderStatus_toString (Order.status o))), db))
  /\
  (forall response db',
   OrderService.cancelOrder orderId userId db = (Ok response, db') ->
   exists o i,
     found = Some o /\ Order.userId o = userId /\ Order.status o = NEW
     /\ InstrumentRepository.findInstrumentById db (Order.instrumentId o) = Some i
     /\ db' = cancelled db orderId
     /\ find (fun o => (Order.id o =? orderId)%Z) (orders db')
        = Some (Order.withStatus CANCELLED o)
     /\ OrderService.c_order response = Order.withStatus CANCELLED o
     /\ OrderService.c_ticker response = Instrument.ticker i
     /\ OrderService.c_name response = Instrument.name i)
  /\
  (forall o i, found = Some o -> Order.userId o = userId -> Order.status o = NEW ->
   InstrumentRepository.findInstrumentById db (Order.instrumentId o) = Some i ->
   exists response,
     OrderService.cancelOrder orderId userId db = (Ok response, cancelled db orderId))
  /\
  (forall e db', OrderService.cancelOrder orderId userId db = (Err e, db') -> db' = db).
Proof.
  intro found. subst found. rewrite cancelOrder_run.
  destruct (find _ (orders db)) as [o|] eqn:Hfind.
  - split; [discriminate|].
    split.
    { intros o' Ho' Hne. injection Ho' as <-.
      apply Z.eqb_neq in Hne. rewrite Hne. reflexivity. }
    split.
    { intros o' Ho' Heq Hst. injection Ho' as <-.
      apply Z.eqb_eq in Heq. rewrite Heq. cbn.
      destruct (OrderStatus_eqb (Order.status o) NEW) eqn:E.
      - apply OrderStatus_eqb_eq in E. contradiction.
      - reflexivity. }
    split.
    { intros response db' Hrun.
      destruct (Order.userId o =? userId)%Z eqn:Eu; cbn in Hrun; [|discriminate].
      destruct (OrderStatus_eqb (Order.status o) NEW) eqn:Es; cbn in Hrun;
        [|discriminate].
      destruct (InstrumentRepository.findInstrumentById db (Order.instrumentId o))
        as [i|] eqn:Ei; [|discriminate].
      injection Hrun as <- <-.
      exists o, i. apply Z.eqb_eq in Eu. apply OrderStatus_eqb_eq in Es.
      repeat split; try assumption.
      cbn [cancelled orders]. rewrite find_after_update, Hfind. reflexivity. }
    split.
    { intros o' i Ho' Heq Hst Hi. injection Ho' as <-.
      apply Z.eqb_eq in Heq. rewrite Heq, Hst, Hi. cbn. eexists. reflexivity. }
    { intros e db'.
      destruct (negb (Order.userId o =? userId)%Z); [congruence|].
      destruct (negb (OrderStatus_eqb (Order.status o) NEW)); [congruence|].
      destruct (InstrumentRepository.findInstrumentById db (Order.instrumentId o));
        [discriminate | congruence]. }
  - split; [reflexivity|].
    split; [discriminate|]. split; [discriminate|].
    split; [discriminate|]. split; [discriminate|].
    intros e db' H. congruence.
Qed.

(** Alice cancels her resting LIMIT BUY. *)
Example cancelOrder_resting :
  OrderService.cancelOrder 2 1 Sample.resting
  = (Ok (OrderService.mkCancelResponse true "Order cancelled successfully"
           (Order.mk 2 47 1 3 90 LIMIT BUY CANCELLED 20) "PAMP" "Pampa Holding" 270),
     mkDb [Sample.alice; Sample.bob] [Sample.pamp; Sample.ars] [Sample.pampClose]
       [Sample.deposit; Order.mk 2 47 1 3 90 LIMIT BUY CANCELLED 20] 3 100).
Proof. vm_compute. reflexivity. Qed.

(** Bob cannot cancel Alice's order; Alice cannot cancel a FILLED one. *)
Lemma cancelOrder_outcomes_witness :
  OrderService.cancelOrder 1 2 Sample.db
  = (Err (BusinessRuleError "Order not found or not owned by user"), Sample.db)
  /\
  OrderService.cancelOrder 1 1 Sample.db
  = (Err (BusinessRuleError
            "Only NEW orders can be cancelled. Current status: FILLED"),
     Sample.db).
Proof.
  destruct (cancelOrder_outcomes Sample.db 1 2) as [_ [Hown _]].
  destruct (cancelOrder_outcomes Sample.db 1 1) as [_ [_ [Hstatus _]]].
  split.
  - apply (Hown Sample.deposit); [reflexivity | vm_compute; discriminate].
  - apply (Hstatus Sample.deposit);
      [reflexivity | reflexivity | vm_compute; discriminate].
Defined.

(* ================================================================== *)
(** ** Sorting *)
(* ================================================================== *)

Section SortBy.
Context {A : Type} (le : A -> A -> bool).
Hypothesis le_total : forall a b, le a b = true \/ le b a = true.
Hypothesis le_trans : forall a b c, le a b = true -> le b c = true -> le a c = true.

Lemma insertBy_perm (x : A) (l : list A) : Permutation (insertBy le x l) (x :: l).
Proof.
  induction l as [|y l IH]; cbn; [reflexivity|].
  destruct (le x y); [reflexivity|].
  rewrite IH. apply perm_swap.
Qed.

Lemma sortBy_perm (l : list A) : Permutation (sortBy le l) l.
Proof.
  induction l as [|x l IH]; cbn; [reflexivity|].
  fold (sortBy le l). rewrite insertBy_perm. now constructor.
Qed.

Lemma insertBy_sorted (x : A) (l : list A) :
  StronglySorted (fun a b => le a b = true) l ->
  StronglySorted (fun a b => le a b = true) (insertBy le x l).
Proof.
  induction l as [|y l IH]; intro Hs; cbn.
  - constructor; constructor.
  - inversion Hs as [|? ? Hs' Hall]; subst.
    destruct (le x y) eqn:E.
    + constructor; [exact Hs|]. constructor; [exact E|].
      eapply Forall_impl; [|exact Hall]. intros a Ha. eapply le_trans; eassumption.
    + constructor; [apply IH; exact Hs'|].
      assert (Hyx : le y x = true) by (destruct (le_total x y); congruence).
      eapply Permutation_Forall; [symmetry; apply insertBy_perm|].
      constructor; assumption.
Qed.

Lemma sortBy_sorted (l : list A) :
  StronglySorted (fun a b => le a b = true) (sortBy le l).
Proof.
  induction l as [|x l IH]; cbn; [constructor|].
  apply insertBy_sorted. exact IH.
Qed.
End SortBy.

Lemma StronglySorted_firstn {A : Type} (R : A -> A -> Prop) (n : nat) (l : list A) :
  StronglySorted R l -> StronglySorted R (firstn n l).
Proof.
  revert n. induction l as [|x l IH]; intros n Hs.
  - rewrite firstn_nil. constructor.
  - destruct n as [|n]; cbn; [constructor|].
    inversion Hs as [|? ? Hs' Hall]; subst.
    constructor; [apply IH; exact Hs'|].
    apply Forall_forall. intros y Hy.
    rewrite Forall_forall in Hall. apply Hall.
    rewrite <- (firstn_skipn n l). apply in_or_app. now left.
Qed.

Lemma StronglySorted_weaken {A : Type} (R R' : A -> A -> Prop) (l : list A) :
  (forall a b, R a b -> R' a b) -> StronglySorted R l -> StronglySorted R' l.
Proof.
  intros HR Hs. induction Hs as [|x l Hs IH Hall]; constructor; [exact IH|].
  eapply Forall_impl; [|exact Hall]. intros b. apply HR.
Qed.

Lemma In_firstn {A : Type} (n : nat) (l : list A) (x : A) :
  In x (firstn n l) -> In x l.
Proof.
  intro H. rewrite <- (firstn_skipn n l). apply in_or_app. now left.
Qed.

(* ================================================================== *)
(** ** Pagination *)
(* ================================================================== *)


Lemma pageCandidates_perm (db : Db) (userId : Z) (cursor : option Z) :
  Permutation (OrderRepository.pageCandidates db userId cursor)
    (filter (fun o => (Order.userId o =? userId)%Z
                      && match cursor with
                         | Some c => (Order.datetime o <? c)%Z
                         | None => true
                         end)
       (orders db)).
Proof. apply sortBy_perm. Qed.

Lemma pageCandidates_In (db : Db) (userId : Z) (cursor : option Z) (o : Order.t) :
  In o (OrderRepository.pageCandidates db userId cursor) <->
  In o (orders db) /\ pageMatch userId cursor o.
Proof.
  split.
  - intro H. apply (Permutation_in _ (pageCandidates_perm db userId cursor)) in H.
    apply filter_In in H. destruct H as [Hin Hb].
    apply andb_true_iff in Hb. destruct Hb as [Hu Hc].
    split; [exact Hin|]. split; [now apply Z.eqb_eq|].
    destruct cursor; [now apply Z.ltb_lt | exact I].
  - intros [Hin [Hu Hc]].
    apply (Permutation_in _ (Permutation_sym (pageCandidates_perm db userId cursor))).
    apply filter_In. split; [exact Hin|].
    apply andb_true_iff. split; [now apply Z.eqb_eq|].
    destruct cursor; [now apply Z.ltb_lt | reflexivity].
Qed.

Lemma pageCandidates_sorted (db : Db) (userId : Z) (cursor : option Z) :
  newestFirst (OrderRepository.pageCandidates db userId cursor).
Proof.
  unfold newestFirst, OrderRepository.pageCandidates.
  eapply StronglySorted_weaken.
  2: { apply (sortBy_sorted
                (fun a b : Order.t => (Order.datetime b <=? Order.datetime a)%Z)).
       - intros a b. cbn. rewrite !Z.leb_le. lia.
       - intros a b c. cbn. rewrite !Z.leb_le. lia. }
  intros a b. cbn. rewrite Z.leb_le. tauto.
Qed.

(** C7.  For a limit between 1 and 200, [getOrdersByUserId] takes the
    first limit + 1 of the user's rows (strictly older than the cursor,
    when one is given) in descending order of creation time.  When more
    than limit rows come back, the extra row is dropped, hasMore is true
    and nextCursor is the creation time of the last row returned;
    otherwise hasMore is false and nextCursor is null.  At most
    min(limit, 200) orders are returned. *)
Theorem getOrdersByUserId_page (db : Db) (userId limit : Z) (cursor : option Z) :
  (1 <= limit <= 200)%Z ->
  let candidates := OrderRepository.pageCandidates db userId cursor in
  let fetched := firstn (Z.to_nat (limit + 1)) candidates in
  newestFirst candidates
  /\ (forall o, In o candidates <-> In o (orders db) /\ pageMatch userId cursor o)
  /\ exists page : OrderRepository.Page,
       OrderRepository.getOrdersByUserId db userId (Some limit) cursor = Ok page
       /\ newestFirst (OrderRepository.page_orders page)
       /\ (limit < Z.of_nat (List.length fetched) ->
           fetched = OrderRepository.page_orders page ++ skipn (Z.to_nat limit) fetched
           /\ List.length (skipn (Z.to_nat limit) fetched) = 1%nat
           /\ OrderRepository.hasMore page = true
           /\ exists front lastRow,
                OrderRepository.page_orders page = front ++ [lastRow]
                /\ OrderRepository.nextCursor page = Some (Order.datetime lastRow))
       /\ (Z.of_nat (List.length fetched) <= limit ->
           OrderRepository.page_orders page = fetched
           /\ OrderRepository.hasMore page = false
           /\ OrderRepository.nextCursor page = None)
       /\ Z.of_nat (List.length (OrderRepository.page_orders page)) <= Z.min limit 200.
Proof.
  intros Hlimit candidates fetched.
  split; [apply pageCandidates_sorted|].
  split; [apply pageCandidates_In|].
  unfold OrderRepository.getOrdersByUserId. cbv zeta.
  rewrite (Z.min_l limit 200) by lia.
  replace (limit + 1 <? 0)%Z with false by (symmetry; apply Z.ltb_ge; lia).
  fold candidates. fold fetched.
  assert (Hlen : (Z.of_nat (List.length fetched) <= limit + 1)%Z).
  { subst fetched. pose proof (firstn_le_length (Z.to_nat (limit + 1)) candidates).
    lia. }
  assert (Hsorted : newestFirst fetched).
  { apply StronglySorted_firstn. apply pageCandidates_sorted. }
  eexists. split; [reflexivity|]. cbn.
  destruct (limit <? Z.of_nat (List.length fetched))%Z eqn:Emore.
  - apply Z.ltb_lt in Emore.
    assert (Hne : fetched <> []).
    { intro H0. rewrite H0 in Emore. cbn in Emore. lia. }
    assert (Hrl : removelast fetched = firstn (Z.to_nat limit) fetched).
    { rewrite removelast_firstn_len. f_equal. lia. }
    assert (Hpage : List.length (removelast fetched) = Z.to_nat limit).
    { rewrite Hrl, length_firstn. lia. }
    assert (Hpne : removelast fetched <> []).
    { intro H0. rewrite H0 in Hpage. cbn in Hpage. lia. }
    split.
    { rewrite Hrl. apply StronglySorted_firstn. exact Hsorted. }
    split.
    { intros _. split.
      { rewrite Hrl. symmetry. apply firstn_skipn. }
      split.
      { rewrite length_skipn. lia. }
      split; [reflexivity|].
      destruct (exists_last Hpne) as [front [lastRow Hsplit]].
      exists front, lastRow.
      split; [exact Hsplit|].
      replace (0 <? Z.of_nat (List.length (removelast fetched)))%Z with true
        by (symmetry; apply Z.ltb_lt; lia).
      rewrite Hsplit, map_app.
      change (map Some [lastRow]) with [Some lastRow].
      rewrite last_last. reflexivity. }
    split; [intro; lia|].
    lia.
  - apply Z.ltb_ge in Emore.
    split; [exact Hsorted|].
    split; [intro; lia|].
    split; [intros _; repeat split|].
    lia.
Qed.

(** Without a limit the page size is 50. *)
Lemma getOrdersByUserId_default_limit (db : Db) (userId : Z) (cursor : option Z) :
  OrderRepository.getOrdersByUserId db userId None cursor
  = OrderRepository.getOrdersByUserId db userId (Some 50%Z) cursor.
Proof. reflexivity. Qed.

(** One row in the ledger, limit 1: a full page and no more. *)
Lemma getOrdersByUserId_page_witness :
  exists page : OrderRepository.Page,
    OrderRepository.getOrdersByUserId Sample.db 1 (Some 1%Z) None = Ok page
    /\ OrderRepository.page_orders page = [Sample.deposit]
    /\ OrderRepository.hasMore page = false
    /\ OrderRepository.nextCursor page = None.
Proof.
  destruct (getOrdersByUserId_page Sample.db 1 1 None)
    as [_ [_ [page [Hrun [_ [_ [Hfew _]]]]]]].
  - lia.
  - exists page. split; [exact Hrun|]. apply Hfew. vm_compute. discriminate.
Defined.

(** Two rows in the ledger, limit 1: the older row is dropped, hasMore
    is true and nextCursor is the creation time of the row returned. *)
Example getOrdersByUserId_has_more :
  OrderRepository.getOrdersByUserId Sample.holding 1 (Some 1%Z) None
  = Ok (OrderRepository.mkPage [Sample.purchase] (Some 20%Z) true)
  /\
  OrderRepository.getOrdersByUserId Sample.holding 1 (Some 1%Z) (Some 20%Z)
  = Ok (OrderRepository.mkPage [Sample.deposit] None false).
Proof. vm_compute. split; reflexivity. Qed.

(* ================================================================== *)
(** ** Position replay *)
(* ================================================================== *)

Section MapFacts.
Import PortfolioService.
Context {V : Type}.

Lemma Map_get_set_same (m : list (Z * V)) (k : Z) (v : V) :
  Map_get (Map_set m k v) k = Some v.
Proof.
  induction m as [|[k' v'] m IH]; cbn.
  - now rewrite Z.eqb_refl.
  - destruct (k' =? k)%Z eqn:E; cbn.
    + now rewrite Z.eqb_refl.
    + now rewrite E.
Qed.

Lemma Map_get_set_other (m : list (Z * V)) (k k' : Z) (v : V) :
  k' <> k -> Map_get (Map_set m k v) k' = Map_get m k'.
Proof.
  intro Hne. induction m as [|[k0 v0] m IH]; cbn.
  - destruct (k =? k')%Z eqn:E; [apply Z.eqb_eq in E; congruence | reflexivity].
  - destruct (k0 =? k)%Z eqn:E; cbn.
    + apply Z.eqb_eq in E. subst k0.
      destruct (k =? k')%Z eqn:E'; [apply Z.eqb_eq in E'; congruence | reflexivity].
    + destruct (k0 =? k')%Z; [reflexivity | exact IH].
Qed.

Lemma Map_get_In (m : list (Z * V)) (k : Z) (v : V) :
  Map_get m k = Some v -> In (k, v) m.
Proof.
  induction m as [|[k' v'] m IH]; cbn; [discriminate|].
  destruct (k' =? k)%Z eqn:E.
  - apply Z.eqb_eq in E. intro H. injection H as ->. left. now subst.
  - intro H. right. now apply IH.
Qed.

Lemma Map_get_None (m : list (Z * V)) (k : Z) :
  Map_get m k = None -> ~ In k (map fst m).
Proof.
  induction m as [|[k' v'] m IH]; cbn; [tauto|].
  destruct (k' =? k)%Z eqn:E; [discriminate|].
  apply Z.eqb_neq in E. intros H [H1 | H1]; [congruence | now apply IH].
Qed.

Lemma Map_set_keys (m : list (Z * V)) (k : Z) (v : V) :
  map fst (Map_set m k v)
  = if Map_has m k then map fst m else map fst m ++ [k].
Proof.
  unfold Map_has. induction m as [|[k' v'] m IH]; cbn; [reflexivity|].
  destruct (k' =? k)%Z eqn:E; cbn.
  - apply Z.eqb_eq in E. now subst.
  - rewrite IH. destruct (Map_get m k); reflexivity.
Qed.

Lemma Map_set_NoDup (m : list (Z * V)) (k : Z) (v : V) :
  NoDup (map fst m) -> NoDup (map fst (Map_set m k v)).
Proof.
  intro Hnd. rewrite Map_set_keys. unfold Map_has.
  destruct (Map_get m k) eqn:E; [exact Hnd|].
  apply Map_get_None in E.
  apply NoDup_app; [exact Hnd | constructor; [tauto | constructor] |].
  intros x Hx [Hk | []]. subst. contradiction.
Qed.

(** With distinct keys, an entry of the map is the one [get] finds. *)
Lemma Map_In_get (m : list (Z * V)) (k : Z) (v : V) :
  NoDup (map fst m) -> In (k, v) m -> Map_get m k = Some v.
Proof.
  induction m as [|[k' v'] m IH]; cbn; [tauto|].
  intros Hnd [Heq | Hin].
  - injection Heq as -> ->. now rewrite Z.eqb_refl.
  - inversion Hnd as [|? ? Hnot Hnd']; subst.
    destruct (k' =? k)%Z eqn:E.
    + apply Z.eqb_eq in E. subst k'. exfalso. apply Hnot.
      change k with (fst (k, v)). now apply in_map.
    + now apply IH.
Qed.
End MapFacts.

Section Replay.
Import PortfolioService.


Lemma replayOrder_get_same (m : list (Z * InternalPosition)) (o : Order.t) :
  Map_get (replayOrder m o) (Order.instrumentId o)
  = Some (stepPosition (orFresh (Order.instrumentId o)
                          (Map_get m (Order.instrumentId o))) o).
Proof.
  unfold replayOrder, stepPosition, Map_has, orFresh.
  destruct (Map_get m (Order.instrumentId o)) as [p|] eqn:E.
  - rewrite E. destruct (applyOrder p o); [apply Map_get_set_same | exact E].
  - rewrite Map_get_set_same.
    destruct (applyOrder _ o); apply Map_get_set_same.
Qed.

Lemma replayOrder_get_other (m : list (Z * InternalPosition)) (o : Order.t) (i : Z) :
  i <> Order.instrumentId o ->
  Map_get (replayOrder m o) i = Map_get m i.
Proof.
  intro Hne. unfold replayOrder.
  destruct (Map_has m (Order.instrumentId o)).
  - destruct (applyOrder _ o); [now apply Map_get_set_other | reflexivity].
  - destruct (applyOrder _ o); rewrite ?Map_get_set_other by exact Hne;
      reflexivity.
Qed.

Lemma replayOrder_NoDup (m : list (Z * InternalPosition)) (o : Order.t) :
  NoDup (map fst m) -> NoDup (map fst (replayOrder m o)).
Proof.
  intro Hnd. unfold replayOrder.
  destruct (Map_has m (Order.instrumentId o));
    destruct (applyOrder _ o); repeat apply Map_set_NoDup; exact Hnd.
Qed.

Lemma replay_NoDup (orders : list Order.t) :
  forall m, NoDup (map fst m) -> NoDup (map fst (fold_left replayOrder orders m)).
Proof.
  induction orders as [|o orders IH]; intros m Hnd; cbn; [exact Hnd|].
  apply IH. now apply replayOrder_NoDup.
Qed.

Lemma replay_get (orders : list Order.t) :
  forall (m : list (Z * InternalPosition)) (i : Z),
    Map_get (fold_left replayOrder orders m) i
    = match ordersOf i orders with
      | [] => Map_get m i
      | os => Some (fold_left stepPosition os (orFresh i (Map_get m i)))
      end.
Proof.
  induction orders as [|o orders IH]; intros m i; cbn; [reflexivity|].
  rewrite IH. unfold ordersOf. cbn [filter].
  destruct (Order.instrumentId o =? i)%Z eqn:E.
  - apply Z.eqb_eq in E. subst i. rewrite replayOrder_get_same. cbn.
    destruct (filter _ orders); reflexivity.
  - apply Z.eqb_neq in E.
    rewrite replayOrder_get_other by congruence. reflexivity.
Qed.

(** The entry of an instrument is the fold of its own orders, in the
    order of the list. *)
Lemma replayOrders_get (orders : list Order.t) (i : Z) :
  Map_get (replayOrders orders) i
  = match ordersOf i orders with
    | [] => None
    | _ => Some (replayedPosition i orders)
    end.
Proof.
  unfold replayOrders, replayedPosition. rewrite replay_get.
  destruct (ordersOf i orders); reflexivity.
Qed.

Lemma replayOrders_NoDup (orders : list Order.t) :
  NoDup (map fst (replayOrders orders)).
Proof. apply replay_NoDup. constructor. Qed.

(** Keys and entries agree: the entry under [i] is the position of [i]. *)
Lemma replay_keys (orders : list Order.t) :
  forall m, Forall (fun e => ip_instrumentId (snd e) = fst e) m ->
    Forall (fun e => ip_instrumentId (snd e) = fst e) (fold_left replayOrder orders m).
Proof.
  assert (Hset : forall (m : list (Z * InternalPosition)) k v,
            ip_instrumentId v = k ->
            Forall (fun e => ip_instrumentId (snd e) = fst e) m ->
            Forall (fun e => ip_instrumentId (snd e) = fst e) (Map_set m k v)).
  { intros m k v Hv. induction m as [|[k' v'] m IHm]; intro Hall; cbn.
    - constructor; [exact Hv | constructor].
    - pose proof (Forall_inv Hall) as H1. pose proof (Forall_inv_tail Hall) as H2.
      destruct (k' =? k)%Z; constructor; auto. }
  induction orders as [|o orders IH]; intros m Hall; cbn; [exact Hall|].
  apply IH. unfold replayOrder.
  set (i := Order.instrumentId o).
  assert (Hm1 : Forall (fun e => ip_instrumentId (snd e) = fst e)
                  (if Map_has m i then m else Map_set m i (freshPosition i))).
  { destruct (Map_has m i); [exact Hall | now apply Hset]. }
  set (m1 := if Map_has m i then m else Map_set m i (freshPosition i)) in *.
  assert (Hpos : ip_instrumentId
                   (match Map_get m1 i with Some p => p | None => freshPosition i end)
                 = i).
  { destruct (Map_get m1 i) as [p|] eqn:E; [|reflexivity].
    apply Map_get_In in E. rewrite Forall_forall in Hm1. exact (Hm1 _ E). }
  set (position := match Map_get m1 i with Some p => p | None => freshPosition i end)
    in *.
  unfold applyOrder.
  destruct (Order.side o); try exact Hm1.
  - apply Hset; [exact Hpos | exact Hm1].
  - destruct (ip_quantity position =? 0)%Z; [exact Hm1|].
    apply Hset; [exact Hpos | exact Hm1].
Qed.

Local Open Scope Q_scope.

Lemma partial_sell_keeps_average (position : InternalPosition) (order : Order.t) :
  Order.side order = SELL ->
  ip_quantity position <> 0%Z ->
  (ip_quantity position - Order.size order)%Z <> 0%Z ->
  let average := ip_totalCost position / inject_Z (ip_quantity position) in
  Dec.exact average ->
  Dec.exact (inject_Z (Order.size order) * average) ->
  Dec.exact (ip_totalCost position - inject_Z (Order.size order) * average) ->
  averageCost (stepPosition position order) == averageCost position
  /\ averageCost position == average.
Proof.
  intros Hside Hq Hrem average Havg Hprod Hdiff.
  assert (Hq0 : ~ inject_Z (ip_quantity position) == 0).
  { intro H. apply Hq. unfold Qeq in H. cbn in H. lia. }
  assert (Hrem0 : ~ inject_Z (ip_quantity position - Order.size order) == 0).
  { intro H. apply Hrem. unfold Qeq in H. cbn in H. lia. }
  assert (Hbefore : averageCost position == average).
  { unfold averageCost, Dec.dividedBy, Dec.ofZ. exact Havg. }
  split; [|exact Hbefore].
  rewrite Hbefore.
  unfold stepPosition, applyOrder. rewrite Hside.
  destruct (ip_quantity position =? 0)%Z eqn:E; [apply Z.eqb_eq in E; contradiction|].
  unfold averageCost. cbn [ip_totalCost ip_quantity].
  unfold Dec.dividedBy, Dec.minus, Dec.times, Dec.ofZ.
  assert (H1 : Dec.finalise (ip_totalCost position / inject_Z (ip_quantity position))
                 Dec.precision == average) by exact Havg.
  assert (H2 : Dec.finalise
                 (inject_Z (Order.size order)
                  * Dec.finalise (ip_totalCost position / inject_Z (ip_quantity position))
                      Dec.precision) Dec.precision
               == inject_Z (Order.size order) * average).
  { apply exact_step; [|exact Hprod]. now rewrite H1. }
  assert (H3 : Dec.finalise
                 (ip_totalCost position
                  - Dec.finalise
                      (inject_Z (Order.size order)
                       * Dec.finalise
                           (ip_totalCost position / inject_Z (ip_quantity position))
                           Dec.precision) Dec.precision) Dec.precision
               == ip_totalCost position - inject_Z (Order.size order) * average).
  { apply exact_step; [|exact Hdiff]. now rewrite H2. }
  apply exact_step; [|exact Havg].
  rewrite H3. subst average.
  assert (Hsub : inject_Z (ip_quantity position - Order.size order)
                 == inject_Z (ip_quantity position) - inject_Z (Order.size order)).
  { unfold Z.sub. rewrite inject_Z_plus, inject_Z_opp. reflexivity. }
  rewrite Hsub in Hrem0 |- *. field. split; assumption.
Qed.

End Replay.

Lemma StronglySorted_filter {A : Type} (R : A -> A -> Prop) (f : A -> bool)
    (l : list A) :
  StronglySorted R l -> StronglySorted R (filter f l).
Proof.
  intro Hs. induction Hs as [|x l Hs IH Hall]; cbn; [constructor|].
  destruct (f x); [|exact IH].
  constructor; [exact IH|].
  apply Forall_forall. intros y Hy. apply filter_In in Hy.
  rewrite Forall_forall in Hall. now apply Hall.
Qed.

Lemma getFilledOrdersByUserId_sorted (db : Db) (userId : Z) :
  Spec.oldestFirst (OrderRepository.getFilledOrdersByUserId db userId).
Proof.
  unfold Spec.oldestFirst, OrderRepository.getFilledOrdersByUserId.
  eapply StronglySorted_weaken.
  2: { apply (sortBy_sorted
                (fun a b : Order.t => (Order.datetime a <=? Order.datetime b)%Z)).
       - intros a b. cbn. rewrite !Z.leb_le. lia.
       - intros a b c. cbn. rewrite !Z.leb_le. lia. }
  intros a b. cbn. rewrite Z.leb_le. tauto.
Qed.

Lemma stockOrders_sorted (db : Db) (userId : Z) :
  Spec.oldestFirst (Spec.stockOrders db userId).
Proof. apply StronglySorted_filter. apply getFilledOrdersByUserId_sorted. Qed.

Section Positions.
Import PortfolioService.

(** An entry of [calculatePositions] comes from an entry of the replay
    with a positive quantity. *)
Lemma calculatePositions_In (orders : list Order.t) (i : Z)
    (calculation : PositionCalculation) :
  In (i, calculation) (calculatePositions orders) <->
  exists position,
    Map_get (replayOrders orders) i = Some position
    /\ (0 < ip_quantity position)%Z
    /\ calculation = mkCalculation (ip_instrumentId position) (ip_quantity position)
                       (Dec.toNumber (ip_totalCost position)).
Proof.
  unfold calculatePositions. rewrite in_map_iff. split.
  - intros [[k position] [Heq Hin]]. cbn in Heq. injection Heq as -> <-.
    apply filter_In in Hin. destruct Hin as [Hin Hq]. cbn in Hq.
    exists position. split; [|split; [now apply Z.ltb_lt | reflexivity]].
    apply Map_In_get; [apply replayOrders_NoDup | exact Hin].
  - intros [position [Hget [Hq ->]]].
    exists (i, position). split; [reflexivity|].
    apply filter_In. split; [now apply Map_get_In | now apply Z.ltb_lt].
Qed.

Lemma calculatePositions_keys (orders : list Order.t) (i : Z) :
  In i (map fst (calculatePositions orders)) <->
  exists position,
    Map_get (replayOrders orders) i = Some position /\ (0 < ip_quantity position)%Z.
Proof.
  rewrite in_map_iff. split.
  - intros [[k calculation] [Hk Hin]]. cbn in Hk. subst k.
    apply calculatePositions_In in Hin. destruct Hin as [position [H1 [H2 _]]].
    now exists position.
  - intros [position [H1 H2]].
    exists (i, mkCalculation (ip_instrumentId position) (ip_quantity position)
                 (Dec.toNumber (ip_totalCost position))).
    split; [reflexivity|]. apply calculatePositions_In. now exists position.
Qed.

Lemma enrichLoop_In (entries : list (Z * PositionCalculation))
    (marketDataMap : Z -> option LatestMarketData.t)
    (instrumentMap : Z -> option Instrument.t) (p : Position) :
  In p (enrichLoop entries marketDataMap instrumentMap) ->
  exists calculation,
    In (instrumentId p, calculation) entries
    /\ quantity p = pc_quantity calculation.
Proof.
  induction entries as [|[i calculation] entries IH]; cbn; [tauto|].
  destruct (marketDataMap i) as [md|]; [destruct (instrumentMap i) as [ins|]|].
  - intros [Hp | Hin].
    + subst p. exists calculation. split; [now left | reflexivity].
    + destruct (IH Hin) as [c [H1 H2]]. exists c. split; [now right | exact H2].
  - intro Hin. destruct (IH Hin) as [c [H1 H2]]. exists c. split; [now right | exact H2].
  - intro Hin. destruct (IH Hin) as [c [H1 H2]]. exists c. split; [now right | exact H2].
Qed.

Lemma enrichPositions_In (entries : list (Z * PositionCalculation))
    (marketDataMap : Z -> option LatestMarketData.t)
    (instrumentMap : Z -> option Instrument.t) (p : Position) :
  In p (enrichPositions entries marketDataMap instrumentMap) ->
  exists calculation,
    In (instrumentId p, calculation) entries
    /\ quantity p = pc_quantity calculation.
Proof.
  intro Hin. apply enrichLoop_In with marketDataMap instrumentMap.
  eapply Permutation_in; [apply sortBy_perm | exact Hin].
Qed.

(** Every position of a portfolio is an entry of the replay of the
    user's stock orders, with the same, positive, quantity. *)
Lemma getUserPortfolio_positions (db : Db) (user : Z) (portfolio : Portfolio)
    (p : Position) :
  getUserPortfolio db user = Ok portfolio ->
  In p (positions portfolio) ->
  exists position,
    Map_get (replayOrders (Spec.stockOrders db user)) (instrumentId p) = Some position
    /\ (0 < ip_quantity position)%Z
    /\ quantity p = ip_quantity position.
Proof.
  unfold getUserPortfolio. fold (Spec.stockOrders db user).
  destruct (UserRepository.findUserById db user); [|discriminate].
  destruct (calculatePositions (Spec.stockOrders db user)) as [|e entries] eqn:Hc.
  - intro H. injection H as <-. cbn. tauto.
  - intro H. injection H as <-. cbn [positions]. intro Hin.
    apply enrichPositions_In in Hin. destruct Hin as [calculation [Hin Hq]].
    rewrite <- Hc in Hin. apply calculatePositions_In in Hin.
    destruct Hin as [position [H1 [H2 ->]]].
    exists position. repeat split; assumption.
Qed.

End Positions.

(* ================================================================== *)
(** ** Portfolio valuation *)
(* ================================================================== *)

(** C3 (as stated) fails.  BUY 1 at 1.00 and BUY 2 at 1.50 give a total
    cost of 4 for 3 shares, an average of 1.3333333333333333333 at the
    twenty significant digits decimal.js keeps.  A SELL of 1 subtracts
    that rounded average and leaves 2.6666666666666666667 for 2 shares,
    an average of 1.3333333333333333334. *)
Lemma partial_sell_changes_average :
  PortfolioService.replayOrders [Sample.buy1; Sample.buy2]
  = [(47, PortfolioService.mkInternal 47 3 4%Q)]
  /\ PortfolioService.averageCost
       (PortfolioService.replayedPosition 47 [Sample.buy1; Sample.buy2])
     = (13333333333333333333 # 10000000000000000000)%Q
  /\ PortfolioService.averageCost
       (PortfolioService.replayedPosition 47 [Sample.buy1; Sample.buy2; Sample.sell1])
     = (6666666666666666667 # 5000000000000000000)%Q
  /\ ~ Spec.partialSellKeepsAverage.
Proof.
  split; [vm_compute; reflexivity|].
  split; [vm_compute; reflexivity|].
  split; [vm_compute; reflexivity|].
  intro H.
  specialize (H (PortfolioService.mkInternal 47 3 4%Q) Sample.sell1 eq_refl).
  assert (Hpartial : (0 < Order.size Sample.sell1
                      < PortfolioService.ip_quantity
                          (PortfolioService.mkInternal 47 3 4%Q))%Z)
    by (cbn; lia).
  specialize (H Hpartial). vm_compute in H. discriminate.
Qed.

(** C3 (amended).  The position derived for an instrument is the fold
    of that instrument's orders, taken in the order of the list, and the
    list reaches the replay in ascending creation time.  A BUY adds its
    size to the quantity and size x price to the total cost; a SELL
    against a quantity of 0 is skipped; any other SELL subtracts its size
    from the quantity and size x (totalCost / quantity) from the total
    cost; every sum, product and quotient is rounded by decimal.js to
    twenty significant digits.  When the average, the product and the
    difference of a SELL need no rounding, the average cost per remaining
    share is unchanged by it: BUY 10 at 100 then SELL 4 leaves quantity 6
    at an average of 100.  An instrument whose replayed quantity is 0
    does not appear in the result. *)
Theorem replay_is_average_cost_fold :
  (forall (orders : list Order.t) (i : Z),
     PortfolioService.Map_get (PortfolioService.replayOrders orders) i
     = match PortfolioService.ordersOf i orders with
       | [] => None
       | _ :: _ =>
           Some (fold_left PortfolioService.stepPosition
                   (PortfolioService.ordersOf i orders)
                   (PortfolioService.freshPosition i))
       end)
  /\ (forall (db : Db) (userId : Z), Spec.oldestFirst (Spec.stockOrders db userId))
  /\ (forall (position : PortfolioService.InternalPosition) (order : Order.t),
        let q := PortfolioService.ip_quantity position in
        let cost := PortfolioService.ip_totalCost position in
        let size := Dec.ofZ (Order.size order) in
        (Order.side order = BUY ->
         PortfolioService.stepPosition position order
         = PortfolioService.mkInternal (PortfolioService.ip_instrumentId position)
             (q + Order.size order)
             (Dec.plus cost (Dec.times size (Order.price order))))
        /\ (Order.side order = SELL -> q = 0%Z ->
            PortfolioService.stepPosition position order = position)
        /\ (Order.side order = SELL -> q <> 0%Z ->
            PortfolioService.stepPosition position order
            = PortfolioService.mkInternal (PortfolioService.ip_instrumentId position)
                (q - Order.size order)
                (Dec.minus cost
                   (Dec.times size (Dec.dividedBy cost (Dec.ofZ q))))))
  /\ (forall (position : PortfolioService.InternalPosition) (order : Order.t),
        let q := PortfolioService.ip_quantity position in
        let cost := PortfolioService.ip_totalCost position in
        let average := (cost / inject_Z q)%Q in
        Order.side order = SELL ->
        q <> 0%Z ->
        (q - Order.size order)%Z <> 0%Z ->
        Dec.exact average ->
        Dec.exact (inject_Z (Order.size order) * average) ->
        Dec.exact (cost - inject_Z (Order.size order) * average) ->
        (PortfolioService.averageCost (PortfolioService.stepPosition position order)
         == PortfolioService.averageCost position)%Q)
  /\ (PortfolioService.replayOrders [Sample.buy10; Sample.sell4]
      = [(47, PortfolioService.mkInternal 47 6 600%Q)]
      /\ PortfolioService.averageCost
           (PortfolioService.replayedPosition 47 [Sample.buy10; Sample.sell4])
         = 100%Q
      /\ option_map (fun p => map (fun x => (PortfolioService.quantity x,
                                            PortfolioService.averageBuyPrice x))
                                (PortfolioService.positions p))
           (match PortfolioService.getUserPortfolio Sample.traded 1 with
            | Ok p => Some p
            | Err _ => None
            end)
         = Some [(6%Z, 100%Q)])
  /\ (forall (orders : list Order.t) (i : Z)
             (position : PortfolioService.InternalPosition),
        PortfolioService.Map_get (PortfolioService.replayOrders orders) i
        = Some position ->
        PortfolioService.ip_quantity position = 0%Z ->
        ~ In i (map fst (PortfolioService.calculatePositions orders))).
Proof.
  split.
  { intros orders i. rewrite replayOrders_get.
    unfold PortfolioService.replayedPosition.
    destruct (PortfolioService.ordersOf i orders); reflexivity. }
  split; [apply stockOrders_sorted|].
  split.
  { intros position order q cost size.
    unfold PortfolioService.stepPosition, PortfolioService.applyOrder.
    split; [intros ->; reflexivity|].
    split.
    - intros -> Hq. subst q. rewrite Hq. reflexivity.
    - intros -> Hq. subst q.
      destruct (PortfolioService.ip_quantity position =? 0)%Z eqn:E;
        [apply Z.eqb_eq in E; contradiction | reflexivity]. }
  split.
  { intros position order q cost average Hside Hq Hrem H1 H2 H3.
    apply (partial_sell_keeps_average position order Hside Hq Hrem H1 H2 H3). }
  split.
  { split; [vm_compute; reflexivity|].
    split; vm_compute; reflexivity. }
  intros orders i position Hget Hzero Hin.
  apply calculatePositions_keys in Hin.
  destruct Hin as [position' [Hget' Hpos]].
  rewrite Hget in Hget'. injection Hget' as <-. lia.
Qed.

(** BUY 10 at 100 then SELL 4: every operation is exact, and the
    average of 100 is kept. *)
Lemma replay_is_average_cost_fold_witness :
  (PortfolioService.averageCost
     (PortfolioService.stepPosition (PortfolioService.mkInternal 47 10 1000%Q)
        Sample.sell4)
   == PortfolioService.averageCost (PortfolioService.mkInternal 47 10 1000%Q))%Q.
Proof.
  destruct replay_is_average_cost_fold as [_ [_ [_ [Hkeep _]]]].
  apply (Hkeep (PortfolioService.mkInternal 47 10 1000%Q) Sample.sell4).
  - reflexivity.
  - cbn. lia.
  - cbn. lia.
  - vm_compute. reflexivity.
  - vm_compute. reflexivity.
  - vm_compute. reflexivity.
Defined.

(** C10.  Every position of the portfolio [getUserPortfolio] returns
    has a quantity strictly greater than 0, namely the quantity its
    instrument replays to; an instrument whose replayed quantity is 0 or
    negative, as after selling more than was bought, is left out. *)
Theorem getUserPortfolio_quantities_positive
    (db : Db) (userId : Z) (portfolio : PortfolioService.Portfolio) :
  PortfolioService.getUserPortfolio db userId = Ok portfolio ->
  Forall (fun p => (0 < PortfolioService.quantity p)%Z)
    (PortfolioService.positions portfolio)
  /\ (forall p, In p (PortfolioService.positions portfolio) ->
        exists position,
          PortfolioService.Map_get
            (PortfolioService.replayOrders (Spec.stockOrders db userId))
            (PortfolioService.instrumentId p) = Some position
          /\ PortfolioService.quantity p = PortfolioService.ip_quantity position)
  /\ (forall (i : Z) (position : PortfolioService.InternalPosition),
        PortfolioService.Map_get
          (PortfolioService.replayOrders (Spec.stockOrders db userId)) i
        = Some position ->
        (PortfolioService.ip_quantity position <= 0)%Z ->
        ~ In i (map PortfolioService.instrumentId
                  (PortfolioService.positions portfolio))).
Proof.
  intro Hrun. split; [|split].
  - apply Forall_forall. intros p Hin.
    destruct (getUserPortfolio_positions db userId portfolio p Hrun Hin)
      as [position [_ [Hq Heq]]]. lia.
  - intros p Hin.
    destruct (getUserPortfolio_positions db userId portfolio p Hrun Hin)
      as [position [Hget [_ Heq]]]. now exists position.
  - intros i position Hget Hq Hin.
    apply in_map_iff in Hin. destruct Hin as [p [Hi Hin]]. subst i.
    destruct (getUserPortfolio_positions db userId portfolio p Hrun Hin)
      as [position' [Hget' [Hq' _]]].
    rewrite Hget in Hget'. injection Hget' as <-. lia.
Qed.

(** 5 bought, 8 sold: the replayed quantity is -3 and the portfolio
    lists no position. *)
Lemma getUserPortfolio_quantities_positive_witness :
  PortfolioService.Map_get
    (PortfolioService.replayOrders (Spec.stockOrders Sample.oversold 1)) 47
  = Some (PortfolioService.mkInternal 47 (-3) (-300)%Q)
  /\ ~ In 47%Z (map PortfolioService.instrumentId
                 (PortfolioService.positions
                    (PortfolioService.mkPortfolio 1 1300 1300 []))).
Proof.
  split; [vm_compute; reflexivity|].
  destruct (getUserPortfolio_quantities_positive Sample.oversold 1
              (PortfolioService.mkPortfolio 1 1300 1300 []))
    as [_ [_ Hout]].
  - vm_compute. reflexivity.
  - apply (Hout 47%Z (PortfolioService.mkInternal 47 (-3) (-300)%Q)).
    + vm_compute. reflexivity.
    + cbn. lia.
Defined.

(* ================================================================== *)
(** ** The ledger after an insert *)
(* ================================================================== *)

Lemma filter_snoc {A : Type} (f : A -> bool) (l : list A) (x : A) :
  filter f (l ++ [x]) = filter f l ++ (if f x then [x] else []).
Proof. rewrite filter_app. cbn. destruct (f x); reflexivity. Qed.

Lemma sum_Q_snoc (l : list Q) (x : Q) :
  (fold_right Qplus 0 (l ++ [x]) == fold_right Qplus 0 l + x)%Q.
Proof.
  induction l as [|y l IH]; cbn; [ring|]. rewrite IH. ring.
Qed.

Lemma sum_Z_snoc (l : list Z) (x : Z) :
  fold_right Z.add 0 (l ++ [x]) = fold_right Z.add 0 l + x.
Proof. induction l as [|y l IH]; cbn; lia. Qed.

Lemma cash_after_insert (db : Db) (row : Order.t) (userId ars : Z) :
  (OrderRepository.getUserAvailableCash (Spec.persisted db row) userId ars
   == OrderRepository.getUserAvailableCash db userId ars
      + Ledger.cashEffectOn userId ars row)%Q.
Proof.
  unfold OrderRepository.getUserAvailableCash, Ledger.cashEffectOn, Spec.persisted.
  cbn [orders]. rewrite !Qred_correct, filter_snoc.
  destruct ((Order.userId row =? userId) && OrderStatus_eqb (Order.status row) FILLED).
  - rewrite map_app. cbn [map]. apply sum_Q_snoc.
  - rewrite app_nil_r. ring.
Qed.

Lemma position_after_insert (db : Db) (row : Order.t) (userId instrumentId : Z) :
  OrderRepository.getUserPositionForInstrument (Spec.persisted db row) userId instrumentId
  = OrderRepository.getUserPositionForInstrument db userId instrumentId
    + Ledger.positionEffectOn userId instrumentId row.
Proof.
  unfold OrderRepository.getUserPositionForInstrument, Ledger.positionEffectOn,
    Spec.persisted.
  cbn [orders]. rewrite filter_snoc.
  destruct ((Order.userId row =? userId) && (Order.instrumentId row =? instrumentId)
            && OrderStatus_eqb (Order.status row) FILLED) eqn:E; cbn [andb].
  - unfold OrderRepository.positionEffect at 2.
    destruct (Order.side row) eqn:Es; cbn [OrderSide_eqb orb];
      rewrite ?app_nil_r, ?map_app; cbn [map]; rewrite ?sum_Z_snoc;
      unfold OrderRepository.positionEffect; rewrite ?Es; lia.
  - rewrite app_nil_r. lia.
Qed.

Lemma OrderSide_eqb_eq (a b : OrderSide) : OrderSide_eqb a b = true <-> a = b.
Proof. destruct a, b; cbn; split; congruence. Qed.

(** X1.  An INSERT through [createOrder] that succeeds appends the row it
    returns, and nothing else, under the next id of the serial.  The two
    aggregates the service reads move by that row alone: the available
    cash of a user changes by the cash effect of the row when the row is
    the user's and FILLED, and by nothing otherwise; the position of a
    user in an instrument changes by the position effect of the row when
    the row is the user's, of that instrument and FILLED. *)
Theorem createOrder_updates_aggregates (db db' : Db)
    (orderData : OrderRepository.OrderData) (row : Order.t) :
  OrderRepository.createOrder orderData db = (Ok row, db') ->
  orders db' = orders db ++ [row]
  /\ Order.id row = nextOrderId db
  /\ (forall userId ars,
        (OrderRepository.getUserAvailableCash db' userId ars
         == OrderRepository.getUserAvailableCash db userId ars
            + Ledger.cashEffectOn userId ars row)%Q)
  /\ (forall userId instrumentId,
        OrderRepository.getUserPositionForInstrument db' userId instrumentId
        = OrderRepository.getUserPositionForInstrument db userId instrumentId
          + Ledger.positionEffectOn userId instrumentId row).
Proof.
  unfold OrderRepository.createOrder.
  destruct (OrderRepository.price orderData) as [p|]; [|discriminate].
  intro H. injection H as <- <-.
  split; [reflexivity|]. split; [reflexivity|]. split.
  - intros userId ars. apply (cash_after_insert db).
  - intros userId instrumentId. apply (position_after_insert db).
Qed.

Lemma createOrder_updates_aggregates_witness :
  (OrderRepository.getUserAvailableCash
     (snd (OrderRepository.createOrder
             (OrderRepository.mkOrderData 47 1 2 (PriceText 150) MARKET BUY FILLED)
             Sample.db)) 1 66
   == 1000 + Ledger.cashEffectOn 1 66 (Order.mk 2 47 1 2 150 MARKET BUY FILLED 100))%Q.
Proof.
  destruct (createOrder_updates_aggregates Sample.db
              (snd (OrderRepository.createOrder
                      (OrderRepository.mkOrderData 47 1 2 (PriceText 150) MARKET BUY FILLED)
                      Sample.db))
              (OrderRepository.mkOrderData 47 1 2 (PriceText 150) MARKET BUY FILLED)
              (Order.mk 2 47 1 2 150 MARKET BUY FILLED 100))
    as [_ [_ [Hcash _]]].
  - reflexivity.
  - exact (Hcash 1 66).
Defined.

(* ================================================================== *)
(** ** What every call of executeOrder does *)
(* ================================================================== *)

Lemma executeOrder_ok_inv (db db' : Db) (input : CreateOrderInput.t)
    (r : OrderService.ExecuteOrderResponse) :
  OrderService.executeOrder input db = (Ok r, db') ->
  db' = Spec.persisted db (OrderService.order r)
  /\ Order.id (OrderService.order r) = nextOrderId db
  /\ Order.datetime (OrderService.order r) = now db
  /\ Order.userId (OrderService.order r) = CreateOrderInput.userId input
  /\ Order.instrumentId (OrderService.order r) = CreateOrderInput.instrumentId input
  /\ Order.side (OrderService.order r) = CreateOrderInput.side input
  /\ Order.status (OrderService.order r) <> CANCELLED
  /\ Spec.userExists db (CreateOrderInput.userId input)
  /\ Spec.instrumentExists db (CreateOrderInput.instrumentId input).
Proof.
  unfold Spec.userExists, Spec.instrumentExists.
  unfold OrderService.executeOrder, OrderService.executeCashOperation,
    OrderService.executeStockOrder, OrderService.validateAndCreate,
    OrderService.validateCashOutFunds, OrderService.validateOrder,
    OrderRepository.createOrder, OrderService.executionPriceOf, String_of_price.
  unfold transaction, bind, gets, ret, throw. cbn beta iota zeta.
  intro H. split_run H.
  all: injection H as <- <-; cbn.
  all: repeat match goal with
         | E : negb (_ =? _) = false |- _ =>
             apply negb_false_iff in E; apply Z.eqb_eq in E
         | E : OrderSide_eqb _ _ = true |- _ => apply OrderSide_eqb_eq in E
         end.
  all: repeat split; try congruence; try discriminate.
Qed.

Lemma executeOrder_err_inv (db db' : Db) (input : CreateOrderInput.t) (e : Error) :
  OrderService.executeOrder input db = (Err e, db') -> db' = db.
Proof.
  unfold OrderService.executeOrder, transaction.
  match goal with
  | |- context [match ?c db with _ => _ end] => destruct (c db) as [[r|e'] d]
  end; congruence.
Qed.

(** X2.  Every [executeOrder] that returns appends exactly one row to
    the ledger, the order it answers: the row carries the next id of the
    serial, the time of the call, and the user, instrument and side of
    the input; its status is never CANCELLED; the user and the instrument
    of the input exist.  Every [executeOrder] that throws leaves the
    database as it was. *)
Theorem executeOrder_appends_one_row (db db' : Db) (input : CreateOrderInput.t) :
  (forall r, OrderService.executeOrder input db = (Ok r, db') ->
     db' = Spec.persisted db (OrderService.order r)
     /\ Order.id (OrderService.order r) = nextOrderId db
     /\ Order.datetime (OrderService.order r) = now db
     /\ Order.userId (OrderService.order r) = CreateOrderInput.userId input
     /\ Order.instrumentId (OrderService.order r) = CreateOrderInput.instrumentId input
     /\ Order.side (OrderService.order r) = CreateOrderInput.side input
     /\ Order.status (OrderService.order r) <> CANCELLED
     /\ Spec.userExists db (CreateOrderInput.userId input)
     /\ Spec.instrumentExists db (CreateOrderInput.instrumentId input))
  /\ (forall e, OrderService.executeOrder input db = (Err e, db') -> db' = db).
Proof.
  split.
  - intro r. apply executeOrder_ok_inv.
  - intro e. apply executeOrder_err_inv.
Qed.

Lemma executeOrder_appends_one_row_witness :
  orders (snd (OrderService.executeOrder (Sample.buy MARKET (Some 6) None None)
                 Sample.db))
  = [Sample.deposit; Order.mk 2 47 1 6 150 MARKET BUY FILLED 100].
Proof.
  destruct (executeOrder_appends_one_row Sample.db
              (snd (OrderService.executeOrder (Sample.buy MARKET (Some 6) None None)
                      Sample.db))
              (Sample.buy MARKET (Some 6) None None)) as [H _].
  destruct (H (OrderService.respond (Order.mk 2 47 1 6 150 MARKET BUY FILLED 100))
              eq_refl) as [Hdb _].
  rewrite Hdb. reflexivity.
Defined.

(** X3.  Whatever the input, the row of an [executeOrder] that returns
    is NEW only for a LIMIT BUY or SELL, and FILLED only for a MARKET
    order or a cash operation.  It keeps the type of the input, except
    for a rejected CASH_OUT, which is recorded as MARKET. *)
Theorem executeOrder_status_by_kind (db db' : Db) (input : CreateOrderInput.t)
    (r : OrderService.ExecuteOrderResponse) :
  OrderService.executeOrder input db = (Ok r, db') ->
  let row := OrderService.order r in
  (Order.status row = NEW ->
   CreateOrderInput.type input = LIMIT
   /\ (CreateOrderInput.side input = BUY \/ CreateOrderInput.side input = SELL))
  /\ (Order.status row = FILLED ->
      CreateOrderInput.type input = MARKET
      \/ CreateOrderInput.side input = CASH_IN
      \/ CreateOrderInput.side input = CASH_OUT)
  /\ (Order.type row = CreateOrderInput.type input
      \/ (CreateOrderInput.side input = CASH_OUT /\ Order.status row = REJECTED
          /\ Order.type row = MARKET)).
Proof.
  unfold OrderService.executeOrder, OrderService.executeCashOperation,
    OrderService.executeStockOrder, OrderService.validateAndCreate,
    OrderService.validateCashOutFunds, OrderService.validateOrder,
    OrderRepository.createOrder, OrderService.executionPriceOf, String_of_price.
  unfold transaction, bind, gets, ret, throw. cbn beta iota zeta.
  intro H. split_run H.
  all: injection H as <- <-; cbn.
  all: repeat match goal with
         | E : OrderSide_eqb _ _ = true |- _ => apply OrderSide_eqb_eq in E
         end.
  all: repeat split; try discriminate; auto.
  all: try (intros _; auto; fail).
  all: try (right; repeat split; congruence).
  all: try (left; congruence).
  all: try (intros _; split; [congruence | auto]).
  all: try (intros _; left; congruence).
Qed.

Lemma executeOrder_status_by_kind_witness :
  CreateOrderInput.type (Sample.buy LIMIT (Some 3) None (Some 90%Q)) = LIMIT
  /\ (CreateOrderInput.side (Sample.buy LIMIT (Some 3) None (Some 90%Q)) = BUY
      \/ CreateOrderInput.side (Sample.buy LIMIT (Some 3) None (Some 90%Q)) = SELL).
Proof.
  destruct (executeOrder_status_by_kind Sample.db
              (snd (OrderService.executeOrder
                      (Sample.buy LIMIT (Some 3) None (Some 90%Q)) Sample.db))
              (Sample.buy LIMIT (Some 3) None (Some 90%Q))
              (OrderService.respond (Order.mk 2 47 1 3 90 LIMIT BUY NEW 100))
              eq_refl) as [H _].
  apply H. reflexivity.
Defined.

Lemma executeOrder_no_user (db : Db) (input : CreateOrderInput.t) :
  UserRepository.findUserById db (CreateOrderInput.userId input) = None ->
  OrderService.executeOrder input db
  = (Err (NotFoundError
            ("User with ID " ++ Z_toString (CreateOrderInput.userId input)
             ++ " not found")), db).
Proof. unfold OrderService.executeOrder. run. intros ->. reflexivity. Qed.

Lemma executeOrder_no_instrument (db : Db) (input : CreateOrderInput.t) :
  Spec.userExists db (CreateOrderInput.userId input) ->
  InstrumentRepository.findInstrumentById db (CreateOrderInput.instrumentId input)
  = None ->
  OrderService.executeOrder input db
  = (Err (NotFoundError
            ("Instrument with ID "
             ++ Z_toString (CreateOrderInput.instrumentId input)
             ++ " not found")), db).
Proof.
  unfold Spec.userExists, OrderService.executeOrder. run. intros Hu Hi.
  destruct (UserRepository.findUserById db _); [|congruence].
  rewrite Hi. reflexivity.
Qed.

Lemma executeOrder_no_market_data (db : Db) (input : CreateOrderInput.t)
    (instrument : Instrument.t) :
  Spec.userExists db (CreateOrderInput.userId input) ->
  InstrumentRepository.findInstrumentById db (CreateOrderInput.instrumentId input)
  = Some instrument ->
  CreateOrderInput.side input = BUY \/ CreateOrderInput.side input = SELL ->
  CreateOrderInput.type input = MARKET ->
  MarketDataRepository.getLatestMarketDataForInstrument db
    (CreateOrderInput.instrumentId input) = None ->
  OrderService.executeOrder input db
  = (Err (BusinessRuleError
            ("No market data available for instrument "
             ++ Instrument.ticker instrument)), db).
Proof.
  unfold Spec.userExists, OrderService.executeOrder. run.
  intros Hu Hi Hside Hty Hmd.
  destruct (UserRepository.findUserById db _); [|congruence].
  rewrite Hi.
  destruct Hside as [Hs | Hs]; rewrite Hs;
    unfold OrderService.executeStockOrder; run; rewrite Hmd, Hty; reflexivity.
Qed.

Lemma executeOrder_zero_close (db : Db) (input : CreateOrderInput.t)
    (amount : Q) (marketData : LatestMarketData.t) :
  Spec.userExists db (CreateOrderInput.userId input) ->
  Spec.instrumentExists db (CreateOrderInput.instrumentId input) ->
  CreateOrderInput.side input = BUY \/ CreateOrderInput.side input = SELL ->
  CreateOrderInput.type input = MARKET ->
  CreateOrderInput.size input = None ->
  CreateOrderInput.amount input = Some amount ->
  MarketDataRepository.getLatestMarketDataForInstrument db
    (CreateOrderInput.instrumentId input) = Some marketData ->
  Qeq_bool (LatestMarketData.close marketData) 0 = true ->
  OrderService.executeOrder input db
  = (Err (DatabaseError "invalid input syntax for type integer"), db).
Proof.
  unfold Spec.userExists, Spec.instrumentExists, OrderService.executeOrder. run.
  intros Hu Hi Hside Hty Hsize Hamount Hmd Hzero.
  destruct (UserRepository.findUserById db _); [|congruence].
  destruct (InstrumentRepository.findInstrumentById db _); [|congruence].
  destruct Hside as [Hs | Hs]; rewrite Hs;
    unfold OrderService.executeStockOrder, OrderService.executionPriceOf; run;
    rewrite Hmd, Hty, Hsize, Hamount, Hzero; reflexivity.
Qed.

(** X4.  [executeOrder] throws NotFoundError naming the user when the
    user does not exist; NotFoundError naming the instrument when the
    user exists and the instrument does not; and, for a MARKET BUY or
    SELL on an instrument that has no market data, BusinessRuleError
    naming the ticker.  In each case the database is unchanged. *)
Theorem executeOrder_lookup_failures (db : Db) (input : CreateOrderInput.t) :
  (UserRepository.findUserById db (CreateOrderInput.userId input) = None ->
   OrderService.executeOrder input db
   = (Err (NotFoundError
             ("User with ID " ++ Z_toString (CreateOrderInput.userId input)
              ++ " not found")), db))
  /\ (Spec.userExists db (CreateOrderInput.userId input) ->
      InstrumentRepository.findInstrumentById db (CreateOrderInput.instrumentId input)
      = None ->
      OrderService.executeOrder input db
      = (Err (NotFoundError
                ("Instrument with ID "
                 ++ Z_toString (CreateOrderInput.instrumentId input)
                 ++ " not found")), db))
  /\ (Spec.userExists db (CreateOrderInput.userId input) ->
      forall instrument,
        InstrumentRepository.findInstrumentById db (CreateOrderInput.instrumentId input)
        = Some instrument ->
        CreateOrderInput.side input = BUY \/ CreateOrderInput.side input = SELL ->
        CreateOrderInput.type input = MARKET ->
        MarketDataRepository.getLatestMarketDataForInstrument db
          (CreateOrderInput.instrumentId input) = None ->
        OrderService.executeOrder input db
        = (Err (BusinessRuleError
                  ("No market data available for instrument "
                   ++ Instrument.ticker instrument)), db)).
Proof.
  split; [apply executeOrder_no_user|].
  split; [apply executeOrder_no_instrument|].
  intros Hu instrument Hi Hside Hty Hmd.
  now apply (executeOrder_no_market_data db input instrument).
Qed.

Lemma executeOrder_lookup_failures_witness :
  OrderService.executeOrder (CreateOrderInput.mk 9 99 BUY MARKET (Some 1) None None)
    Sample.db
  = (Err (NotFoundError "User with ID 9 not found"), Sample.db).
Proof.
  destruct (executeOrder_lookup_failures Sample.db
              (CreateOrderInput.mk 9 99 BUY MARKET (Some 1) None None)) as [H _].
  apply H. reflexivity.
Defined.

(* ================================================================== *)
(** ** Balances stay non-negative *)
(* ================================================================== *)

Section Balances.
Local Open Scope Q_scope.

(** X5.  A BUY never overdraws.  When the user and the instrument
    exist, the price and the size resolve, size x price needs no
    rounding, and the available cash of the user is not negative before
    the call, it is not negative after it, whether the order was FILLED,
    left NEW or REJECTED. *)
Theorem buy_never_overdraws (db : Db) (input : CreateOrderInput.t) (p : Q) (n : Z) :
  CreateOrderInput.side input = BUY ->
  Spec.userExists db (CreateOrderInput.userId input) ->
  Spec.instrumentExists db (CreateOrderInput.instrumentId input) ->
  Spec.executionPrice db input = Some p ->
  Spec.resolvedSize input p = Some n ->
  Dec.exact (inject_Z n * p) ->
  0 <= Spec.lockedAvailableCash db (CreateOrderInput.userId input) ->
  0 <= Spec.lockedAvailableCash (snd (OrderService.executeOrder input db))
         (CreateOrderInput.userId input).
Proof.
  intros Hside Hu Hi Hp Hn Hexact Hcash.
  pose proof (executeOrder_stock db input p n (or_introl Hside) Hu Hi Hp Hn) as Hrun.
  cbv zeta in Hrun. rewrite Hrun. cbn [snd].
  unfold Spec.lockedAvailableCash in *. rewrite cash_after_insert.
  unfold Ledger.cashEffectOn.
  destruct ((n =? 0)%Z && _).
  - cbn. rewrite Z.eqb_refl. cbn. now rewrite Qplus_0_r.
  - cbn [Spec.newRow Order.userId Order.status]. rewrite Z.eqb_refl.
    unfold stockStatus. rewrite Hside.
    destruct (Dec.lessThan _ _) eqn:E.
    + cbn. now rewrite Qplus_0_r.
    + destruct (CreateOrderInput.type input); cbn [OrderStatus_eqb andb].
      * apply lessThan_false_iff in E.
        unfold Spec.lockedAvailableCash, Dec.times, Dec.ofZ in E.
        unfold Dec.exact in Hexact. rewrite Hexact in E.
        apply Qnot_lt_le in E.
        unfold OrderRepository.cashEffect, Spec.newRow.
        cbn [Order.instrumentId Order.side Order.size Order.price].
        rewrite ?Hside. cbn [OrderSide_eqb andb]. rewrite !andb_false_r.
        rewrite <- (Qplus_opp_r (inject_Z n * p)).
        apply Qplus_le_l. exact E.
      * now rewrite Qplus_0_r.
Qed.

Lemma buy_never_overdraws_witness :
  0 <= Spec.lockedAvailableCash
         (snd (OrderService.executeOrder (Sample.buy MARKET (Some 6%Z) None None)
                 Sample.db)) 1.
Proof.
  apply (buy_never_overdraws Sample.db (Sample.buy MARKET (Some 6%Z) None None) 150 6).
  - reflexivity.
  - vm_compute. discriminate.
  - vm_compute. discriminate.
  - vm_compute. reflexivity.
  - reflexivity.
  - vm_compute. reflexivity.
  - vm_compute. discriminate.
Defined.

(** X6.  A CASH_OUT never overdraws.  On the cash instrument, for an
    existing user and a size below 10^20, available cash that is not
    negative before the call is not negative after it. *)
Theorem cash_out_never_overdraws (db : Db) (input : CreateOrderInput.t) (n : Z) :
  CreateOrderInput.side input = CASH_OUT ->
  Spec.userExists db (CreateOrderInput.userId input) ->
  Spec.instrumentExists db (CreateOrderInput.instrumentId input) ->
  CreateOrderInput.instrumentId input = ARS_INSTRUMENT_ID ->
  Spec.cashSize input = Some n ->
  (Z.abs n < 10 ^ 20)%Z ->
  0 <= Spec.lockedAvailableCash db (CreateOrderInput.userId input) ->
  0 <= Spec.lockedAvailableCash (snd (OrderService.executeOrder input db))
         (CreateOrderInput.userId input).
Proof.
  intros Hside Hu Hi Hars Hn Hbound Hcash.
  pose proof (executeOrder_cash db input n (or_intror Hside) Hu Hi Hars Hn) as Hrun.
  cbv zeta in Hrun. rewrite Hrun. cbn [snd].
  unfold Spec.lockedAvailableCash in *. rewrite cash_after_insert.
  unfold Ledger.cashEffectOn.
  cbn [Spec.newRow Order.userId Order.status]. rewrite Z.eqb_refl.
  destruct (cashStatus_cases db input n) as [Hs | Hs].
  - rewrite Hs. cbn. now rewrite Qplus_0_r.
  - assert (Hno : ~ (OrderRepository.getUserAvailableCash db
                       (CreateOrderInput.userId input) ARS_INSTRUMENT_ID < inject_Z n)).
    { intro Hlt.
      assert (Hr : cashStatus db input n = REJECTED)
        by (apply (cashStatus_rejected_iff db input n Hbound); now split).
      congruence. }
    apply Qnot_lt_le in Hno.
    rewrite Hs. cbn [OrderStatus_eqb andb].
    unfold OrderRepository.cashEffect, Spec.newRow.
    cbn [Order.instrumentId Order.side Order.size Order.price].
    rewrite ?Hars, ?Hside, ?Z.eqb_refl. cbn [OrderSide_eqb andb].
    rewrite Qmult_1_r.
    rewrite <- (Qplus_opp_r (inject_Z n)).
    apply Qplus_le_l. exact Hno.
Qed.

Lemma cash_out_never_overdraws_witness :
  0 <= Spec.lockedAvailableCash
         (snd (OrderService.executeOrder (Sample.cash CASH_OUT MARKET 66 (Some 400%Z))
                 Sample.db)) 1.
Proof.
  apply (cash_out_never_overdraws Sample.db
           (Sample.cash CASH_OUT MARKET 66 (Some 400%Z)) 400).
  - reflexivity.
  - vm_compute. discriminate.
  - vm_compute. discriminate.
  - reflexivity.
  - reflexivity.
  - vm_compute. reflexivity.
  - vm_compute. discriminate.
Defined.

(** X7.  A SELL never oversells.  When the user and the instrument
    exist and the price and the size resolve, a position of the user (in
    any instrument) that is not negative before the call is not negative
    after it. *)
Theorem sell_never_oversells (db : Db) (input : CreateOrderInput.t) (p : Q) (n : Z) :
  CreateOrderInput.side input = SELL ->
  Spec.userExists db (CreateOrderInput.userId input) ->
  Spec.instrumentExists db (CreateOrderInput.instrumentId input) ->
  Spec.executionPrice db input = Some p ->
  Spec.resolvedSize input p = Some n ->
  forall instrumentId : Z,
    (0 <= Spec.lockedPosition db (CreateOrderInput.userId input) instrumentId)%Z ->
    (0 <= Spec.lockedPosition (snd (OrderService.executeOrder input db))
            (CreateOrderInput.userId input) instrumentId)%Z.
Proof.
  intros Hside Hu Hi Hp Hn instrumentId Hpos.
  pose proof (executeOrder_stock db input p n (or_intror Hside) Hu Hi Hp Hn) as Hrun.
  cbv zeta in Hrun. rewrite Hrun. cbn [snd].
  unfold Spec.lockedPosition in *. rewrite position_after_insert.
  unfold Ledger.positionEffectOn.
  destruct ((n =? 0)%Z && _).
  - cbn. rewrite Z.eqb_refl, andb_false_r. lia.
  - cbn [Spec.newRow Order.userId Order.status Order.instrumentId]. rewrite Z.eqb_refl.
    cbn [andb].
    destruct (CreateOrderInput.instrumentId input =? instrumentId)%Z eqn:Ei;
      [|cbn; lia].
    apply Z.eqb_eq in Ei. subst instrumentId.
    unfold stockStatus. rewrite Hside. unfold Spec.lockedPosition.
    destruct (_ <? n)%Z eqn:E; [cbn; lia|].
    apply Z.ltb_ge in E.
    destruct (CreateOrderInput.type input); cbn [OrderStatus_eqb andb]; [|lia].
    unfold OrderRepository.positionEffect, Spec.newRow. cbn [Order.side Order.size].
    rewrite ?Hside. lia.
Qed.

Lemma sell_never_oversells_witness :
  (0 <= Spec.lockedPosition
          (snd (OrderService.executeOrder (Sample.sell MARKET (Some 5%Z) None None)
                  Sample.holding)) 1 47)%Z.
Proof.
  apply (sell_never_oversells Sample.holding
           (Sample.sell MARKET (Some 5%Z) None None) 150 5).
  - reflexivity.
  - vm_compute. discriminate.
  - vm_compute. discriminate.
  - vm_compute. reflexivity.
  - reflexivity.
  - vm_compute. discriminate.
Defined.




End Balances.

(* ================================================================== *)
(** ** Orders without effect *)
(* ================================================================== *)

Lemma getUserPortfolio_same (db db' : Db) (userId : Z) :
  users db' = users db -> instruments db' = instruments db ->
  marketdata db' = marketdata db ->
  OrderRepository.getFilledOrdersByUserId db' userId
  = OrderRepository.getFilledOrdersByUserId db userId ->
  OrderRepository.getUserAvailableCash db' userId ARS_INSTRUMENT_ID
  = OrderRepository.getUserAvailableCash db userId ARS_INSTRUMENT_ID ->
  PortfolioService.getUserPortfolio db' userId
  = PortfolioService.getUserPortfolio db userId.
Proof.
  intros Hu Hi Hm Hf Hc.
  unfold PortfolioService.getUserPortfolio, UserRepository.findUserById,
    MarketDataRepository.getLatestMarketDataForInstruments,
    MarketDataRepository.getLatestMarketDataForInstrument,
    InstrumentRepository.findInstrumentsByIds,
    InstrumentRepository.findInstrumentById.
  rewrite Hu, Hi, Hm, Hf, Hc. reflexivity.
Qed.

Lemma inert_row (db : Db) (row : Order.t) (userId : Z) :
  Order.status row <> FILLED \/ Order.userId row <> userId ->
  OrderRepository.getFilledOrdersByUserId (Spec.persisted db row) userId
  = OrderRepository.getFilledOrdersByUserId db userId
  /\ (forall ars,
        OrderRepository.getUserAvailableCash (Spec.persisted db row) userId ars
        = OrderRepository.getUserAvailableCash db userId ars)
  /\ (forall instrumentId,
        OrderRepository.getUserPositionForInstrument (Spec.persisted db row)
          userId instrumentId
        = OrderRepository.getUserPositionForInstrument db userId instrumentId)
  /\ PortfolioService.getUserPortfolio (Spec.persisted db row) userId
     = PortfolioService.getUserPortfolio db userId.
Proof.
  intro H.
  assert (Hb : (Order.userId row =? userId) && OrderStatus_eqb (Order.status row) FILLED
               = false).
  { destruct H as [H | H].
    - destruct (OrderStatus_eqb (Order.status row) FILLED) eqn:E.
      + apply OrderStatus_eqb_eq in E. contradiction.
      + apply andb_false_r.
    - apply Z.eqb_neq in H. now rewrite H. }
  assert (Hf : OrderRepository.getFilledOrdersByUserId (Spec.persisted db row) userId
               = OrderRepository.getFilledOrdersByUserId db userId).
  { unfold OrderRepository.getFilledOrdersByUserId, Spec.persisted. cbn [orders].
    rewrite filter_snoc, Hb, app_nil_r. reflexivity. }
  assert (Hc : forall ars,
             OrderRepository.getUserAvailableCash (Spec.persisted db row) userId ars
             = OrderRepository.getUserAvailableCash db userId ars).
  { intro ars. unfold OrderRepository.getUserAvailableCash, Spec.persisted.
    cbn [orders]. rewrite filter_snoc, Hb, app_nil_r. reflexivity. }
  split; [exact Hf|]. split; [exact Hc|]. split.
  - intro instrumentId.
    unfold OrderRepository.getUserPositionForInstrument, Spec.persisted. cbn [orders].
    rewrite filter_snoc.
    replace ((Order.userId row =? userId) && (Order.instrumentId row =? instrumentId)
             && OrderStatus_eqb (Order.status row) FILLED
             && (OrderSide_eqb (Order.side row) BUY || OrderSide_eqb (Order.side row) SELL))
      with false.
    + now rewrite app_nil_r.
    + symmetry. destruct (Order.userId row =? userId); [|reflexivity].
      cbn in Hb. rewrite Hb. now rewrite andb_false_r.
  - apply getUserPortfolio_same; try reflexivity; [exact Hf | apply Hc].
Qed.

(** X9.  An order changes balances only by being FILLED, and then only
    those of its owner.  After an [executeOrder] that returns a row that
    is not FILLED (NEW or REJECTED), and for every user other than the
    one of the input, the FILLED orders, the available cash, every
    position and the whole portfolio of the user are what they were
    before the call.  In particular a resting LIMIT BUY reserves no
    cash. *)
Theorem executeOrder_touches_only_its_filled_owner (db db' : Db)
    (input : CreateOrderInput.t) (r : OrderService.ExecuteOrderResponse) (user : Z) :
  OrderService.executeOrder input db = (Ok r, db') ->
  Order.status (OrderService.order r) <> FILLED
  \/ user <> CreateOrderInput.userId input ->
  OrderRepository.getFilledOrdersByUserId db' user
  = OrderRepository.getFilledOrdersByUserId db user
  /\ (forall ars,
        OrderRepository.getUserAvailableCash db' user ars
        = OrderRepository.getUserAvailableCash db user ars)
  /\ (forall instrumentId,
        OrderRepository.getUserPositionForInstrument db' user instrumentId
        = OrderRepository.getUserPositionForInstrument db user instrumentId)
  /\ PortfolioService.getUserPortfolio db' user
     = PortfolioService.getUserPortfolio db user.
Proof.
  intros Hrun Hinert.
  destruct (executeOrder_ok_inv db db' input r Hrun) as [-> [_ [_ [Huser _]]]].
  apply inert_row. rewrite Huser.
  destruct Hinert as [H | H]; [now left | right; congruence].
Qed.

Lemma executeOrder_touches_only_its_filled_owner_witness :
  PortfolioService.getUserPortfolio
    (snd (OrderService.executeOrder (Sample.buy LIMIT (Some 3) None (Some 90%Q))
            Sample.traded)) 1
  = PortfolioService.getUserPortfolio Sample.traded 1.
Proof.
  destruct (executeOrder_touches_only_its_filled_owner Sample.traded
              (snd (OrderService.executeOrder
                      (Sample.buy LIMIT (Some 3) None (Some 90%Q)) Sample.traded))
              (Sample.buy LIMIT (Some 3) None (Some 90%Q))
              (OrderService.respond (Order.mk 4 47 1 3 90 LIMIT BUY NEW 100)) 1)
    as [_ [_ [_ H]]].
  - vm_compute. reflexivity.
  - left. cbn. discriminate.
  - exact H.
Defined.

(* ================================================================== *)
(** ** Integrity of the ledger *)
(* ================================================================== *)

Lemma find_fresh (l : list Order.t) (row : Order.t) :
  Forall (fun o => Order.id o < Order.id row) l ->
  find (fun o => Order.id o =? Order.id row) (l ++ [row]) = Some row.
Proof.
  induction l as [|o l IH]; intro Hall; cbn.
  - now rewrite Z.eqb_refl.
  - pose proof (Forall_inv Hall) as Ho. cbn beta in Ho.
    replace (Order.id o =? Order.id row) with false by (symmetry; apply Z.eqb_neq; lia).
    apply IH. exact (Forall_inv_tail Hall).
Qed.

Lemma persisted_wellFormed (db : Db) (row : Order.t) :
  Order.id row = nextOrderId db ->
  Ledger.wellFormed db -> Ledger.wellFormed (Spec.persisted db row).
Proof.
  intros Hid [Hnd Hall]. unfold Ledger.wellFormed, Ledger.idsUnique, Spec.persisted.
  cbn [orders nextOrderId]. split.
  - rewrite map_app. cbn [map]. apply NoDup_app; [exact Hnd | | ].
    + constructor; [intros [] | constructor].
    + intros x Hx [Hx' | []]. subst x. rewrite Hid in Hx.
      apply in_map_iff in Hx. destruct Hx as [o [Ho Hin]].
      rewrite Forall_forall in Hall. specialize (Hall o Hin). cbn beta in Hall. lia.
  - apply Forall_app. split.
    + eapply Forall_impl; [|exact Hall]. cbn beta. intros. lia.
    + constructor; [lia | constructor].
Qed.

(** X10.  In a ledger whose ids are distinct and below the serial, the
    order an [executeOrder] answers can be read back: [getOrderById] on
    its id returns that row, with the ticker and the name of the
    instrument of the input and the totalAmount of the response. *)
Theorem executed_order_can_be_read_back (db db' : Db) (input : CreateOrderInput.t)
    (r : OrderService.ExecuteOrderResponse) :
  Ledger.wellFormed db ->
  OrderService.executeOrder input db = (Ok r, db') ->
  exists instrument,
    InstrumentRepository.findInstrumentById db (CreateOrderInput.instrumentId input)
    = Some instrument
    /\ OrderService.getOrderById db' (Order.id (OrderService.order r))
       = Ok (OrderService.mkOrderWithInstrument (OrderService.order r)
               (Instrument.ticker instrument) (Instrument.name instrument)
               (OrderService.totalAmount r)).
Proof.
  intros [Hnd Hall] Hrun.
  destruct (executeOrder_ok_inv db db' input r Hrun)
    as [Hdb [Hid [_ [_ [Hinstr [_ [_ [_ Hi]]]]]]]].
  unfold Spec.instrumentExists in Hi.
  destruct (InstrumentRepository.findInstrumentById db
              (CreateOrderInput.instrumentId input)) as [instrument|] eqn:Ei;
    [|congruence].
  exists instrument. split; [reflexivity|].
  unfold OrderService.getOrderById, OrderRepository.findOrderById.
  rewrite Hdb.
  change (orders (Spec.persisted db (OrderService.order r)))
    with (orders db ++ [OrderService.order r]).
  rewrite find_fresh by (rewrite Hid; exact Hall).
  change (InstrumentRepository.findInstrumentById
            (Spec.persisted db (OrderService.order r))
            (Order.instrumentId (OrderService.order r)))
    with (InstrumentRepository.findInstrumentById db
            (Order.instrumentId (OrderService.order r))).
  rewrite Hinstr, Ei.
  assert (Htotal : OrderService.totalAmount r
                   = OrderService.totalAmountOf (OrderService.order r)).
  { rewrite (executeOrder_response db db' input r Hrun) at 1. reflexivity. }
  rewrite Htotal. reflexivity.
Qed.

Lemma executed_order_can_be_read_back_witness :
  OrderService.getOrderById
    (snd (OrderService.executeOrder (Sample.buy MARKET (Some 6) None None) Sample.db)) 2
  = Ok (OrderService.mkOrderWithInstrument
          (Order.mk 2 47 1 6 150 MARKET BUY FILLED 100) "PAMP" "Pampa Holding" 900).
Proof.
  destruct (executed_order_can_be_read_back Sample.db
              (snd (OrderService.executeOrder (Sample.buy MARKET (Some 6) None None)
                      Sample.db))
              (Sample.buy MARKET (Some 6) None None)
              (OrderService.respond (Order.mk 2 47 1 6 150 MARKET BUY FILLED 100)))
    as [instrument [Hi Hget]].
  - split; [apply NoDup_cons; [intros [] | apply NoDup_nil]
           | repeat constructor].
  - vm_compute. reflexivity.
  - vm_compute in Hi. injection Hi as <-. exact Hget.
Defined.

Lemma cancelled_ids (db : Db) (orderId : Z) :
  map Order.id (orders (cancelled db orderId)) = map Order.id (orders db).
Proof.
  unfold cancelled. cbn [orders]. rewrite map_map. apply map_ext.
  intro o. destruct (Order.id o =? orderId); reflexivity.
Qed.

Lemma cancelled_wellFormed (db : Db) (orderId : Z) :
  Ledger.wellFormed db -> Ledger.wellFormed (cancelled db orderId).
Proof.
  intros [Hnd Hall]. split.
  - unfold Ledger.idsUnique. rewrite cancelled_ids. exact Hnd.
  - unfold cancelled. cbn [orders nextOrderId].
    apply Forall_map. eapply Forall_impl; [|exact Hall].
    intros o Ho. cbn beta in *. destruct (Order.id o =? orderId); exact Ho.
Qed.

(** X11.  [executeOrder] and [cancelOrder] keep the integrity of the
    ledger: when the ids are distinct and below the serial before a call,
    they are so after it, whatever the arguments and whether the call
    returns or throws. *)
Theorem ledger_integrity_is_kept (db : Db) :
  Ledger.wellFormed db ->
  (forall input, Ledger.wellFormed (snd (OrderService.executeOrder input db)))
  /\ (forall orderId userId,
        Ledger.wellFormed (snd (OrderService.cancelOrder orderId userId db))).
Proof.
  intro Hwf. split.
  - intro input.
    destruct (OrderService.executeOrder input db) as [[r|e] db'] eqn:Hrun; cbn [snd].
    + destruct (executeOrder_ok_inv db db' input r Hrun) as [Hdb [Hid _]].
      rewrite Hdb.
      now apply persisted_wellFormed.
    + now rewrite (executeOrder_err_inv db db' input e Hrun).
  - intros orderId userId. rewrite cancelOrder_run.
    destruct (find _ (orders db)) as [o|]; [|exact Hwf].
    destruct (negb (Order.userId o =? userId)); [exact Hwf|].
    destruct (negb (OrderStatus_eqb (Order.status o) NEW)); [exact Hwf|].
    destruct (InstrumentRepository.findInstrumentById db (Order.instrumentId o));
      [|exact Hwf].
    cbn [snd]. now apply cancelled_wellFormed.
Qed.

Lemma ledger_integrity_is_kept_witness :
  Ledger.wellFormed
    (snd (OrderService.executeOrder (Sample.buy MARKET (Some 6) None None) Sample.db)).
Proof.
  destruct (ledger_integrity_is_kept Sample.db) as [H _].
  - split; [apply NoDup_cons; [intros [] | apply NoDup_nil]
           | repeat constructor].
  - apply H.
Defined.

(* ================================================================== *)
(** ** Cancellation and the balances *)
(* ================================================================== *)

(** X12.  An order is cancelled at most once.  After a [cancelOrder]
    that returned, a second [cancelOrder] on the same id throws
    BusinessRuleError and leaves the database as it is: for the owner the
    message names the current status, CANCELLED; for anyone else it is
    the fixed text about ownership. *)
Theorem cancelOrder_only_once (db db' : Db) (orderId userId : Z)
    (response : OrderService.CancelOrderResponse) :
  OrderService.cancelOrder orderId userId db = (Ok response, db') ->
  forall caller : Z,
    OrderService.cancelOrder orderId caller db'
    = (Err (BusinessRuleError
              (if caller =? userId
               then "Only NEW orders can be cancelled. Current status: CANCELLED"
               else "Order not found or not owned by user")), db').
Proof.
  intros Hrun caller. rewrite cancelOrder_run in Hrun.
  destruct (find _ (orders db)) as [o|] eqn:Hfind; [|discriminate].
  destruct (Order.userId o =? userId) eqn:Eu; cbn [negb] in Hrun; [|discriminate].
  destruct (OrderStatus_eqb (Order.status o) NEW); cbn [negb] in Hrun; [|discriminate].
  destruct (InstrumentRepository.findInstrumentById db (Order.instrumentId o));
    [|discriminate].
  injection Hrun as _ <-.
  rewrite cancelOrder_run. unfold cancelled at 1. cbn [orders].
  rewrite find_after_update, Hfind. cbn [option_map Order.withStatus Order.userId
    Order.status].
  apply Z.eqb_eq in Eu. rewrite Eu.
  destruct (caller =? userId) eqn:Ec.
  - apply Z.eqb_eq in Ec. subst caller. rewrite Z.eqb_refl. reflexivity.
  - rewrite Z.eqb_sym, Ec. reflexivity.
Qed.

Lemma cancelOrder_only_once_witness :
  OrderService.cancelOrder 2 1
    (snd (OrderService.cancelOrder 2 1 Sample.resting))
  = (Err (BusinessRuleError
            "Only NEW orders can be cancelled. Current status: CANCELLED"),
     snd (OrderService.cancelOrder 2 1 Sample.resting)).
Proof.
  apply (cancelOrder_only_once Sample.resting
           (snd (OrderService.cancelOrder 2 1 Sample.resting)) 2 1
           (OrderService.mkCancelResponse true "Order cancelled successfully"
              (Order.mk 2 47 1 3 90 LIMIT BUY CANCELLED 20) "PAMP" "Pampa Holding" 270)
           eq_refl 1).
Defined.

Lemma find_unique (l : list Order.t) (k : Z) (o x : Order.t) :
  NoDup (map Order.id l) ->
  find (fun o => Order.id o =? k) l = Some o ->
  In x l -> Order.id x = k -> x = o.
Proof.
  induction l as [|y l IH]; cbn; [discriminate|].
  intros Hnd Hfind Hin Hk.
  pose proof (proj1 (NoDup_cons_iff _ _) Hnd) as [Hnot Hnd'].
  destruct (Order.id y =? k) eqn:E.
  - injection Hfind as <-. apply Z.eqb_eq in E.
    destruct Hin as [-> | Hin]; [reflexivity|].
    exfalso. apply Hnot. rewrite E, <- Hk. now apply in_map.
  - destruct Hin as [-> | Hin]; [apply Z.eqb_neq in E; contradiction|].
    now apply IH.
Qed.

Lemma filter_map_inert {A : Type} (f : A -> bool) (g : A -> A) (l : list A) :
  (forall x, In x l -> g x = x \/ (f x = false /\ f (g x) = false)) ->
  filter f (map g l) = filter f l.
Proof.
  induction l as [|x l IH]; intro H; cbn; [reflexivity|].
  rewrite IH by (intros y Hy; apply H; now right).
  destruct (H x (or_introl eq_refl)) as [-> | [-> ->]]; reflexivity.
Qed.

Lemma cancel_inert (db : Db) (orderId : Z) (o : Order.t) (f : Order.t -> bool) :
  Ledger.idsUnique db ->
  find (fun o => Order.id o =? orderId) (orders db) = Some o ->
  Order.status o <> FILLED ->
  (forall x, OrderStatus_eqb (Order.status x) FILLED = false -> f x = false) ->
  filter f (orders (cancelled db orderId)) = filter f (orders db).
Proof.
  intros Hnd Hfind Hst Hf. unfold cancelled. cbn [orders].
  apply filter_map_inert. intros x Hx.
  destruct (Order.id x =? orderId) eqn:E; [|now left]. right.
  apply Z.eqb_eq in E.
  rewrite (find_unique (orders db) orderId o x Hnd Hfind Hx E).
  split; apply Hf.
  - destruct (Order.status o); cbn; congruence.
  - reflexivity.
Qed.

(** X13.  Cancelling moves no money.  In a ledger with distinct ids,
    after a [cancelOrder] that returned, every user has the same FILLED
    orders, the same available cash, the same positions and the same
    portfolio as before. *)
Theorem cancelOrder_moves_no_money (db db' : Db) (orderId userId : Z)
    (response : OrderService.CancelOrderResponse) :
  Ledger.idsUnique db ->
  OrderService.cancelOrder orderId userId db = (Ok response, db') ->
  Ledger.sameBalances db db'
  /\ (forall user : Z,
        PortfolioService.getUserPortfolio db' user
        = PortfolioService.getUserPortfolio db user).
Proof.
  intros Hnd Hrun. rewrite cancelOrder_run in Hrun.
  destruct (find _ (orders db)) as [o|] eqn:Hfind; [|discriminate].
  destruct (Order.userId o =? userId); cbn [negb] in Hrun; [|discriminate].
  destruct (OrderStatus_eqb (Order.status o) NEW) eqn:Es; cbn [negb] in Hrun;
    [|discriminate].
  destruct (InstrumentRepository.findInstrumentById db (Order.instrumentId o));
    [|discriminate].
  injection Hrun as _ <-.
  apply OrderStatus_eqb_eq in Es.
  assert (Hst : Order.status o <> FILLED) by congruence.
  assert (Hsame : Ledger.sameBalances db (cancelled db orderId)).
  { intro user. split; [|split].
    - unfold OrderRepository.getFilledOrdersByUserId.
      rewrite (cancel_inert db orderId o _ Hnd Hfind Hst); [reflexivity|].
      intros x Hx. rewrite Hx. apply andb_false_r.
    - intro ars. unfold OrderRepository.getUserAvailableCash.
      rewrite (cancel_inert db orderId o _ Hnd Hfind Hst); [reflexivity|].
      intros x Hx. rewrite Hx. apply andb_false_r.
    - intro instrumentId. unfold OrderRepository.getUserPositionForInstrument.
      rewrite (cancel_inert db orderId o _ Hnd Hfind Hst); [reflexivity|].
      intros x Hx. rewrite Hx. rewrite andb_false_r. reflexivity. }
  split; [exact Hsame|].
  intro user. destruct (Hsame user) as [Hfilled [Hcash _]].
  apply getUserPortfolio_same; try reflexivity; [exact Hfilled | apply Hcash].
Qed.

Lemma cancelOrder_moves_no_money_witness :
  PortfolioService.getUserPortfolio
    (snd (OrderService.cancelOrder 2 1 Sample.resting)) 1
  = PortfolioService.getUserPortfolio Sample.resting 1.
Proof.
  destruct (cancelOrder_moves_no_money Sample.resting
              (snd (OrderService.cancelOrder 2 1 Sample.resting)) 2 1
              (OrderService.mkCancelResponse true "Order cancelled successfully"
                 (Order.mk 2 47 1 3 90 LIMIT BUY CANCELLED 20) "PAMP"
                 "Pampa Holding" 270)) as [_ H].
  - apply NoDup_cons; [intros [H | []]; discriminate|].
    apply NoDup_cons; [intros [] | apply NoDup_nil].
  - reflexivity.
  - apply H.
Defined.

(* ================================================================== *)
(** ** updateOrderStatus *)
(* ================================================================== *)

Lemma restated_absent (db : Db) (orderId : Z) (status : OrderStatus) :
  find (fun o => Order.id o =? orderId) (orders db) = None ->
  Ledger.restated db orderId status = db.
Proof.
  intro Hnone. unfold Ledger.restated.
  assert (Hmap : map (fun o => if Order.id o =? orderId
                               then Order.withStatus status o else o) (orders db)
                 = orders db).
  { rewrite <- (map_id (orders db)) at 2. apply map_ext_in. intros o Ho.
    now rewrite (find_none _ _ Hnone o Ho). }
  rewrite Hmap. destruct db; reflexivity.
Qed.

(** X14.  [updateOrderStatus(orderId, status)] looks at neither the
    owner nor the current status.  With no row of that id it throws
    NotFoundError and the database is unchanged.  With a row of that id
    whose instrument exists it returns the row with the new status and
    the ticker and name of the instrument, and the ledger holds the new
    status.  With a row whose instrument does not exist it throws
    NotFoundError (referential integrity violation), but the UPDATE
    stays: the ledger holds the new status. *)
Theorem updateOrderStatus_outcomes (db : Db) (orderId : Z) (status : OrderStatus) :
  let found := find (fun o => Order.id o =? orderId) (orders db) in
  (found = None ->
   OrderRepository.updateOrderStatus orderId status db
   = (Err (NotFoundError ("Order with ID " ++ Z_toString orderId ++ " not found")),
      db))
  /\ (forall o i,
        found = Some o ->
        InstrumentRepository.findInstrumentById db (Order.instrumentId o) = Some i ->
        OrderRepository.updateOrderStatus orderId status db
        = (Ok (OrderRepository.mkUpdatedOrder (Order.withStatus status o)
                 (Instrument.ticker i) (Instrument.name i)),
           Ledger.restated db orderId status))
  /\ (forall o,
        found = Some o ->
        InstrumentRepository.findInstrumentById db (Order.instrumentId o) = None ->
        OrderRepository.updateOrderStatus orderId status db
        = (Err (NotFoundError
                  ("Instrument with ID " ++ Z_toString (Order.instrumentId o)
                   ++ " not found (referential integrity violation)")),
           Ledger.restated db orderId status)
        /\ find (fun o => Order.id o =? orderId)
             (orders (Ledger.restated db orderId status))
           = Some (Order.withStatus status o)).
Proof.
  intro found. subst found.
  unfold OrderRepository.updateOrderStatus. cbn [orders].
  rewrite find_after_update.
  fold (Ledger.restated db orderId status).
  split; [|split].
  - intro Hnone. rewrite Hnone. cbn [option_map].
    now rewrite restated_absent.
  - intros o i Hfind Hi. rewrite Hfind. cbn [option_map].
    change (InstrumentRepository.findInstrumentById (Ledger.restated db orderId status)
              (Order.instrumentId (Order.withStatus status o)))
      with (InstrumentRepository.findInstrumentById db (Order.instrumentId o)).
    rewrite Hi. reflexivity.
  - intros o Hfind Hi. rewrite Hfind. cbn [option_map].
    change (InstrumentRepository.findInstrumentById (Ledger.restated db orderId status)
              (Order.instrumentId (Order.withStatus status o)))
      with (InstrumentRepository.findInstrumentById db (Order.instrumentId o)).
    rewrite Hi. split; [reflexivity|].
    unfold Ledger.restated. cbn [orders]. rewrite find_after_update, Hfind.
    reflexivity.
Qed.

Lemma updateOrderStatus_outcomes_witness :
  OrderRepository.updateOrderStatus 1 CANCELLED
    (mkDb [Sample.alice] [] [] [Sample.deposit] 2 100)
  = (Err (NotFoundError
            "Instrument with ID 66 not found (referential integrity violation)"),
     mkDb [Sample.alice] [] []
       [Order.mk 1 66 1 1000 1 MARKET CASH_IN CANCELLED 10] 2 100).
Proof.
  destruct (updateOrderStatus_outcomes
              (mkDb [Sample.alice] [] [] [Sample.deposit] 2 100) 1 CANCELLED)
    as [_ [_ H]].
  destruct (H Sample.deposit) as [Hrun _].
  - reflexivity.
  - reflexivity.
  - exact Hrun.
Defined.

(* ================================================================== *)
(** ** Following the cursor *)
(* ================================================================== *)

Section FilterSort.
Context {A : Type} (le : A -> A -> bool).
Hypothesis le_total : forall a b, le a b = true \/ le b a = true.
Hypothesis le_trans : forall a b c, le a b = true -> le b c = true -> le a c = true.

Lemma insertBy_head (x : A) (l : list A) :
  Forall (fun y => le x y = true) l -> insertBy le x l = x :: l.
Proof.
  destruct l as [|y l]; cbn; [reflexivity|].
  intro H. now rewrite (Forall_inv H).
Qed.

Lemma filter_insertBy (f : A -> bool) (x : A) (l : list A) :
  StronglySorted (fun a b => le a b = true) l ->
  filter f (insertBy le x l)
  = if f x then insertBy le x (filter f l) else filter f l.
Proof.
  induction l as [|y l IH]; intro Hs.
  - cbn. destruct (f x); reflexivity.
  - inversion Hs as [|? ? Hs' Hall]; subst. cbn [insertBy].
    destruct (le x y) eqn:E.
    + cbn [filter]. destruct (f x); [|reflexivity].
      rewrite insertBy_head; [reflexivity|].
      assert (Hx : Forall (fun z => le x z = true) (y :: l)).
      { constructor; [exact E|]. eapply Forall_impl; [|exact Hall].
        intros z Hz. cbn beta in Hz. eapply le_trans; eassumption. }
      apply Forall_forall. intros z Hz.
      rewrite Forall_forall in Hx. apply Hx.
      change (In z (filter f (y :: l))) in Hz.
      apply filter_In in Hz. tauto.
    + cbn [filter]. rewrite (IH Hs').
      destruct (f y), (f x); cbn [insertBy]; rewrite ?E; reflexivity.
Qed.

Lemma filter_sortBy (f : A -> bool) (l : list A) :
  filter f (sortBy le l) = sortBy le (filter f l).
Proof.
  induction l as [|x l IH]; [reflexivity|].
  change (sortBy le (x :: l)) with (insertBy le x (sortBy le l)).
  rewrite filter_insertBy by (apply sortBy_sorted; assumption).
  rewrite IH. cbn [filter]. destruct (f x); reflexivity.
Qed.
End FilterSort.

Lemma filter_filter_and {A : Type} (f g : A -> bool) (l : list A) :
  filter f (filter g l) = filter (fun x => g x && f x) l.
Proof.
  induction l as [|x l IH]; cbn; [reflexivity|].
  destruct (g x); cbn; [destruct (f x)|]; now rewrite IH.
Qed.






Lemma getOrdersByUserId_closed (db : Db) (userId : Z) (limit cursor : option Z) :
  let n := Z.min (match limit with Some l => l | None => 50 end) 200 in
  let candidates := OrderRepository.pageCandidates db userId cursor in
  -1 <= n ->
  OrderRepository.getOrdersByUserId db userId limit cursor
  = Ok (OrderRepository.mkPage
          (firstn (Z.to_nat n) candidates)
          (if (n <? Z.of_nat (List.length candidates)) && (0 <? n)
           then option_map Order.datetime
                  (last (map Some (firstn (Z.to_nat n) candidates)) None)
           else None)
          (n <? Z.of_nat (List.length candidates))).
Proof.
  intros n candidates Hn.
  unfold OrderRepository.getOrdersByUserId. cbv zeta.
  fold n. fold candidates.
  replace (n + 1 <? 0) with false by (symmetry; apply Z.ltb_ge; lia).
  destruct (Z.eq_dec n (-1)) as [Hm | Hm].
  - rewrite Hm. cbn.
    replace (-1 <? Z.of_nat (List.length candidates)) with true
      by (symmetry; apply Z.ltb_lt; lia).
    reflexivity.
  - assert (Hn0 : 0 <= n) by lia.
    replace (Z.to_nat (n + 1)) with (S (Z.to_nat n)) by lia.
    destruct (le_lt_dec (List.length candidates) (Z.to_nat n)) as [Hshort | Hlong].
    + rewrite (firstn_all2 candidates) by lia.
      rewrite (firstn_all2 candidates) by lia.
      replace (n <? Z.of_nat (List.length candidates)) with false
        by (symmetry; apply Z.ltb_ge; lia).
      reflexivity.
    + assert (Hlen : List.length (firstn (S (Z.to_nat n)) candidates)
                     = S (Z.to_nat n)) by (rewrite length_firstn; lia).
      rewrite Hlen.
      replace (n <? Z.of_nat (S (Z.to_nat n))) with true
        by (symmetry; apply Z.ltb_lt; lia).
      replace (n <? Z.of_nat (List.length candidates)) with true
        by (symmetry; apply Z.ltb_lt; lia).
      rewrite removelast_firstn by exact Hlong.
      rewrite length_firstn.
      replace (Nat.min (Z.to_nat n) (List.length candidates)) with (Z.to_nat n) by lia.
      rewrite Z2Nat.id by exact Hn0. reflexivity.
Qed.

Lemma getOrdersByUserId_ok_range (db : Db) (userId : Z) (limit cursor : option Z)
    (page : OrderRepository.Page) :
  OrderRepository.getOrdersByUserId db userId limit cursor = Ok page ->
  -1 <= Z.min (match limit with Some l => l | None => 50 end) 200.
Proof.
  unfold OrderRepository.getOrdersByUserId. cbv zeta.
  destruct (_ + 1 <? 0) eqn:E; [discriminate|]. apply Z.ltb_ge in E. lia.
Qed.





Lemma getOrdersByUserId_candidates (db db' : Db) (userId : Z) (limit cursor : option Z) :
  OrderRepository.pageCandidates db' userId cursor
  = OrderRepository.pageCandidates db userId cursor ->
  OrderRepository.getOrdersByUserId db' userId limit cursor
  = OrderRepository.getOrdersByUserId db userId limit cursor.
Proof.
  intro H. unfold OrderRepository.getOrdersByUserId. now rewrite H.
Qed.

(** X16.  A page behind a cursor does not change when orders are
    added.  For a cursor that is not in the future, [getOrdersByUserId]
    with that cursor gives the same answer after any [executeOrder] (of
    any user, returning or throwing) as before it. *)
Theorem page_is_stable_when_orders_are_added (db : Db) (input : CreateOrderInput.t)
    (userId : Z) (limit : option Z) (cursor : Z) :
  cursor <= now db ->
  OrderRepository.getOrdersByUserId (snd (OrderService.executeOrder input db))
    userId limit (Some cursor)
  = OrderRepository.getOrdersByUserId db userId limit (Some cursor).
Proof.
  intro Hc.
  destruct (OrderService.executeOrder input db) as [[r|e] db'] eqn:Hrun; cbn [snd].
  - destruct (executeOrder_ok_inv db db' input r Hrun) as [-> [_ [Hnow _]]].
    apply getOrdersByUserId_candidates.
    unfold OrderRepository.pageCandidates, Spec.persisted. cbn [orders].
    rewrite filter_snoc.
    replace (Order.datetime (OrderService.order r) <? cursor) with false
      by (symmetry; apply Z.ltb_ge; lia).
    rewrite andb_false_r, app_nil_r. reflexivity.
  - now rewrite (executeOrder_err_inv db db' input e Hrun).
Qed.

Lemma page_is_stable_when_orders_are_added_witness :
  OrderRepository.getOrdersByUserId
    (snd (OrderService.executeOrder (Sample.buy MARKET (Some 6) None None)
            Sample.holding)) 1 (Some 1) (Some 20)
  = Ok (OrderRepository.mkPage [Sample.deposit] None false).
Proof.
  rewrite (page_is_stable_when_orders_are_added Sample.holding
             (Sample.buy MARKET (Some 6) None None) 1 (Some 1) 20).
  - vm_compute. reflexivity.
  - vm_compute. discriminate.
Defined.

(** X17.  [getOrdersByUserId] for every limit.  A limit of -2 or less
    reaches PostgreSQL as a negative LIMIT and the call throws.  A limit
    of -1 gives an empty page with hasMore true and no cursor.  A limit
    of 0 gives an empty page and no cursor, with hasMore true as soon as
    the user has a matching row.  A limit of 200 or more gives what 200
    gives.  Whenever the call returns, the page is the first
    min(limit, 200) of the selected rows, it has at most 200 rows,
    hasMore tells whether more rows were selected than that, and a next
    cursor comes only with hasMore true. *)
Theorem getOrdersByUserId_any_limit (db : Db) (userId limit : Z) (cursor : option Z) :
  let candidates := OrderRepository.pageCandidates db userId cursor in
  (limit <= -2 ->
   OrderRepository.getOrdersByUserId db userId (Some limit) cursor
   = Err (DatabaseError "LIMIT must not be negative"))
  /\ (limit = -1 ->
      OrderRepository.getOrdersByUserId db userId (Some limit) cursor
      = Ok (OrderRepository.mkPage [] None true))
  /\ (limit = 0 ->
      OrderRepository.getOrdersByUserId db userId (Some limit) cursor
      = Ok (OrderRepository.mkPage [] None
              (match candidates with [] => false | _ => true end)))
  /\ (200 <= limit ->
      OrderRepository.getOrdersByUserId db userId (Some limit) cursor
      = OrderRepository.getOrdersByUserId db userId (Some 200) cursor)
  /\ (forall page,
        OrderRepository.getOrdersByUserId db userId (Some limit) cursor = Ok page ->
        OrderRepository.page_orders page
        = firstn (Z.to_nat (Z.min limit 200)) candidates
        /\ (List.length (OrderRepository.page_orders page) <= 200)%nat
        /\ (OrderRepository.hasMore page = true <->
            Z.min limit 200 < Z.of_nat (List.length candidates))
        /\ (OrderRepository.nextCursor page <> None ->
            OrderRepository.hasMore page = true)).
Proof.
  intro candidates. split; [|split; [|split; [|split]]].
  - intro H. unfold OrderRepository.getOrdersByUserId. cbv zeta.
    rewrite (Z.min_l limit 200) by lia.
    replace (limit + 1 <? 0) with true by (symmetry; apply Z.ltb_lt; lia).
    reflexivity.
  - intros ->. rewrite getOrdersByUserId_closed by (cbn; lia). cbn.
    fold candidates.
    replace (-1 <? Z.of_nat (List.length candidates)) with true
      by (symmetry; apply Z.ltb_lt; lia).
    reflexivity.
  - intros ->. rewrite getOrdersByUserId_closed by (cbn; lia). cbn.
    fold candidates. rewrite andb_false_r.
    destruct candidates; reflexivity.
  - intro H. unfold OrderRepository.getOrdersByUserId. cbv zeta.
    rewrite (Z.min_r limit 200) by lia. reflexivity.
  - intros page Hrun.
    pose proof (getOrdersByUserId_ok_range _ _ _ _ _ Hrun) as Hrange.
    rewrite (getOrdersByUserId_closed db userId (Some limit) cursor Hrange) in Hrun.
    fold candidates in Hrun. injection Hrun as <-.
    cbn [OrderRepository.page_orders OrderRepository.hasMore
         OrderRepository.nextCursor].
    split; [reflexivity|].
    split.
    { rewrite length_firstn. lia. }
    split; [apply Z.ltb_lt|].
    destruct (Z.min limit 200 <? Z.of_nat (List.length candidates));
      [reflexivity | cbn; congruence].
Qed.

Lemma getOrdersByUserId_any_limit_witness :
  OrderRepository.getOrdersByUserId Sample.db 1 (Some 0) None
  = Ok (OrderRepository.mkPage [] None true).
Proof.
  destruct (getOrdersByUserId_any_limit Sample.db 1 0 None) as [_ [_ [H _]]].
  apply (H eq_refl).
Defined.

(** X18.  [GET /users/:userId/orders], for a cursor that is a
    timestamp.  The status is 400 exactly when the user id is not a
    positive integer or the limit is given and is not an integer between
    1 and 200; 404 exactly when both are valid and the user does not
    exist; 200 exactly when both are valid and the user exists.  A body
    holds at most limit orders (50 without a limit), newest first, each a
    row of the ledger that belongs to the user, with its totalAmount. *)
Theorem getUserOrders_endpoint (db : Db) (userIdParam : option Z)
    (limitQuery : option (option Z)) (cursor : option Z) :
  let response := UsersController.getUserOrders userIdParam limitQuery cursor db in
  let validUser := exists userId, userIdParam = Some userId /\ 0 < userId in
  let validLimit :=
    limitQuery = None \/ exists limit, limitQuery = Some (Some limit) /\ 1 <= limit <= 200 in
  (UsersController.status response = 400 <-> ~ (validUser /\ validLimit))
  /\ (UsersController.status response = 404 <->
      validUser /\ validLimit
      /\ exists userId, userIdParam = Some userId
                        /\ UserRepository.findUserById db userId = None)
  /\ (UsersController.status response = 200 <->
      validUser /\ validLimit
      /\ exists userId, userIdParam = Some userId /\ Spec.userExists db userId)
  /\ (forall r userId,
        UsersController.body response = Some r -> userIdParam = Some userId ->
        Z.of_nat (List.length (OrderService.uo_orders r))
        <= match limitQuery with Some (Some limit) => limit | _ => 50 end
        /\ newestFirst (map fst (OrderService.uo_orders r))
        /\ Forall (fun e => In (fst e) (orders db) /\ Order.userId (fst e) = userId
                            /\ snd e = OrderService.totalAmountOf (fst e))
             (OrderService.uo_orders r)).
Proof.
  intros response validUser validLimit. subst response validUser validLimit.
  unfold UsersController.getUserOrders.
  destruct userIdParam as [userId|].
  2: { cbn. repeat split; try discriminate.
       - intros _ [[u [H _]] _]. discriminate.
       - intros [[u [H _]] _]. discriminate.
       - intros [[u [H _]] _]. discriminate. }
  destruct (userId <=? 0) eqn:Eu.
  { apply Z.leb_le in Eu. cbn. repeat split; try discriminate.
    - intros _ [[u [H Hu]] _]. injection H as <-. lia.
    - intros [[u [H Hu]] _]. injection H as <-. lia.
    - intros [[u [H Hu]] _]. injection H as <-. lia. }
  apply Z.leb_gt in Eu.
  assert (Hvu : exists u, Some userId = Some u /\ 0 < u) by (now exists userId).
  assert (Hservice : forall limit : option Z,
            -1 <= Z.min (match limit with Some l => l | None => 50 end) 200 ->
            let response :=
              @UsersController.answer OrderService.UserOrdersResponse
                (OrderService.getUserOrders db userId limit cursor) in
            (UsersController.status response = 404 <->
             UserRepository.findUserById db userId = None)
            /\ (UsersController.status response = 200 <->
                Spec.userExists db userId)
            /\ UsersController.status response <> 400
            /\ (forall r, UsersController.body response = Some r ->
                  OrderService.uo_orders r
                  = map (fun o => (o, OrderService.totalAmountOf o))
                      (firstn (Z.to_nat
                                 (Z.min (match limit with Some l => l | None => 50 end)
                                    200))
                         (OrderRepository.pageCandidates db userId cursor)))).
  { intros limit Hrange. unfold OrderService.getUserOrders, Spec.userExists.
    rewrite (getOrdersByUserId_closed db userId limit cursor Hrange).
    destruct (UserRepository.findUserById db userId) as [u|]; cbn.
    - repeat split; try discriminate; try congruence.
      intros r Hr. injection Hr as <-. reflexivity.
    - repeat split; try discriminate; try congruence. }
  assert (Hrows : forall k : nat,
            let rows := map (fun o => (o, OrderService.totalAmountOf o))
                          (firstn k (OrderRepository.pageCandidates db userId cursor)) in
            (List.length rows <= k)%nat
            /\ newestFirst (map fst rows)
            /\ Forall (fun e => In (fst e) (orders db) /\ Order.userId (fst e) = userId
                                /\ snd e = OrderService.totalAmountOf (fst e)) rows).
  { intros k rows. subst rows. split; [|split].
    - rewrite length_map, length_firstn. lia.
    - rewrite map_map. cbn [fst]. rewrite map_id.
      apply StronglySorted_firstn. apply pageCandidates_sorted.
    - apply Forall_forall. intros e He. apply in_map_iff in He.
      destruct He as [o [<- Ho]]. cbn [fst snd].
      apply In_firstn in Ho. apply pageCandidates_In in Ho.
      destruct Ho as [Hin [Hu _]]. repeat split; assumption. }
  destruct limitQuery as [[limit|]|].
  - destruct ((limit <=? 0) || (200 <? limit)) eqn:El.
    + cbn. apply orb_true_iff in El. rewrite Z.leb_le, Z.ltb_lt in El.
      assert (Hbad : ~ (Some (Some limit) = None
                        \/ exists l, Some (Some limit) = Some (Some l) /\ 1 <= l <= 200)).
      { intros [H | [l [H Hl]]]; [discriminate|]. injection H as <-. lia. }
      repeat split; try discriminate; try tauto.
    + apply orb_false_iff in El. rewrite Z.leb_gt, Z.ltb_ge in El.
      assert (Hgood : Some (Some limit) = None
                      \/ exists l, Some (Some limit) = Some (Some l) /\ 1 <= l <= 200).
      { right. exists limit. split; [reflexivity | lia]. }
      destruct (Hservice (Some limit)) as [H404 [H200 [H400 Hbody]]];
        [rewrite Z.min_l; lia|].
      split; [split; [intro H; contradiction | tauto]|].
      split.
      { rewrite H404. split.
        - intro H. split; [exact Hvu|]. split; [exact Hgood|]. now exists userId.
        - intros [_ [_ [u [Hu H]]]]. now injection Hu as <-. }
      split.
      { rewrite H200. split.
        - intro H. split; [exact Hvu|]. split; [exact Hgood|]. now exists userId.
        - intros [_ [_ [u [Hu H]]]]. now injection Hu as <-. }
      intros r u Hr Hu. injection Hu as <-.
      rewrite (Hbody r Hr). rewrite Z.min_l by lia.
      destruct (Hrows (Z.to_nat limit)) as [Hlen [Hs Hall]].
      split; [lia|]. split; assumption.
  - cbn. assert (Hbad : ~ (Some (@None Z) = None
                           \/ exists l, Some (@None Z) = Some (Some l) /\ 1 <= l <= 200)).
    { intros [H | [l [H Hl]]]; discriminate. }
    repeat split; try discriminate; try tauto.
  - assert (Hgood : @None (option Z) = None
                    \/ exists l, @None (option Z) = Some (Some l) /\ 1 <= l <= 200)
      by (now left).
    destruct (Hservice None) as [H404 [H200 [H400 Hbody]]]; [cbn; lia|].
    split; [split; [intro H; contradiction | tauto]|].
    split.
    { rewrite H404. split.
      - intro H. split; [exact Hvu|]. split; [exact Hgood|]. now exists userId.
      - intros [_ [_ [u [Hu H]]]]. now injection Hu as <-. }
    split.
    { rewrite H200. split.
      - intro H. split; [exact Hvu|]. split; [exact Hgood|]. now exists userId.
      - intros [_ [_ [u [Hu H]]]]. now injection Hu as <-. }
    intros r u Hr Hu. injection Hu as <-.
    rewrite (Hbody r Hr).
    destruct (Hrows (Z.to_nat (Z.min 50 200))) as [Hlen [Hs Hall]].
    split; [cbn in Hlen |- *; lia|]. split; assumption.
Qed.

Lemma getUserOrders_endpoint_witness :
  UsersController.status
    (UsersController.getUserOrders (Some 1) (Some (Some 1)) None Sample.db) = 200.
Proof.
  destruct (getUserOrders_endpoint Sample.db (Some 1) (Some (Some 1)) None)
    as [_ [_ [H _]]].
  apply H. split; [exists 1; split; [reflexivity | lia]|].
  split; [right; exists 1; split; [reflexivity | lia]|].
  exists 1. split; [reflexivity|]. vm_compute. discriminate.
Defined.

(* ================================================================== *)
(** ** Latest market data *)
(* ================================================================== *)

(** X19.  [getLatestMarketDataForInstrument] returns a row of the
    instrument whose date no other row of the instrument exceeds, and
    returns null only when the instrument has no row. *)
Theorem latest_market_data_is_newest (db : Db) (instrumentId : Z) :
  match MarketDataRepository.getLatestMarketDataForInstrument db instrumentId with
  | Some latest =>
      In latest (marketdata db)
      /\ LatestMarketData.instrumentId latest = instrumentId
      /\ (forall m, In m (marketdata db) ->
            LatestMarketData.instrumentId m = instrumentId ->
            LatestMarketData.date m <= LatestMarketData.date latest)
  | None =>
      forall m, In m (marketdata db) -> LatestMarketData.instrumentId m <> instrumentId
  end.
Proof.
  unfold MarketDataRepository.getLatestMarketDataForInstrument.
  set (le := fun a b => LatestMarketData.date b <=? LatestMarketData.date a).
  set (rows := filter (fun m => LatestMarketData.instrumentId m =? instrumentId)
                 (marketdata db)).
  assert (Hperm : Permutation (sortBy le rows) rows) by apply sortBy_perm.
  assert (Hsorted : StronglySorted (fun a b => le a b = true) (sortBy le rows)).
  { apply sortBy_sorted.
    - intros a b. unfold le. rewrite !Z.leb_le. lia.
    - intros a b c. unfold le. rewrite !Z.leb_le. lia. }
  destruct (sortBy le rows) as [|latest others]; cbn [hd_error].
  - intros m Hin Hm. apply Permutation_nil in Hperm.
    assert (Hrow : In m rows).
    { apply filter_In. split; [exact Hin | now apply Z.eqb_eq]. }
    rewrite Hperm in Hrow. contradiction.
  - assert (Hl : In latest rows).
    { apply (Permutation_in _ Hperm). now left. }
    apply filter_In in Hl. destruct Hl as [Hin Hid]. apply Z.eqb_eq in Hid.
    split; [exact Hin|]. split; [exact Hid|].
    intros m Hm Hmid.
    assert (Hrow : In m rows).
    { apply filter_In. split; [exact Hm | now apply Z.eqb_eq]. }
    apply (Permutation_in _ (Permutation_sym Hperm)) in Hrow.
    destruct Hrow as [<- | Hrow]; [lia|].
    inversion Hsorted as [|? ? _ Hall]; subst.
    rewrite Forall_forall in Hall. specialize (Hall m Hrow).
    unfold le in Hall. now apply Z.leb_le in Hall.
Qed.

Lemma latest_market_data_is_newest_witness :
  MarketDataRepository.getLatestMarketDataForInstrument
    (mkDb [] [] [LatestMarketData.mk 47 140 130 10; LatestMarketData.mk 47 150 140 20]
       [] 1 100) 47
  = Some (LatestMarketData.mk 47 150 140 20)
  /\ LatestMarketData.date (LatestMarketData.mk 47 140 130 10) <= 20.
Proof.
  pose proof (latest_market_data_is_newest
                (mkDb [] []
                   [LatestMarketData.mk 47 140 130 10; LatestMarketData.mk 47 150 140 20]
                   [] 1 100) 47) as H.
  split; [reflexivity|].
  change (MarketDataRepository.getLatestMarketDataForInstrument
            (mkDb [] []
               [LatestMarketData.mk 47 140 130 10; LatestMarketData.mk 47 150 140 20]
               [] 1 100) 47)
    with (Some (LatestMarketData.mk 47 150 140 20)) in H.
  destruct H as [_ [_ H]].
  apply (H (LatestMarketData.mk 47 140 130 10)); [now left | reflexivity].
Defined.

(* ================================================================== *)
(** ** The positions of a portfolio *)
(* ================================================================== *)

Section PortfolioPositions.
Import PortfolioService.













End PortfolioPositions.

Section Quantity.
Import PortfolioService.

Lemma replay_quantity (os : list Order.t) :
  forall position : InternalPosition,
    Ledger.holdsAtEverySell (ip_quantity position) os = true ->
    ip_quantity (fold_left stepPosition os position)
    = ip_quantity position
      + fold_right Z.add 0 (map OrderRepository.positionEffect os).
Proof.
  induction os as [|o os IH]; intros position Hholds;
    cbn [fold_left fold_right map].
  { lia. }
  cbn [Ledger.holdsAtEverySell] in Hholds.
  change (OrderRepository.positionEffect o)
    with (match Order.side o with
          | BUY => Order.size o
          | SELL => - Order.size o
          | _ => 0
          end).
  unfold stepPosition at 2, applyOrder.
  destruct (Order.side o).
  - rewrite IH; cbn [ip_quantity]; [lia | exact Hholds].
  - apply andb_true_iff in Hholds. destruct Hholds as [Hq Hholds].
    apply negb_true_iff in Hq. rewrite Hq.
    rewrite IH; cbn [ip_quantity]; [lia | exact Hholds].
  - rewrite IH; [lia | exact Hholds].
  - rewrite IH; [lia | exact Hholds].
Qed.

Lemma sum_Z_perm (l l' : list Z) :
  Permutation l l' -> fold_right Z.add 0 l = fold_right Z.add 0 l'.
Proof. induction 1; cbn; lia. Qed.

Lemma sum_filter_ext (P S : Order.t -> bool) (w : Order.t -> Z) (l : list Order.t) :
  (forall x, (if P x then w x else 0) = (if S x then w x else 0)) ->
  fold_right Z.add 0 (map w (filter P l)) = fold_right Z.add 0 (map w (filter S l)).
Proof.
  intro H. induction l as [|x l IH]; cbn; [reflexivity|].
  specialize (H x). destruct (P x), (S x); cbn; lia.
Qed.

Lemma stockOrders_not_ars (db : Db) (user : Z) (o : Order.t) :
  In o (Spec.stockOrders db user) -> Order.instrumentId o <> ARS_INSTRUMENT_ID.
Proof.
  unfold Spec.stockOrders. intro H. apply filter_In in H. destruct H as [_ H].
  apply negb_true_iff in H. now apply Z.eqb_neq in H.
Qed.

(** The net size of the stock orders of one instrument is the position
    the ledger reports for it. *)
Lemma stockOrders_net_position (db : Db) (user i : Z) :
  i <> ARS_INSTRUMENT_ID ->
  fold_right Z.add 0
    (map OrderRepository.positionEffect (ordersOf i (Spec.stockOrders db user)))
  = OrderRepository.getUserPositionForInstrument db user i.
Proof.
  intro Hars.
  unfold ordersOf, Spec.stockOrders, OrderRepository.getFilledOrdersByUserId,
    OrderRepository.getUserPositionForInstrument.
  set (le := fun a b : Order.t => Order.datetime a <=? Order.datetime b).
  assert (Htotal : forall a b, le a b = true \/ le b a = true).
  { intros a b. unfold le. rewrite !Z.leb_le. lia. }
  assert (Htrans : forall a b c, le a b = true -> le b c = true -> le a c = true).
  { intros a b c. unfold le. rewrite !Z.leb_le. lia. }
  rewrite !(filter_sortBy le Htotal Htrans).
  rewrite (sum_Z_perm _ _ (Permutation_map _ (sortBy_perm le _))).
  rewrite !filter_filter_and.
  apply sum_filter_ext. intro x. unfold OrderRepository.positionEffect.
  destruct (Order.userId x =? user); cbn [andb]; [|reflexivity].
  destruct (OrderStatus_eqb (Order.status x) FILLED); cbn [andb];
    [|rewrite andb_false_r; reflexivity].
  destruct (Order.instrumentId x =? i) eqn:Ei; cbn [andb];
    [|rewrite andb_false_r; reflexivity].
  apply Z.eqb_eq in Ei.
  replace (Order.instrumentId x =? ARS_INSTRUMENT_ID) with false
    by (symmetry; apply Z.eqb_neq; congruence).
  cbn. destruct (Order.side x); reflexivity.
Qed.

(** X22.  The quantity a portfolio shows for an instrument is the net
    position the ledger reports for it ([getUserPositionForInstrument],
    which the SELL validation reads), provided the replay of the
    instrument's orders never meets a SELL at quantity 0 (the case the
    replay skips). *)
Theorem portfolio_quantity_is_net_position (db : Db) (user : Z)
    (portfolio : Portfolio) (p : Position) :
  getUserPortfolio db user = Ok portfolio ->
  In p (positions portfolio) ->
  Ledger.holdsAtEverySell 0 (ordersOf (instrumentId p) (Spec.stockOrders db user))
  = true ->
  quantity p
  = OrderRepository.getUserPositionForInstrument db user (instrumentId p).
Proof.
  intros Hrun Hin Hholds.
  destruct (getUserPortfolio_positions db user portfolio p Hrun Hin)
    as [position [Hget [_ ->]]].
  rewrite replayOrders_get in Hget.
  destruct (ordersOf (instrumentId p) (Spec.stockOrders db user)) as [|o os] eqn:Eo;
    [discriminate|].
  injection Hget as <-.
  assert (Hars : instrumentId p <> ARS_INSTRUMENT_ID).
  { assert (Ho : In o (ordersOf (instrumentId p) (Spec.stockOrders db user)))
      by (rewrite Eo; now left).
    unfold ordersOf in Ho. apply filter_In in Ho. destruct Ho as [Ho Hi].
    apply Z.eqb_eq in Hi. rewrite <- Hi. now apply (stockOrders_not_ars db user). }
  rewrite <- (stockOrders_net_position db user (instrumentId p) Hars).
  unfold replayedPosition. rewrite Eo.
  rewrite replay_quantity by exact Hholds.
  cbn [freshPosition ip_quantity]. lia.
Qed.

Lemma portfolio_quantity_is_net_position_witness :
  6 = OrderRepository.getUserPositionForInstrument Sample.traded 1 47.
Proof.
  apply (portfolio_quantity_is_net_position Sample.traded 1
           (mkPortfolio 1 1380 480
              [mkPosition 47 "PAMP" "Pampa Holding" 6 100 150 900 50 (357 # 50)])
           (mkPosition 47 "PAMP" "Pampa Holding" 6 100 150 900 50 (357 # 50))).
  - vm_compute. reflexivity.
  - now left.
  - vm_compute. reflexivity.
Defined.

End Quantity.

(* ================================================================== *)
(** ** The portfolio endpoint *)
(* ================================================================== *)



(* ================================================================== *)
(** ** The order endpoint *)
(* ================================================================== *)

Lemma greaterThan_iff (x y : Q) : Dec.greaterThan x y = true <-> (y < x)%Q.
Proof. unfold Dec.greaterThan. apply (lessThan_iff y x). Qed.

Lemma createOrderSchema_facts (data : CreateOrderInput.t) :
  OrderValidator.createOrderSchema data = true ->
  0 < CreateOrderInput.userId data
  /\ 0 < CreateOrderInput.instrumentId data
  /\ ((exists size, CreateOrderInput.size data = Some size
                    /\ CreateOrderInput.amount data = None
                    /\ 1 <= size <= 1000000)
      \/ (exists amount, CreateOrderInput.size data = None
                         /\ CreateOrderInput.amount data = Some amount
                         /\ (0 < amount <= 100000000)%Q))
  /\ ((CreateOrderInput.type data = LIMIT
       /\ exists price, CreateOrderInput.price data = Some price /\ (0 < price)%Q)
      \/ (CreateOrderInput.type data = MARKET /\ CreateOrderInput.price data = None)).
Proof.
  unfold OrderValidator.createOrderSchema, OrderValidator.fieldsValid,
    OrderValidator.sizeXorAmount, OrderValidator.limitHasPrice,
    OrderValidator.marketHasNoPrice, OrderValidator.optionHolds,
    OrderValidator.isDefined, ORDER_LIMITS.MIN_ORDER_SIZE,
    ORDER_LIMITS.MAX_ORDER_SIZE, ORDER_LIMITS.MAX_ORDER_AMOUNT.
  intro H. repeat (apply andb_true_iff in H; destruct H as [H ?]).
  apply Z.ltb_lt in H.
  repeat match goal with
         | E : (_ <? _) = true |- _ => apply Z.ltb_lt in E
         end.
  split; [assumption|]. split; [assumption|]. split.
  - destruct (CreateOrderInput.size data) as [size|],
             (CreateOrderInput.amount data) as [amount|]; try discriminate.
    + left. exists size. repeat split;
        match goal with
        | E : (_ <=? _) && (_ <=? _) = true |- _ =>
            apply andb_true_iff in E; rewrite !Z.leb_le in E; lia
        end.
    + right. exists amount. split; [reflexivity|]. split; [reflexivity|].
      match goal with
      | E : Dec.greaterThan _ _ && Qle_bool _ _ = true |- _ =>
          apply andb_true_iff in E; destruct E as [E1 E2];
          apply greaterThan_iff in E1; apply Qle_bool_iff in E2
      end.
      split; assumption.
  - destruct (CreateOrderInput.type data), (CreateOrderInput.price data) as [price|];
      try discriminate.
    + right. split; reflexivity.
    + left. split; [reflexivity|]. exists price. split; [reflexivity|].
      match goal with
      | E : Dec.greaterThan price 0 = true |- _ => now apply greaterThan_iff in E
      end.
Qed.

Lemma Qeq_bool_pos (p : Q) : (0 < p)%Q -> Qeq_bool p 0 = false.
Proof.
  intro H. destruct (Qeq_bool p 0) eqn:E; [|reflexivity].
  apply Qeq_bool_iff in E. rewrite E in H. exfalso. exact (Qlt_irrefl 0 H).
Qed.

(** The five ways [executeOrder] can go on a body the schema accepts. *)
Lemma executeOrder_valid_body (db : Db) (requestBody : CreateOrderInput.t) :
  let found :=
    Spec.userExists db (CreateOrderInput.userId requestBody)
    /\ Spec.instrumentExists db (CreateOrderInput.instrumentId requestBody) in
  let stock :=
    CreateOrderInput.side requestBody = BUY
    \/ CreateOrderInput.side requestBody = SELL in
  let atMarket := stock /\ CreateOrderInput.type requestBody = MARKET in
  let latest :=
    MarketDataRepository.getLatestMarketDataForInstrument db
      (CreateOrderInput.instrumentId requestBody) in
  let wrongCash :=
    ~ stock /\ CreateOrderInput.instrumentId requestBody <> ARS_INSTRUMENT_ID in
  let noData := atMarket /\ latest = None in
  let zeroClose :=
    atMarket /\ CreateOrderInput.size requestBody = None
    /\ exists marketData,
         latest = Some marketData /\ (LatestMarketData.close marketData == 0)%Q in
  OrderValidator.createOrderSchema requestBody = true ->
  (~ found /\ exists m,
       OrderService.executeOrder requestBody db = (Err (NotFoundError m), db))
  \/ (found /\ wrongCash /\ exists m,
        OrderService.executeOrder requestBody db = (Err (BusinessRuleError m), db))
  \/ (found /\ noData /\ exists m,
        OrderService.executeOrder requestBody db = (Err (BusinessRuleError m), db))
  \/ (found /\ zeroClose /\ exists m,
        OrderService.executeOrder requestBody db = (Err (DatabaseError m), db))
  \/ (found /\ ~ wrongCash /\ ~ noData /\ ~ zeroClose /\ exists r,
        OrderService.executeOrder requestBody db
        = (Ok r, Spec.persisted db (OrderService.order r))).
Proof.
  intros found stock atMarket latest wrongCash noData zeroClose Hschema.
  destruct (createOrderSchema_facts requestBody Hschema) as [_ [_ [Hsize Hprice]]].
  destruct (UserRepository.findUserById db (CreateOrderInput.userId requestBody))
    as [user|] eqn:Euser.
  2: { left. split.
       - intros [Hu _]. apply Hu. exact Euser.
       - eexists. now apply executeOrder_no_user. }
  assert (Hu : Spec.userExists db (CreateOrderInput.userId requestBody))
    by (unfold Spec.userExists; congruence).
  destruct (InstrumentRepository.findInstrumentById db
              (CreateOrderInput.instrumentId requestBody)) as [instrument|] eqn:Einstr.
  2: { left. split.
       - intros [_ Hi]. apply Hi. exact Einstr.
       - eexists. now apply executeOrder_no_instrument. }
  assert (Hi : Spec.instrumentExists db (CreateOrderInput.instrumentId requestBody))
    by (unfold Spec.instrumentExists; congruence).
  assert (Hfound : found) by (split; assumption).
  right.
  assert (Hcases : stock \/ (CreateOrderInput.side requestBody = CASH_IN
                             \/ CreateOrderInput.side requestBody = CASH_OUT)).
  { unfold stock. destruct (CreateOrderInput.side requestBody); auto. }
  destruct Hcases as [Hstock | Hside].
  - assert (Hside : CreateOrderInput.side requestBody = BUY
                    \/ CreateOrderInput.side requestBody = SELL) by exact Hstock.
    assert (Hnw : ~ wrongCash) by (intros [Hn _]; contradiction).
    right.
    destruct Hprice as [[Hty [price [Hp Hpos]]] | [Hty Hp]].
    + right. right.
      assert (Hnd : ~ noData) by (intros [[_ Hm] _]; congruence).
      assert (Hnz : ~ zeroClose) by (intros [[_ Hm] _]; congruence).
      assert (Hexec : Spec.executionPrice db requestBody = Some price)
        by (unfold Spec.executionPrice; rewrite Hty; exact Hp).
      assert (Hres : exists n, Spec.resolvedSize requestBody price = Some n).
      { unfold Spec.resolvedSize.
        destruct Hsize as [[s [-> _]] | [a [-> [-> _]]]].
        - eexists. reflexivity.
        - rewrite (Qeq_bool_pos price Hpos). eexists. reflexivity. }
      destruct Hres as [n Hres].
      repeat (split; [assumption|]).
      pose proof (executeOrder_stock db requestBody price n Hside Hu Hi Hexec Hres) as Hrun.
      cbv zeta in Hrun.
      match type of Hrun with _ = (Ok ?r, _) => exists r end.
      exact Hrun.
    + destruct latest as [marketData|] eqn:Elatest.
      * assert (Hexec : Spec.executionPrice db requestBody
                        = Some (LatestMarketData.close marketData)).
        { unfold Spec.executionPrice. rewrite Hty. fold latest. rewrite Elatest.
          reflexivity. }
        assert (Hnd : ~ noData) by (intros [_ Hm]; congruence).
        destruct Hsize as [[s [Hs _]] | [a [Hs [Ha _]]]].
        -- right. right.
           assert (Hnz : ~ zeroClose) by (intros [_ [Hm _]]; congruence).
           assert (Hres : Spec.resolvedSize requestBody
                            (LatestMarketData.close marketData) = Some s)
             by (unfold Spec.resolvedSize; rewrite Hs; reflexivity).
           repeat (split; [assumption|]).
           pose proof (executeOrder_stock db requestBody _ s Hside Hu Hi Hexec Hres) as Hrun.
           cbv zeta in Hrun.
           match type of Hrun with _ = (Ok ?r, _) => exists r end.
           exact Hrun.
        -- destruct (Qeq_bool (LatestMarketData.close marketData) 0) eqn:Ezero.
           ++ right. left. split; [assumption|]. split.
              ** split; [split; assumption|]. split; [assumption|].
                 exists marketData. split; [reflexivity | now apply Qeq_bool_iff].
              ** eexists.
                 apply (executeOrder_zero_close db requestBody a marketData);
                   assumption.
           ++ right. right.
              assert (Hnz : ~ zeroClose).
              { intros [_ [_ [md [Hmd Hz]]]]. injection Hmd as <-.
                apply Qeq_bool_iff in Hz. congruence. }
              assert (Hres : exists n, Spec.resolvedSize requestBody
                                         (LatestMarketData.close marketData) = Some n).
              { unfold Spec.resolvedSize. rewrite Hs, Ha, Ezero.
                eexists. reflexivity. }
              destruct Hres as [n Hres].
              repeat (split; [assumption|]).
              pose proof (executeOrder_stock db requestBody _ n Hside Hu Hi Hexec Hres) as Hrun.
              cbv zeta in Hrun.
              match type of Hrun with _ = (Ok ?r, _) => exists r end.
              exact Hrun.
      * left. split; [assumption|].
        split; [split; [split; assumption | reflexivity]|].
        eexists.
        apply (executeOrder_no_market_data db requestBody instrument); assumption.
  - assert (Hns : ~ stock).
    { unfold stock. destruct Hside as [-> | ->]; intros [H | H]; discriminate. }
    destruct (Z.eq_dec (CreateOrderInput.instrumentId requestBody) ARS_INSTRUMENT_ID)
      as [Hars | Hars].
    + right. right. right.
      assert (Hnw : ~ wrongCash) by (intros [_ Hn]; contradiction).
      assert (Hnd : ~ noData) by (intros [[Hn _] _]; contradiction).
      assert (Hnz : ~ zeroClose) by (intros [[Hn _] _]; contradiction).
      assert (Hres : exists n, Spec.cashSize requestBody = Some n).
      { unfold Spec.cashSize, Spec.resolvedSize.
        destruct Hsize as [[s [-> _]] | [a [-> [-> _]]]]; eexists; reflexivity. }
      destruct Hres as [n Hres].
      repeat (split; [assumption|]).
      pose proof (executeOrder_cash db requestBody n Hside Hu Hi Hars Hres) as Hrun.
      cbv zeta in Hrun.
      match type of Hrun with _ = (Ok ?r, _) => exists r end.
      exact Hrun.
    + left. split; [assumption|]. split; [split; assumption|].
      eexists.
      apply (executeOrder_cash_wrong_instrument db requestBody Hside Hu Hi Hars).
Qed.

(** X24.  [POST /orders], for a body with fields of the right JSON
    types.  A body the schema refuses is answered 400 and the database is
    unchanged.  A body the schema accepts has a price exactly when its
    type is LIMIT, and is answered 201, 404, 422 or 500: 404 exactly when
    the user or the instrument does not exist; 422 exactly when both
    exist and either a cash operation names another instrument than ARS
    or a MARKET BUY or SELL finds no market data; 500 when both exist and
    a MARKET BUY or SELL by amount meets a latest close of 0.  With 201
    the body is the response of [executeOrder] and its order is the one
    row added to the ledger; with any other status there is no body and
    the database is unchanged. *)
Theorem createOrder_endpoint (db : Db) (requestBody : CreateOrderInput.t) :
  let outcome := OrdersController.createOrder requestBody db in
  let status := OrdersController.status (fst outcome) in
  let body := OrdersController.body (fst outcome) in
  let found :=
    Spec.userExists db (CreateOrderInput.userId requestBody)
    /\ Spec.instrumentExists db (CreateOrderInput.instrumentId requestBody) in
  let stock :=
    CreateOrderInput.side requestBody = BUY
    \/ CreateOrderInput.side requestBody = SELL in
  let atMarket := stock /\ CreateOrderInput.type requestBody = MARKET in
  let latest :=
    MarketDataRepository.getLatestMarketDataForInstrument db
      (CreateOrderInput.instrumentId requestBody) in
  (OrderValidator.createOrderSchema requestBody = false ->
   outcome = (OrdersController.mkHttp 400 None, db))
  /\ (OrderValidator.createOrderSchema requestBody = true ->
      Spec.priceConstraint requestBody
      /\ (status = 201 \/ status = 404 \/ status = 422 \/ status = 500)
      /\ (status = 404 <-> ~ found)
      /\ (status = 422 <->
          found
          /\ ((~ stock
               /\ CreateOrderInput.instrumentId requestBody <> ARS_INSTRUMENT_ID)
              \/ (atMarket /\ latest = None)))
      /\ (found /\ atMarket /\ CreateOrderInput.size requestBody = None
          /\ (exists marketData,
                latest = Some marketData
                /\ (LatestMarketData.close marketData == 0)%Q) ->
          status = 500)
      /\ (status = 201 ->
          exists r,
            body = Some r
            /\ OrderService.executeOrder requestBody db = (Ok r, snd outcome)
            /\ snd outcome = Spec.persisted db (OrderService.order r))
      /\ (status <> 201 -> body = None /\ snd outcome = db)).
Proof.
  intros outcome status body found stock atMarket latest.
  subst outcome status body. unfold OrdersController.createOrder.
  split.
  { intros ->. reflexivity. }
  intro Hschema. rewrite Hschema. cbn [negb].
  split.
  { destruct (createOrderSchema_facts requestBody Hschema)
      as [_ [_ [_ [[Hty [price [Hp _]]] | [Hty Hp]]]]];
      unfold Spec.priceConstraint; rewrite Hty, Hp; split; congruence. }
  destruct (executeOrder_valid_body db requestBody Hschema)
    as [[Hnf [m ->]] | [[Hf [Hw [m ->]]] | [[Hf [Hd [m ->]]]
       | [[Hf [Hz [m ->]]] | [Hf [Hnw [Hnd [Hnz [r Hrun]]]]]]]]];
    try rewrite Hrun;
    cbn [fst snd OrdersController.status OrdersController.body
         ErrorHandler.statusCode].
  - split; [auto|].
    split; [split; [intros _; exact Hnf | reflexivity]|].
    split; [split; [discriminate | intros [H _]; contradiction]|].
    split; [intros [H _]; contradiction|].
    split; [discriminate|]. intros _. split; reflexivity.
  - split; [auto|].
    split; [split; [discriminate | intro H; contradiction]|].
    split; [split; [intros _; split; [exact Hf | left; exact Hw] | reflexivity]|].
    split; [intros [_ [[Hs _] _]]; destruct Hw as [Hns _]; contradiction|].
    split; [discriminate|]. intros _. split; reflexivity.
  - split; [auto|].
    split; [split; [discriminate | intro H; contradiction]|].
    split; [split; [intros _; split; [exact Hf | right; exact Hd] | reflexivity]|].
    split; [intros [_ [_ [_ [md [Hmd _]]]]]; destruct Hd as [_ Hnone];
            fold latest in Hnone; congruence|].
    split; [discriminate|]. intros _. split; reflexivity.
  - split; [auto|].
    split; [split; [discriminate | intro H; contradiction]|].
    split; [split; [discriminate|]|].
    { intros [_ [[Hns _] | [_ Hnone]]].
      - destruct Hz as [[Hs _] _]. contradiction.
      - destruct Hz as [_ [_ [md [Hmd _]]]]. fold latest in Hmd. congruence. }
    split; [intros _; reflexivity|].
    split; [discriminate|]. intros _. split; reflexivity.
  - split; [auto|].
    split; [split; [discriminate | intro H; contradiction]|].
    split; [split; [discriminate | intros [_ [H | H]]; contradiction]|].
    split; [intros [_ H]; contradiction|].
    split; [|congruence].
    intros _. exists r. repeat split; assumption.
Qed.

Lemma createOrder_endpoint_witness :
  OrdersController.status
    (fst (OrdersController.createOrder
            (CreateOrderInput.mk 1 47 BUY MARKET None (Some 1000%Q) None)
            (mkDb [Sample.alice] [Sample.pamp; Sample.ars]
               [LatestMarketData.mk 47 0 0 20] [Sample.deposit] 2 100)))
  = 500.
Proof.
  destruct (createOrder_endpoint
              (mkDb [Sample.alice] [Sample.pamp; Sample.ars]
                 [LatestMarketData.mk 47 0 0 20] [Sample.deposit] 2 100)
              (CreateOrderInput.mk 1 47 BUY MARKET None (Some 1000%Q) None))
    as [_ H].
  destruct (H eq_refl) as [_ [_ [_ [_ [H500 _]]]]].
  apply H500.
  split; [split; vm_compute; discriminate|].
  split; [split; [left; reflexivity | reflexivity]|].
  split; [reflexivity|].
  exists (LatestMarketData.mk 47 0 0 20). split; reflexivity.
Defined.

(* ================================================================== *)
(** ** Total amounts *)
(* ================================================================== *)


